(** * slack-eod: the activity aggregation of the EOD routes

    A shallow embedding of the three route files of the repository:

    - [src/app/slack-eod/route.ts]  (module [Eod]):  the digest route whose
      rolling window goes through [istNow];
    - the digest route that takes the rolling window from [new Date()]
      directly (module [EodUtc]);
    - the debug route that reports the per-branch breakdown
      (module [Debug]).

    Instants are ECMAScript time values: integral milliseconds since the
    epoch, or NaN for an invalid [Date]; [new Date(number)] clips them to
    the range of [Date], so the integers of the model are the numbers of the
    program.  The answers of the source-control host, of the summarizer and
    of the chat service, the clock, and what ECMA-262 leaves to the host
    (parsing of strings outside the date-time string format, localized
    formatting) are fields of an environment.  The lines of [console.warn]
    and [console.error], the calls made and thrown errors are threaded
    through a state-and-exception monad; the lines of [console.log] are not
    kept. *)

From Stdlib Require Import ZArith Lia Ascii String.
From stdpp Require Import gmap strings list pretty.

Open Scope Z_scope.

(* ===================================================================== *)
(** * ECMAScript dates *)
(* ===================================================================== *)

Module JS.

(** A [Date] object holds a time value: an integral number of milliseconds
    or NaN ([Invalid]). *)
Inductive Date : Type :=
| Invalid : Date
| Valid (t : Z) : Date.

(** A JS number as far as the routes use one: NaN or an integer. *)
Definition Number : Type := option Z.

Definition msPerDay : Z := 86400000.
Definition maxTime : Z := 8640000000000000.

(** [TimeClip]: what [new Date(number)] stores. *)
Definition TimeClip (n : Number) : Date :=
  match n with
  | None => Invalid
  | Some t => if (Z.abs t <=? maxTime) then Valid t else Invalid
  end.

(** [d.getTime()] *)
Definition getTime (d : Date) : Number :=
  match d with
  | Invalid => None
  | Valid t => Some t
  end.

(** [x + k] and [x - k] for a number [x] and an integer literal [k]. *)
Definition plus (x : Number) (k : Z) : Number := (λ t, t + k) <$> x.
Definition minus (x : Number) (k : Z) : Number := (λ t, t - k) <$> x.

(** [a > b] on two [Date] objects: both are converted to their time value,
    and a comparison with NaN is false. *)
Definition gt (a b : Date) : bool :=
  match a, b with
  | Valid x, Valid y => y <? x
  | _, _ => false
  end.

(** ** Day arithmetic (ECMA-262, "Day Number and Time within Day") *)

Definition InLeapYear (y : Z) : bool :=
  ((y mod 4 =? 0) && negb (y mod 100 =? 0)) || (y mod 400 =? 0).

Definition DayFromYear (y : Z) : Z :=
  365 * (y - 1970) + (y - 1969) / 4 - (y - 1901) / 100 + (y - 1601) / 400.

Definition DaysInMonth (y m : Z) : Z :=
  match m with
  | 1 | 3 | 5 | 7 | 8 | 10 | 12 => 31
  | 4 | 6 | 9 | 11 => 30
  | 2 => if InLeapYear y then 29 else 28
  | _ => 0
  end.

(** Number of days of year [y] that precede month [m] (1-based). *)
Definition DaysBeforeMonth (y m : Z) : Z :=
  let leap := if InLeapYear y then 1 else 0 in
  match m with
  | 1 => 0
  | 2 => 31
  | 3 => 59 + leap
  | 4 => 90 + leap
  | 5 => 120 + leap
  | 6 => 151 + leap
  | 7 => 181 + leap
  | 8 => 212 + leap
  | 9 => 243 + leap
  | 10 => 273 + leap
  | 11 => 304 + leap
  | _ => 334 + leap
  end.

(** [MakeDay(year, month - 1, date)] for a month in 1..12. *)
Definition MakeDay (y m d : Z) : Z :=
  DayFromYear y + DaysBeforeMonth y m + (d - 1).

Definition MakeTime (h mi s ms : Z) : Z :=
  ((h * 60 + mi) * 60 + s) * 1000 + ms.

Definition MakeDate (day time : Z) : Z := day * msPerDay + time.

(** ** The date-time string format (ECMA-262, "Date Time String Format")

    [YYYY], [YYYY-MM] or [YYYY-MM-DD] (or an expanded year [+YYYYYY],
    [-YYYYYY]), optionally followed by [THH:mm], [THH:mm:ss] or
    [THH:mm:ss.sss] and an offset [Z], [+HH:mm] or [-HH:mm]. *)

Definition digit_of_ascii (c : ascii) : option Z :=
  let n := Z.of_N (N_of_ascii c) in
  if (48 <=? n) && (n <=? 57) then Some (n - 48) else None.

(** Reads exactly [n] decimal digits. *)
Fixpoint take_digits (n : nat) (acc : Z) (s : string) : option (Z * string) :=
  match n with
  | O => Some (acc, s)
  | S n' =>
      match s with
      | String c r =>
          match digit_of_ascii c with
          | Some k => take_digits n' (10 * acc + k) r
          | None => None
          end
      | EmptyString => None
      end
  end.

Definition parse_year (s : string) : option (Z * string) :=
  match s with
  | String "+" r => take_digits 6 0 r
  | String "-" r =>
      match take_digits 6 0 r with
      | Some (y, r') => if y =? 0 then None else Some (- y, r')
      | None => None
      end
  | _ => take_digits 4 0 s
  end.

(** An optional two-digit field introduced by [sep]: [Some (None, s)]
    when the string does not go on with [sep]. *)
Definition parse_field (sep : ascii) (s : string)
  : option (option Z * string) :=
  match s with
  | String c r =>
      if Ascii.eqb c sep
      then match take_digits 2 0 r with
           | Some (n, r') => Some (Some n, r')
           | None => None
           end
      else Some (None, s)
  | EmptyString => Some (None, s)
  end.

(** The offset designator.  [None]: malformed; [Some None]: absent, the
    time is local time; [Some (Some o)]: [o] milliseconds east of UTC. *)
Definition parse_offset (s : string) : option (option Z) :=
  match s with
  | EmptyString => Some None
  | String "Z" EmptyString => Some (Some 0)
  | String c r =>
      let sign := if Ascii.eqb c "+" then Some 1
                  else if Ascii.eqb c "-" then Some (-1) else None in
      match sign, take_digits 2 0 r with
      | Some sg, Some (h, String ":" r') =>
          match take_digits 2 0 r' with
          | Some (mi, EmptyString) =>
              if (h <=? 23) && (mi <=? 59)
              then Some (Some (sg * MakeTime h mi 0 0))
              else None
          | _ => None
          end
      | _, _ => None
      end
  end.

(** The time of day after the [T]: milliseconds within the day and the
    rest of the string. *)
Definition parse_time (s : string) : option (Z * string) :=
  match take_digits 2 0 s with
  | Some (h, String ":" r) =>
      match take_digits 2 0 r with
      | Some (mi, String ":" r1) =>
          match take_digits 2 0 r1 with
          | Some (sec, r2) =>
              let frac :=
                match r2 with
                | String "." r3 => take_digits 3 0 r3
                | _ => Some (0, r2)
                end in
              match frac with
              | Some (ms, r4) =>
                  if ((h <=? 23) && (mi <=? 59) && (sec <=? 59))
                     || ((h =? 24) && (mi =? 0) && (sec =? 0) && (ms =? 0))
                  then Some (MakeTime h mi sec ms, r4)
                  else None
              | None => None
              end
          | None => None
          end
      | Some (mi, r1) =>
          if ((h <=? 23) && (mi <=? 59)) || ((h =? 24) && (mi =? 0))
          then Some (MakeTime h mi 0 0, r1)
          else None
      | None => None
      end
  | _ => None
  end.

(** The time value a string of the format denotes; [None] when the string
    is not of the format or holds an illegal element value.  [tza] is the
    offset of the host's local time zone, used by the date-time forms
    that carry no offset. *)
Definition parse_iso (tza : Z) (s : string) : option Z :=
  match parse_year s with
  | Some (y, r1) =>
      match parse_field "-" r1 with
      | Some (month, r2) =>
          match (match month with
                 | Some _ => parse_field "-" r2
                 | None => Some (None, r2)
                 end) with
          | Some (date, r3) =>
              let m := default 1 month in
              let d := default 1 date in
              if (1 <=? m) && (m <=? 12) && (1 <=? d) && (d <=? DaysInMonth y m)
              then
                match r3 with
                | EmptyString => Some (MakeDate (MakeDay y m d) 0)
                | String "T" r4 =>
                    match parse_time r4 with
                    | Some (time, r5) =>
                        match parse_offset r5 with
                        | Some off =>
                            Some (MakeDate (MakeDay y m d) time - default tza off)
                        | None => None
                        end
                    | None => None
                    end
                | _ => None
                end
              else None
          | None => None
          end
      | None => None
      end
  | None => None
  end.

(** ** Calendar dates as [YYYY-MM-DD] *)

Definition digit (k : Z) : ascii := ascii_of_N (Z.to_N (48 + k)).

Definition digits2 (n : Z) (rest : string) : string :=
  String (digit (n / 10)) (String (digit (n mod 10)) rest).

Definition digits4 (n : Z) (rest : string) : string :=
  digits2 (n / 100) (digits2 (n mod 100) rest).

(** The text [YYYY-MM-DD] of the date [d] of month [m] of year [y]. *)
Definition ymd (y m d : Z) : string :=
  digits4 y (String "-" (digits2 m (String "-" (digits2 d EmptyString)))).

(** The date after [(y, m, d)] in the calendar. *)
Definition next_day (y m d : Z) : Z * Z * Z :=
  if d <? DaysInMonth y m then (y, m, d + 1)
  else if m <? 12 then (y, m + 1, 1)
  else (y + 1, 1, 1).

(** The date before [(y, m, d)] in the calendar. *)
Definition prev_day (y m d : Z) : Z * Z * Z :=
  if 1 <? d then (y, m, d - 1)
  else if 1 <? m then (y, m - 1, DaysInMonth y (m - 1))
  else (y - 1, 12, 31).

(** [(y, m, d)] is a date of the calendar. *)
Definition is_date (date : Z * Z * Z) : Prop :=
  let '(y, m, d) := date in 1 ≤ m ≤ 12 ∧ 1 ≤ d ≤ DaysInMonth y m.

(** The day number of a date. *)
Definition day_number (date : Z * Z * Z) : Z :=
  let '(y, m, d) := date in MakeDay y m d.

(** The date [n] days after the first of January 1970. *)
Definition date_after_epoch (n : nat) : Z * Z * Z :=
  Nat.iter n (λ date, let '(y, m, d) := date in next_day y m d) (1970, 1, 1).

(** Offset of the civil time zone of the routes, [+05:30]. *)
Definition istOffset : Z := (5 * 60 + 30) * 60 * 1000.

(** The instant at which the clocks at [+05:30] read 00:00:00.000 of the
    date [(y, m, d)]. *)
Definition istMidnight (y m d : Z) : Z :=
  MakeDate (MakeDay y m d) 0 - istOffset.

End JS.

(* ===================================================================== *)
(** * Configuration, collaborators and effects *)
(* ===================================================================== *)

(** The environment variables read at module load. *)
Record Config : Type := {
  GITLAB_API : string;
  GITLAB_TOKEN : string;
  GITLAB_PROJECT_ID : string;
  GITLAB_USER_ID : string;
  GITLAB_EMAIL : option string;
  GITLAB_USERNAME : option string;
  SLACK_USER_ID : string;
  AI_MODEL_NAME : string
}.

(** ** Requests *)

Inductive ParamValue : Type :=
| PString (s : string)
| PNumber (n : Z)
| PUndefined.

Record Request : Type := {
  url : string;
  headers : list (string * string);
  params : list (string * ParamValue)
}.

#[global] Instance ParamValue_eq_dec : EqDecision ParamValue.
Proof. solve_decision. Defined.

#[global] Instance Request_eq_dec : EqDecision Request.
Proof. solve_decision. Defined.

(** ** Payloads of the source-control host *)

Record BranchCommitJson : Type := {
  created_at : string;
  message : option string;
  author_name : option string
}.

Record BranchJson : Type := {
  name : option string;
  commit : option BranchCommitJson
}.

Record MRJson : Type := {
  mr_title : string;
  mr_web_url : string;
  source_branch : option string;
  description : option string;
  mr_author_name : option string;   (* mr.author?.name *)
  mr_state : string;
  mr_created_at : string;
  mr_updated_at : string
}.

Record CommitJson : Type := {
  c_id : string;
  c_short_id : string;
  c_title : string;
  c_author_name : string;
  c_author_email : string;
  c_created_at : string;
  c_web_url : string
}.

(** ** Errors *)

(** [err.response] of a failed request that did get an HTTP answer. *)
Record ErrorResponse : Type := {
  status : Z;
  data_message : option string;   (* err.response.data?.message *)
  data_text : option string       (* err.response.data as printed, if truthy *)
}.

(** A thrown value: an [Error] with, for a failed request, its response. *)
Record JSError : Type := {
  err_name : string;
  err_message : string;
  response : option ErrorResponse
}.

Definition RangeError_invalid_time : JSError :=
  {| err_name := "RangeError"; err_message := "Invalid time value";
     response := None |}.

Inductive Reply (A : Type) : Type :=
| Answer (data : A)
| Failure (e : JSError).
Arguments Answer {A} data.
Arguments Failure {A} e.

(** ** The runtime and the collaborators

    What the routes take from outside: the clock, the host's own date
    parsing and formatting where ECMA-262 leaves them to the implementation,
    and the answers of the three services. *)
Record Env : Type := {
  (** time value of [new Date()] *)
  now : Z;
  (** offset of the host's local time zone, in milliseconds *)
  tza : Z;
  (** [new Date(s)] for a string that is not of the date-time string
      format: the implementation's own heuristics *)
  legacy_parse : string → JS.Date;
  (** [d.toLocaleString("en-US", { timeZone: "Asia/Kolkata" })] *)
  toLocaleString_en_US_Kolkata : JS.Date → string;
  (** [d.toLocaleString("en-IN", { timeZone: "Asia/Kolkata", ... })] *)
  toLocaleString_en_IN_Kolkata : JS.Date → string;
  (** [d.toISOString()] of a valid date *)
  iso_text : Z → string;
  (** what the console prints for an [Error] object that it is handed as an
      argument: its stack, that is its name and message followed by the
      frames, and its own properties *)
  inspect : JSError → string;
  gitlab_branches : Request → Reply (list BranchJson);
  gitlab_merge_requests : Request → Reply (list MRJson);
  gitlab_commits : Request → Reply (list CommitJson);
  (** [openai.chat.completions.create]: [choices?.[0]?.message?.content] *)
  openai_chat : string → list (string * string) → Reply (option string);
  (** [slack.chat.postMessage] *)
  slack_postMessage : string → string → Reply unit
}.

(** The same environment at another reading of the clock. *)
Definition with_clock (E : Env) (clock : Z) : Env :=
  {| now := clock; tza := tza E; legacy_parse := legacy_parse E;
     toLocaleString_en_US_Kolkata := toLocaleString_en_US_Kolkata E;
     toLocaleString_en_IN_Kolkata := toLocaleString_en_IN_Kolkata E;
     iso_text := iso_text E;
     inspect := inspect E;
     gitlab_branches := gitlab_branches E;
     gitlab_merge_requests := gitlab_merge_requests E;
     gitlab_commits := gitlab_commits E;
     openai_chat := openai_chat E;
     slack_postMessage := slack_postMessage E |}.

(** The same environment with another branch listing. *)
Definition with_branches (E : Env)
    (f : Request → Reply (list BranchJson)) : Env :=
  {| now := now E; tza := tza E; legacy_parse := legacy_parse E;
     toLocaleString_en_US_Kolkata := toLocaleString_en_US_Kolkata E;
     toLocaleString_en_IN_Kolkata := toLocaleString_en_IN_Kolkata E;
     iso_text := iso_text E;
     inspect := inspect E;
     gitlab_branches := f;
     gitlab_merge_requests := gitlab_merge_requests E;
     gitlab_commits := gitlab_commits E;
     openai_chat := openai_chat E;
     slack_postMessage := slack_postMessage E |}.

(** The same environment with other answers to the merge-request requests. *)
Definition with_merge_requests (E : Env)
    (f : Request → Reply (list MRJson)) : Env :=
  {| now := now E; tza := tza E; legacy_parse := legacy_parse E;
     toLocaleString_en_US_Kolkata := toLocaleString_en_US_Kolkata E;
     toLocaleString_en_IN_Kolkata := toLocaleString_en_IN_Kolkata E;
     iso_text := iso_text E;
     inspect := inspect E;
     gitlab_branches := gitlab_branches E;
     gitlab_merge_requests := f;
     gitlab_commits := gitlab_commits E;
     openai_chat := openai_chat E;
     slack_postMessage := slack_postMessage E |}.

(** The same environment with other answers to the commit queries. *)
Definition with_commits (E : Env)
    (f : Request → Reply (list CommitJson)) : Env :=
  {| now := now E; tza := tza E; legacy_parse := legacy_parse E;
     toLocaleString_en_US_Kolkata := toLocaleString_en_US_Kolkata E;
     toLocaleString_en_IN_Kolkata := toLocaleString_en_IN_Kolkata E;
     iso_text := iso_text E;
     inspect := inspect E;
     gitlab_branches := gitlab_branches E;
     gitlab_merge_requests := gitlab_merge_requests E;
     gitlab_commits := f;
     openai_chat := openai_chat E;
     slack_postMessage := slack_postMessage E |}.

(** The same environment but for the request [r], which fails with [err]. *)
Definition failing (E : Env) (r : Request) (err : JSError) : Env :=
  with_merge_requests E
    (λ r', if decide (r' = r) then Failure err else gitlab_merge_requests E r').

(** ** Effects: the console, the calls made, and thrown errors *)

Inductive Level : Type := LWarn | LError.

Inductive Call : Type :=
| CallGet (r : Request)
| CallChat (model : string) (messages : list (string * string))
| CallPost (channel text : string).

Record World : Type := {
  console : list (Level * list string);
  calls : list Call
}.

Definition world0 : World := {| console := []; calls := [] |}.

Inductive Outcome (A : Type) : Type :=
| Returned (a : A)
| Thrown (e : JSError).
Arguments Returned {A} a.
Arguments Thrown {A} e.

Definition Eff (A : Type) : Type := World → Outcome A * World.

#[global] Instance Eff_ret : MRet Eff := λ A a w, (Returned a, w).

#[global] Instance Eff_bind : MBind Eff := λ A B k m w,
  match m w with
  | (Returned a, w') => k a w'
  | (Thrown e, w') => (Thrown e, w')
  end.

Definition throw {A} (e : JSError) : Eff A := λ w, (Thrown e, w).

(** [try { body } catch (err) { handler }] *)
Definition try_catch {A} (body : Eff A) (handler : JSError → Eff A) : Eff A :=
  λ w,
    match body w with
    | (Returned a, w') => (Returned a, w')
    | (Thrown e, w') => handler e w'
    end.

Definition console_log (lvl : Level) (args : list string) : Eff unit :=
  λ w, (Returned tt,
        {| console := console w ++ [(lvl, args)]; calls := calls w |}).

Definition console_warn : list string → Eff unit := console_log LWarn.
Definition console_error : list string → Eff unit := console_log LError.

Definition record_call (c : Call) : Eff unit :=
  λ w, (Returned tt, {| console := console w; calls := calls w ++ [c] |}).

Definition await {A} (r : Reply A) : Eff A :=
  match r with
  | Answer data => mret data
  | Failure e => throw e
  end.

(** [await axios.get(url, { headers, params })]; the result is [res.data]. *)
Definition axios_get {A} (service : Request → Reply A) (r : Request) : Eff A :=
  record_call (CallGet r);; await (service r).

(** ** Small pieces of JavaScript *)

(** Truthiness of a string that may be [null] or [undefined]. *)
Definition truthy (o : option string) : bool :=
  match o with
  | Some s => negb (String.eqb s EmptyString)
  | None => false
  end.

(** [a || b] on such strings. *)
Definition or_else (a b : option string) : option string :=
  if truthy a then a else b.

(** [xs.filter(Boolean)] *)
Definition filter_Boolean (xs : list (option string)) : list string :=
  omap (λ o, if truthy o then o else None) xs.

(** [Array.from(new Set(xs))]: a [Set] keeps its elements in the order of
    their first insertion. *)
Fixpoint Set_add_all {A} `{EqDecision A} (set xs : list A) : list A :=
  match xs with
  | [] => set
  | x :: rest => Set_add_all (if decide (x ∈ set) then set else set ++ [x]) rest
  end.

Definition Array_from_Set {A} `{EqDecision A} (xs : list A) : list A :=
  Set_add_all [] xs.

Definition nl : string := String (ascii_of_nat 10) EmptyString.
Definition dquote : string := String (ascii_of_nat 34) EmptyString.

(** [xs.join(sep)] *)
Definition join (sep : string) (xs : list string) : string :=
  String.concat sep xs.

(** [${err.message || err}] in a template literal: the message, and
    [String(err)] when the message is empty, which is then the name of the
    error. *)
Definition message_or_text (e : JSError) : string :=
  if String.eqb (err_message e) EmptyString then err_name e else err_message e.

(** [err.message || err] as an argument of the console: the message, and
    the error object itself when the message is empty. *)
Definition message_or_error (E : Env) (e : JSError) : string :=
  if String.eqb (err_message e) EmptyString then inspect E e else err_message e.

(** ** [String.prototype.trim]

    A string is the UTF-8 text of the JavaScript string.  [trim] removes
    from both ends the code points of WhiteSpace and LineTerminator of
    ECMA-262: TAB, LF, VT, FF, CR, SP, U+00A0, U+1680, U+2000 to U+200A,
    U+2028, U+2029, U+202F, U+205F, U+3000 and U+FEFF; they stand here by
    their UTF-8 encodings. *)
Definition bytes (codes : list Z) : list ascii :=
  (λ code, ascii_of_N (Z.to_N code)) <$> codes.

Definition white_space : list (list ascii) :=
  bytes <$>
    [ [9]; [10]; [11]; [12]; [13]; [32];
      [194; 160];
      [225; 154; 128];
      [226; 128; 128]; [226; 128; 129]; [226; 128; 130]; [226; 128; 131];
      [226; 128; 132]; [226; 128; 133]; [226; 128; 134]; [226; 128; 135];
      [226; 128; 136]; [226; 128; 137]; [226; 128; 138];
      [226; 128; 168]; [226; 128; 169];
      [226; 128; 175];
      [226; 129; 159];
      [227; 128; 128];
      [239; 187; 191] ].

(** The text after the prefix [p], if it starts with [p]. *)
Fixpoint strip_prefix (p s : list ascii) : option (list ascii) :=
  match p, s with
  | [], _ => Some s
  | a :: p', b :: s' => if Ascii.eqb a b then strip_prefix p' s' else None
  | _ :: _, [] => None
  end.

(** The text after its first code point, if that is one of [chars]. *)
Fixpoint strip_one (chars : list (list ascii)) (s : list ascii)
  : option (list ascii) :=
  match chars with
  | [] => None
  | p :: rest =>
      match strip_prefix p s with
      | Some r => Some r
      | None => strip_one rest s
      end
  end.

(** The text without its leading code points of [chars]; [fuel] bounds
    their number, and the length of the text is enough of it. *)
Fixpoint strip_leading (chars : list (list ascii)) (fuel : nat)
    (s : list ascii) : list ascii :=
  match fuel with
  | O => s
  | S fuel =>
      match strip_one chars s with
      | Some r => strip_leading chars fuel r
      | None => s
      end
  end.

Definition trim_start (s : list ascii) : list ascii :=
  strip_leading white_space (length s) s.

(** The same from the end: on the reversed text with the reversed
    encodings. *)
Definition trim_end (s : list ascii) : list ascii :=
  rev (strip_leading (@rev ascii <$> white_space) (length s) (rev s)).

Definition trim (s : string) : string :=
  string_of_list_ascii (trim_end (trim_start (list_ascii_of_string s))).

(** The text is made of white space only (the empty text is). *)
Definition only_white_space (s : string) : Prop :=
  ∃ chars, Forall (λ c, c ∈ white_space) chars
           ∧ list_ascii_of_string s = concat chars.

(** ** UTF-16 code units

    [length], [substring] and the like count the UTF-16 code units of a
    string: one for a code point below U+10000, two (a surrogate pair) for
    any other.  A byte that starts no well-formed UTF-8 sequence, which no
    JavaScript string gives, reads U+FFFD. *)
Definition byte (c : ascii) : Z := Z.of_N (N_of_ascii c).

Definition continuation (c : ascii) : bool :=
  (128 <=? byte c) && (byte c <? 192).

Fixpoint utf16 (s : string) : list Z :=
  match s with
  | EmptyString => []
  | String b0 r0 =>
      if byte b0 <? 128 then byte b0 :: utf16 r0
      else
        match r0 with
        | String b1 r1 =>
            if (192 <=? byte b0) && (byte b0 <? 224) && continuation b1
            then (Z.land (byte b0) 31 * 64 + Z.land (byte b1) 63) :: utf16 r1
            else
              match r1 with
              | String b2 r2 =>
                  if (224 <=? byte b0) && (byte b0 <? 240)
                     && continuation b1 && continuation b2
                  then (Z.land (byte b0) 15 * 4096 + Z.land (byte b1) 63 * 64
                        + Z.land (byte b2) 63) :: utf16 r2
                  else
                    match r2 with
                    | String b3 r3 =>
                        if (240 <=? byte b0) && (byte b0 <? 248)
                           && continuation b1 && continuation b2
                           && continuation b3
                        then
                          let point :=
                            Z.land (byte b0) 7 * 262144
                            + Z.land (byte b1) 63 * 4096
                            + Z.land (byte b2) 63 * 64
                            + Z.land (byte b3) 63 in
                          (55296 + (point - 65536) / 1024)
                            :: (56320 + (point - 65536) mod 1024)
                            :: utf16 r3
                        else 65533 :: utf16 r0
                    | EmptyString => 65533 :: utf16 r0
                    end
              | EmptyString => 65533 :: utf16 r0
              end
        | EmptyString => [65533]
        end
  end.

(** [object[key] = value] on a plain object used as a map.  An assignment
    to [__proto__] goes to the setter of [Object.prototype]: it replaces
    the prototype of the object and makes no property of its own, so
    [Object.values], [Object.entries] and the JSON of the object, which show
    own properties only, do not have it.  The map holds the own
    properties. *)
Definition Object_set {V} (key : string) (value : V)
    (object : gmap string V) : gmap string V :=
  if String.eqb key "__proto__" then object else <[key := value]> object.

(* ===================================================================== *)
(** * What the three routes share *)
(* ===================================================================== *)

Section Shared.
Context (E : Env) (cfg : Config).

(** [new Date(s)]: the date-time string format first, the host's own
    heuristics for any other string. *)
Definition Date_parse (s : string) : JS.Date :=
  match JS.parse_iso (tza E) s with
  | Some t => JS.TimeClip (Some t)
  | None => legacy_parse E s
  end.

(** [new Date()] *)
Definition Date_now : JS.Date := JS.TimeClip (Some (now E)).

(** [d.toISOString()] throws a [RangeError] on an invalid date. *)
Definition toISOString (d : JS.Date) : Eff string :=
  match d with
  | JS.Valid t => mret (iso_text E t)
  | JS.Invalid => throw RangeError_invalid_time
  end.

Definition formatIstLabel (d : JS.Date) : string :=
  toLocaleString_en_IN_Kolkata E d.

Definition private_token : list (string * string) :=
  [("PRIVATE-TOKEN", GITLAB_TOKEN cfg)].

Definition project_url : string :=
  GITLAB_API cfg +:+ "/projects/" +:+ GITLAB_PROJECT_ID cfg.

(** [GET /projects/:id/repository/branches?per_page=200] *)
Definition branchesRequest : Request :=
  {| url := project_url +:+ "/repository/branches?per_page=200";
     headers := private_token;
     params := [] |}.

(** [GET /projects/:id/merge_requests], updated within the window *)
Definition windowMRsRequest (sinceIso untilIso : string) : Request :=
  {| url := project_url +:+ "/merge_requests";
     headers := private_token;
     params := [("updated_after", PString sinceIso);
                ("updated_before", PString untilIso);
                ("per_page", PNumber 100)] |}.

(** [GITLAB_EMAIL || GITLAB_USERNAME] *)
Definition authorFilter : option string :=
  or_else (GITLAB_EMAIL cfg) (GITLAB_USERNAME cfg).

(** [GET /projects/:id/repository/commits] of one branch *)
Definition commitsRequest (branch sinceIso untilIso : string) : Request :=
  {| url := project_url +:+ "/repository/commits";
     headers := private_token;
     params := [("ref_name", PString branch);
                ("since", PString sinceIso);
                ("until", PString untilIso);
                ("author", from_option PString PUndefined authorFilter);
                ("per_page", PNumber 100)] |}.

(** [GET /projects/:id/merge_requests] with [author_id] *)
Definition createdRequest (sinceIso untilIso : string) : Request :=
  {| url := project_url +:+ "/merge_requests";
     headers := private_token;
     params := [("author_id", PString (GITLAB_USER_ID cfg));
                ("updated_after", PString sinceIso);
                ("updated_before", PString untilIso);
                ("per_page", PNumber 100)] |}.

(** [GET /merge_requests] with [reviewer_id] *)
Definition reviewedRequest (sinceIso untilIso : string) : Request :=
  {| url := GITLAB_API cfg +:+ "/merge_requests";
     headers := private_token;
     params := [("reviewer_id", PString (GITLAB_USER_ID cfg));
                ("updated_after", PString sinceIso);
                ("updated_before", PString untilIso);
                ("per_page", PNumber 100)] |}.

(** The recency margin of the active branches: [7 * 24 * 60 * 60 * 1000]. *)
Definition recencyMargin : Z := 7 * 24 * 60 * 60 * 1000.

(** [new Date(until.getTime() - margin)] *)
Definition cutoffAt (margin : Z) (until : JS.Date) : JS.Date :=
  JS.TimeClip (JS.minus (JS.getTime until) margin).

Definition cutoff (until : JS.Date) : JS.Date := cutoffAt recencyMargin until.

(** [b.commit && new Date(b.commit.created_at) > cutoff] *)
Definition isActiveAfter (cut : JS.Date) (b : BranchJson) : bool :=
  match commit b with
  | Some c => JS.gt (Date_parse (created_at c)) cut
  | None => false
  end.

(** [mrRes.data.map((mr) => mr.source_branch).filter(Boolean)] *)
Definition mrBranches (data : list MRJson) : list string :=
  filter_Boolean (source_branch <$> data).

End Shared.

(* ===================================================================== *)
(** * The digest route, [src/app/slack-eod/route.ts] *)
(* ===================================================================== *)

Record Commit : Type := {
  id : string;
  title : string;
  web_url : string;
  branch : string
}.

(** [{ ok: true, message }] *)
Record Result : Type := { ok : bool; result_message : string }.

(** [Response.json(body, { status })] *)
Inductive Body : Type :=
| BodyResult (r : Result)
| BodyError (error : string).

Record Response : Type := { http_status : Z; body : Body }.

(** The filter of "dedupe by commit id", with its [seen] set made explicit. *)
Fixpoint dedupe_from (seen : gset string) (commits : list Commit) : list Commit :=
  match commits with
  | [] => []
  | c :: rest =>
      if decide (id c ∈ seen) then dedupe_from seen rest
      else c :: dedupe_from ({[id c]} ∪ seen) rest
  end.

Definition dedupe (commits : list Commit) : list Commit := dedupe_from ∅ commits.

(** The [activity] template of step 5. *)
Definition activity (commitLines createdMRs reviewedMRs : list string) : string :=
  let section (lines : list string) :=
    if bool_decide (length lines = 0%nat) then "None" else join nl lines in
  nl +:+ "Commits (" +:+ pretty (length commitLines) +:+ "):" +:+ nl
     +:+ section commitLines +:+ nl
     +:+ nl
     +:+ "MRs Created:" +:+ nl
     +:+ section createdMRs +:+ nl
     +:+ nl
     +:+ "MRs Reviewed:" +:+ nl
     +:+ section reviewedMRs +:+ nl.

Module Eod.
Section Route.
Context (E : Env) (cfg : Config).

Definition istNow : JS.Date :=
  let now := Date_now E in
  let istString := toLocaleString_en_US_Kolkata E now in
  Date_parse E istString.

Definition istMidnightFromDateString (dateInput : string) : JS.Date :=
  Date_parse E (dateInput +:+ "T00:00:00+05:30").

Definition toIsoUTC (d : JS.Date) : Eff string :=
  toISOString E (JS.TimeClip (JS.getTime d)).

(** The head of [handleEODRequest]: [(sinceIst, untilIst)]. *)
Definition window (dateParam : option string) : JS.Date * JS.Date :=
  if truthy dateParam then
    let sinceIst := istMidnightFromDateString (default EmptyString dateParam) in
    let untilIst :=
      JS.TimeClip (JS.plus (JS.getTime sinceIst) (24 * 60 * 60 * 1000)) in
    (sinceIst, untilIst)
  else
    let untilIst := istNow in
    let sinceIst :=
      JS.TimeClip (JS.minus (JS.getTime untilIst) (24 * 60 * 60 * 1000)) in
    (sinceIst, untilIst).

(** Step 1, first [try]: the names of the branches with a recent commit. *)
Definition activeBranchesAt (margin : Z) (untilIst : JS.Date)
    (data : list BranchJson) : list (option string) :=
  name <$> filter (λ b, isActiveAfter E (cutoffAt margin untilIst) b) data.

Definition activeBranches : JS.Date → list BranchJson → list (option string) :=
  activeBranchesAt recencyMargin.

(** Step 1: the branch candidates. *)
Definition gatherBranches (untilIst : JS.Date) (sinceIso untilIso : string)
  : Eff (list string) :=
  allBranches ← try_catch
    (data ← axios_get (gitlab_branches E) (branchesRequest cfg);
     mret (activeBranches untilIst data))
    (λ err,
       console_warn ["⚠️ Could not fetch branches:"; message_or_error E err];;
       mret []);
  allBranches ← try_catch
    (data ← axios_get (gitlab_merge_requests E)
              (windowMRsRequest cfg sinceIso untilIso);
     mret (allBranches ++ (Some <$> mrBranches data)))
    (λ err,
       console_warn ["⚠️ Could not fetch MRs for branches:";
                     message_or_error E err];;
       mret allBranches);
  mret (Array_from_Set (filter_Boolean allBranches)).

(** [err.response?.status && err.response.status !== 404] *)
Definition warns_on (err : JSError) : bool :=
  match response err with
  | Some r => negb (status r =? 0) && negb (status r =? 404)
  | None => false
  end.

Definition ofBranch (branch : string) (c : CommitJson) : Commit :=
  {| id := c_id c; title := c_title c; web_url := c_web_url c;
     branch := branch |}.

(** Step 2: the loop over the branch candidates; [commits] is the array
    the loop pushes to. *)
Fixpoint collectCommits (sinceIso untilIso : string) (branches : list string)
    (commits : list Commit) : Eff (list Commit) :=
  match branches with
  | [] => mret commits
  | branch :: rest =>
      commits ← try_catch
        (data ← axios_get (gitlab_commits E)
                  (commitsRequest cfg branch sinceIso untilIso);
         mret (if bool_decide (length data = 0%nat) then commits
               else commits ++ (ofBranch branch <$> data)))
        (λ err,
           (if warns_on err
            then console_warn
                   ["⚠️ commits fetch failed for branch " +:+ branch +:+ ": "
                      +:+ message_or_text err]
            else mret tt);;
           mret commits);
      collectCommits sinceIso untilIso rest commits
  end.

Definition commitLine (c : Commit) : string :=
  "• " +:+ title c +:+ " (" +:+ branch c +:+ ") → " +:+ web_url c.

Definition mrLine (mr : MRJson) : string :=
  "• " +:+ mr_title mr +:+ " (" +:+ mr_web_url mr +:+ ")".

(** Step 3: the merge requests authored in the window. *)
Definition fetchCreatedMRs (sinceIso untilIso : string) : Eff (list string) :=
  try_catch
    (data ← axios_get (gitlab_merge_requests E)
              (createdRequest cfg sinceIso untilIso);
     mret (mrLine <$> data))
    (λ err,
       console_warn ["⚠️ Could not fetch created MRs:"; message_or_error E err];;
       mret []).

(** Step 4: the merge requests reviewed in the window. *)
Definition fetchReviewedMRs (sinceIso untilIso : string) : Eff (list string) :=
  try_catch
    (data ← axios_get (gitlab_merge_requests E)
              (reviewedRequest cfg sinceIso untilIso);
     mret (mrLine <$> data))
    (λ err,
       console_warn ["⚠️ Could not fetch reviewed MRs:"; message_or_error E err];;
       mret []).

Definition aiPrompt (labelSince labelUntil activity : string) : string :=
  "Summarize the following GitLab activity into a concise EOD update for a Slack message." +:+ nl
  +:+ "Time window (IST): " +:+ labelSince +:+ " → " +:+ labelUntil +:+ nl
  +:+ "Raw activity:" +:+ nl
  +:+ activity +:+ nl
  +:+ "Keep it short (3-6 bullets), action-oriented, and professional, no vague eod updates." +:+ nl
  +:+ nl
  +:+ "Output format:" +:+ nl
  +:+ "*EOD UPDATE* (date)" +:+ nl
  +:+ "- main topic" +:+ nl
  +:+ "  - subtopic (if any)" +:+ nl
  +:+ "  - subtopic (if any)" +:+ nl
  +:+ "- main topic" +:+ nl
  +:+ "  - subtopic (if any)" +:+ nl
  +:+ nl
  +:+ "if not any activity, say " +:+ dquote +:+ " *EOD UPDATE* " +:+ nl
  +:+ "No activity on gitlab" +:+ dquote +:+ "." +:+ nl.

Definition system_message : string * string :=
  ("system",
   "You are a concise assistant generating daily developer EOD summaries.").

(** Step 6: the summary, or the raw activity when the summarizer fails or
    answers nothing. *)
Definition summarize (prompt activity : string) : Eff string :=
  try_catch
    (let messages := [system_message; ("user", prompt)] in
     record_call (CallChat (AI_MODEL_NAME cfg) messages);;
     content ← await (openai_chat E (AI_MODEL_NAME cfg) messages);
     mret (default activity (or_else (trim <$> content) (Some activity))))
    (λ err,
       console_warn ["⚠️ OpenAI summary failed, using raw activity:";
                     message_or_error E err];;
       mret activity).

(** Step 7: [await slack.chat.postMessage({ channel, text })] *)
Definition postMessage (channel text : string) : Eff unit :=
  record_call (CallPost channel text);;
  await (slack_postMessage E channel text).

(** Steps 1 to 4 of [handleEODRequest]: the deduplicated commits and the
    lines of the two merge-request lists. *)
Definition collectActivity (untilIst : JS.Date) (sinceIso untilIso : string)
  : Eff (list Commit * list string * list string) :=
  branches ← gatherBranches untilIst sinceIso untilIso;
  commits ← collectCommits sinceIso untilIso branches [];
  let commits := dedupe commits in
  createdMRs ← fetchCreatedMRs sinceIso untilIso;
  reviewedMRs ← fetchReviewedMRs sinceIso untilIso;
  mret (commits, createdMRs, reviewedMRs).

Definition handleEODRequest (dateParam : option string) : Eff Result :=
  let '(sinceIst, untilIst) := window dateParam in
  sinceIso ← toIsoUTC sinceIst;
  untilIso ← toIsoUTC untilIst;
  let labelSince := formatIstLabel E sinceIst in
  let labelUntil := formatIstLabel E untilIst in
  '(commits, createdMRs, reviewedMRs) ←
    collectActivity untilIst sinceIso untilIso;
  let commitLines := commitLine <$> commits in
  let activity := activity commitLines createdMRs reviewedMRs in
  eodSummary ← summarize (aiPrompt labelSince labelUntil activity) activity;
  let slackDateLabel := labelSince +:+ " → " +:+ labelUntil in
  postMessage (SLACK_USER_ID cfg) eodSummary;;
  mret {| ok := true;
          result_message := "EOD sent for window " +:+ slackDateLabel |}.

(** [error.response?.data || error.message] as it prints. *)
Definition data_or_message (e : JSError) : string :=
  default (err_message e) (response e ≫= data_text).

(** [GET]; [date] is [url.searchParams.get("date")], [None] being [null]. *)
Definition GET (date : option string) : Eff Response :=
  try_catch
    (result ← handleEODRequest date;
     mret {| http_status := 200; body := BodyResult result |})
    (λ error,
       console_error ["EOD GET error:"; data_or_message error];;
       mret {| http_status := 500; body := BodyError (err_message error) |}).

(** [POST]; [date] is [body.date] of the JSON body, a string or absent. *)
Definition POST (date : option string) : Eff Response :=
  try_catch
    (result ← handleEODRequest date;
     mret {| http_status := 200; body := BodyResult result |})
    (λ error,
       console_error ["EOD POST error:"; data_or_message error];;
       mret {| http_status := 500; body := BodyError (err_message error) |}).

End Route.
End Eod.

(* ===================================================================== *)
(** * The digest route that reads the clock directly *)
(* ===================================================================== *)

(** This file has steps 1, 2 and 4, the dedupe filter, the [activity]
    template, the summary, the post and [GET] word for word as
    [src/app/slack-eod/route.ts] has them; it differs in the window, in the
    lines of the created merge requests and in the prompt. *)
Module EodUtc.
Section Route.
Context (E : Env) (cfg : Config).

(** The head of [handleEODRequest]: [(sinceUtc, untilUtc)]. *)
Definition window (dateParam : option string) : JS.Date * JS.Date :=
  if truthy dateParam then
    let istMidnight :=
      Date_parse E (default EmptyString dateParam +:+ "T00:00:00+05:30") in
    let sinceUtc := istMidnight in
    let untilUtc :=
      JS.TimeClip (JS.plus (JS.getTime istMidnight) (24 * 60 * 60 * 1000)) in
    (sinceUtc, untilUtc)
  else
    let untilUtc := Date_now E in
    let sinceUtc :=
      JS.TimeClip (JS.minus (JS.getTime untilUtc) (24 * 60 * 60 * 1000)) in
    (sinceUtc, untilUtc).

Definition createdLine (mr : MRJson) : string :=
  let description :=
    default "No description provided"
      (or_else (trim <$> description mr) (Some "No description provided")) in
  "• " +:+ mr_title mr +:+ nl
  +:+ "  Description: " +:+ description +:+ nl
  +:+ "  URL: " +:+ mr_web_url mr.

(** Step 3: the merge requests authored in the window, with descriptions. *)
Definition fetchCreatedMRs (sinceIso untilIso : string) : Eff (list string) :=
  try_catch
    (data ← axios_get (gitlab_merge_requests E)
              (createdRequest cfg sinceIso untilIso);
     mret (createdLine <$> data))
    (λ err,
       console_warn ["⚠️ Could not fetch created MRs:"; message_or_error E err];;
       mret []).

(** [s.split(",")[0]] *)
Fixpoint before_comma (s : string) : string :=
  match s with
  | String c r =>
      if Ascii.eqb c "," then EmptyString else String c (before_comma r)
  | EmptyString => EmptyString
  end.

Definition aiPrompt (labelSince labelUntil activity : string) : string :=
  "Summarize the following GitLab activity into a concise EOD update for a Slack message." +:+ nl
  +:+ "Time window: " +:+ labelSince +:+ " → " +:+ labelUntil +:+ nl
  +:+ "Raw activity:" +:+ nl
  +:+ activity +:+ nl
  +:+ nl
  +:+ "Instructions:" +:+ nl
  +:+ "1. Keep it short (3-6 bullets), action-oriented, and professional" +:+ nl
  +:+ "2. No vague updates - be specific about what was done" +:+ nl
  +:+ "3. Group related work together under main topics" +:+ nl
  +:+ "4. Use nested bullet points (with proper indentation using spaces) for subtopics" +:+ nl
  +:+ nl
  +:+ "IMPORTANT - Follow this exact format:" +:+ nl
  +:+ nl
  +:+ "*EOD UPDATE* (" +:+ before_comma labelSince +:+ ")" +:+ nl
  +:+ "• Main accomplishment or feature area" +:+ nl
  +:+ "  ◦ Specific detail or subtask" +:+ nl
  +:+ "  ◦ Another specific detail" +:+ nl
  +:+ "• Another main accomplishment" +:+ nl
  +:+ "  ◦ Specific detail" +:+ nl
  +:+ nl
  +:+ "If there's no activity, respond with exactly:" +:+ nl
  +:+ "*EOD UPDATE*" +:+ nl
  +:+ "No activity on GitLab today." +:+ nl
  +:+ nl
  +:+ "Use bullet point characters:" +:+ nl
  +:+ "- Main points: • (bullet)" +:+ nl
  +:+ "- Sub-points: ◦ (white bullet) with 2 spaces indentation" +:+ nl.

Definition collectActivity (untilUtc : JS.Date) (sinceIso untilIso : string)
  : Eff (list Commit * list string * list string) :=
  branches ← Eod.gatherBranches E cfg untilUtc sinceIso untilIso;
  commits ← Eod.collectCommits E cfg sinceIso untilIso branches [];
  let commits := dedupe commits in
  createdMRs ← fetchCreatedMRs sinceIso untilIso;
  reviewedMRs ← Eod.fetchReviewedMRs E cfg sinceIso untilIso;
  mret (commits, createdMRs, reviewedMRs).

Definition handleEODRequest (dateParam : option string) : Eff Result :=
  let '(sinceUtc, untilUtc) := window dateParam in
  sinceIso ← toISOString E sinceUtc;
  untilIso ← toISOString E untilUtc;
  let labelSince := formatIstLabel E sinceUtc in
  let labelUntil := formatIstLabel E untilUtc in
  '(commits, createdMRs, reviewedMRs) ←
    collectActivity untilUtc sinceIso untilIso;
  let commitLines := Eod.commitLine <$> commits in
  let activity := activity commitLines createdMRs reviewedMRs in
  eodSummary ← Eod.summarize E cfg (aiPrompt labelSince labelUntil activity)
                 activity;
  let slackDateLabel := labelSince +:+ " → " +:+ labelUntil in
  Eod.postMessage E (SLACK_USER_ID cfg) eodSummary;;
  mret {| ok := true;
          result_message := "EOD sent for window " +:+ slackDateLabel |}.

Definition GET (date : option string) : Eff Response :=
  try_catch
    (result ← handleEODRequest date;
     mret {| http_status := 200; body := BodyResult result |})
    (λ error,
       console_error ["EOD GET error:"; Eod.data_or_message error];;
       mret {| http_status := 500; body := BodyError (err_message error) |}).

Definition POST (date : option string) : Eff Response :=
  try_catch
    (result ← handleEODRequest date;
     mret {| http_status := 200; body := BodyResult result |})
    (λ error,
       console_error ["EOD POST error:"; Eod.data_or_message error];;
       mret {| http_status := 500; body := BodyError (err_message error) |}).

End Route.
End EodUtc.

(* ===================================================================== *)
(** * The debug route *)
(* ===================================================================== *)

(** [GET /api/debug-gitlab?date=YYYY-MM-DD]: the same window, branch
    selection and per-branch commit queries, reported as one [debugInfo]
    object.  The echo of the configuration in [debugInfo.config] is left
    out. *)
Module Debug.

Record TimeWindow : Type := {
  since : string; until : string; sinceIST : string; untilIST : string
}.

Record BranchInfo : Type := {
  bi_name : option string;
  lastCommitDate : string;
  lastCommitDateIST : string;
  isActive : bool;   (* [null] for a branch without a commit reads as false *)
  lastCommitMessage : string;
  lastCommitAuthor : string
}.

Record BranchStats : Type := { total : nat; active : nat }.

Record UpdatedMR : Type := {
  u_title : string; u_sourceBranch : option string; u_author : option string;
  u_updatedAt : string; u_state : string; u_webUrl : string
}.

Record CreatedMR : Type := {
  cr_title : string; cr_description : list Z; cr_sourceBranch : option string;
  cr_createdAt : string; cr_updatedAt : string; cr_state : string;
  cr_webUrl : string
}.

Record ReviewedMR : Type := {
  rv_title : string; rv_author : option string; rv_state : string;
  rv_webUrl : string
}.

Record MRsSummary : Type := {
  updatedInWindow : option (list UpdatedMR);
  createdByUser : option (list CreatedMR);
  reviewedByUser : option (list ReviewedMR)
}.

Record BranchSelection : Type := {
  sel_activeBranches : nat;
  sel_mrBranches : nat;
  combinedUnique : nat;
  sel_branches : list string
}.

Record CommitDetail : Type := {
  d_id : string; d_short_id : string; d_title : string;
  d_author_name : string; d_author_email : string; d_created_at : string;
  d_created_at_IST : string; d_web_url : string
}.

(** One entry of [debugInfo.commitsPerBranch]. *)
Record BranchCommits : Type := {
  error : option string;
  count : nat;
  commits : list CommitDetail
}.

Record Summary : Type := {
  totalBranches : nat;
  branchesWithCommitsLen : nat;
  totalCommitsByYou : nat;
  mrsCreatedByYou : nat;
  mrsReviewedByYou : nat;
  branchesWithCommits : gmap string nat
}.

Record DebugInfo : Type := {
  timeWindow : TimeWindow;
  branches : list BranchInfo;
  branchStats : option BranchStats;
  mrsSummary : MRsSummary;
  branchSelection : BranchSelection;
  commitsPerBranch : gmap string BranchCommits;
  errors : list string;
  summary : Summary
}.

Inductive Body : Type :=
| BodyInfo (info : DebugInfo)
| BodyError (error : string).

Record Response : Type := { http_status : Z; body : Body }.

Section Route.
Context (E : Env) (cfg : Config).

Definition window (dateParam : option string) : JS.Date * JS.Date :=
  if truthy dateParam then
    let istMidnight :=
      Date_parse E (default EmptyString dateParam +:+ "T00:00:00+05:30") in
    let sinceUtc := istMidnight in
    let untilUtc :=
      JS.TimeClip (JS.plus (JS.getTime istMidnight) (24 * 60 * 60 * 1000)) in
    (sinceUtc, untilUtc)
  else
    let untilUtc := Date_now E in
    let sinceUtc :=
      JS.TimeClip (JS.minus (JS.getTime untilUtc) (24 * 60 * 60 * 1000)) in
    (sinceUtc, untilUtc).

(** [${err.response?.status}] *)
Definition status_text (err : JSError) : string :=
  match response err with
  | Some r => pretty (status r)
  | None => "undefined"
  end.

Definition fetch_failed (what : string) (err : JSError) : string :=
  what +:+ " fetch failed: " +:+ status_text err +:+ " - " +:+ err_message err.

(** The callback of [branchesRes.data.map] in step 1. *)
Definition branchInfo (cut : JS.Date) (b : BranchJson) : Eff BranchInfo :=
  let commitDate := (λ c, Date_parse E (created_at c)) <$> commit b in
  let isActive :=
    match commitDate with
    | Some d => JS.gt d cut
    | None => false
    end in
  lastCommitDate ←
    match commitDate with
    | Some d => toISOString E d
    | None => mret "unknown"
    end;
  mret {| bi_name := name b;
          lastCommitDate := lastCommitDate;
          lastCommitDateIST :=
            match commitDate with
            | Some d => formatIstLabel E d
            | None => "unknown"
            end;
          isActive := isActive;
          lastCommitMessage :=
            default "N/A" (or_else (commit b ≫= message) (Some "N/A"));
          lastCommitAuthor :=
            default "N/A" (or_else (commit b ≫= author_name) (Some "N/A")) |}.

(** Step 1: [debugInfo.branches], [debugInfo.branchStats] and the errors. *)
Definition fetchBranches (untilUtc : JS.Date) (errors : list string)
  : Eff (list BranchInfo * option BranchStats * list string) :=
  try_catch
    (data ← axios_get (gitlab_branches E) (branchesRequest cfg);
     let cut := cutoff untilUtc in
     branches ← mapM (branchInfo cut) data;
     mret (branches,
           Some {| total := length data;
                   active := length (filter (λ b, isActive b) branches) |},
           errors))
    (λ err,
       let error := fetch_failed "Branch" err in
       console_error ["❌"; error];;
       mret ([], None, errors ++ [error])).

Definition updatedMR (mr : MRJson) : UpdatedMR :=
  {| u_title := mr_title mr; u_sourceBranch := source_branch mr;
     u_author := mr_author_name mr; u_updatedAt := mr_updated_at mr;
     u_state := mr_state mr; u_webUrl := mr_web_url mr |}.

(** Step 2: [debugInfo.mrsSummary.updatedInWindow], [mrBranches] and the
    errors. *)
Definition fetchMRs (sinceIso untilIso : string) (errors : list string)
  : Eff (option (list UpdatedMR) * list string * list string) :=
  try_catch
    (data ← axios_get (gitlab_merge_requests E)
              (windowMRsRequest cfg sinceIso untilIso);
     mret (Some (updatedMR <$> data), mrBranches data, errors))
    (λ err,
       let error := fetch_failed "MR" err in
       console_error ["❌"; error];;
       mret (None, [], errors ++ [error])).

(** Step 3: [activeBranches] and [allBranches]. *)
Definition activeBranches (branches : list BranchInfo) : list (option string) :=
  bi_name <$> filter (λ b, isActive b) branches.

Definition allBranches (activeBranches : list (option string))
    (mrBranches : list string) : list string :=
  filter_Boolean (Array_from_Set (activeBranches ++ (Some <$> mrBranches))).

Definition commitDetail (c : CommitJson) : CommitDetail :=
  {| d_id := c_id c; d_short_id := c_short_id c; d_title := c_title c;
     d_author_name := c_author_name c; d_author_email := c_author_email c;
     d_created_at := c_created_at c;
     d_created_at_IST := formatIstLabel E (Date_parse E (c_created_at c));
     d_web_url := c_web_url c |}.

(** [status !== 404] for [status = err.response?.status] *)
Definition warns_on (err : JSError) : bool :=
  match response err with
  | Some r => negb (status r =? 404)
  | None => true
  end.

(** Step 4: the loop that fills [debugInfo.commitsPerBranch]. *)
Fixpoint collectCommits (sinceIso untilIso : string) (branches : list string)
    (commitsPerBranch : gmap string BranchCommits)
  : Eff (gmap string BranchCommits) :=
  match branches with
  | [] => mret commitsPerBranch
  | branch :: rest =>
      commitsPerBranch ← try_catch
        (data ← axios_get (gitlab_commits E)
                  (commitsRequest cfg branch sinceIso untilIso);
         mret (Object_set branch
                 {| error := None; count := length data;
                    commits := commitDetail <$> data |}
                 commitsPerBranch))
        (λ err,
           let message :=
             default (err_message err)
               (or_else (response err ≫= data_message)
                        (Some (err_message err))) in
           let text := status_text err +:+ " - " +:+ message in
           (if warns_on err
            then console_warn ["  ⚠️ " +:+ branch +:+ ": " +:+ text]
            else mret tt);;
           mret (Object_set branch
                   {| error := Some text; count := 0; commits := [] |}
                   commitsPerBranch));
      collectCommits sinceIso untilIso rest commitsPerBranch
  end.

(** [mr.description?.substring(0, 200) || "No description"], in UTF-16
    code units: [substring] counts those, and may leave half of a surrogate
    pair at the end, which is no text. *)
Definition short_description (mr : MRJson) : list Z :=
  match take 200 <$> (utf16 <$> description mr) with
  | Some (unit :: units) => unit :: units
  | Some [] | None => utf16 "No description"
  end.

Definition createdMR (mr : MRJson) : CreatedMR :=
  {| cr_title := mr_title mr; cr_description := short_description mr;
     cr_sourceBranch := source_branch mr; cr_createdAt := mr_created_at mr;
     cr_updatedAt := mr_updated_at mr; cr_state := mr_state mr;
     cr_webUrl := mr_web_url mr |}.

Definition reviewedMR (mr : MRJson) : ReviewedMR :=
  {| rv_title := mr_title mr; rv_author := mr_author_name mr;
     rv_state := mr_state mr; rv_webUrl := mr_web_url mr |}.

(** Step 5 *)
Definition fetchCreated (sinceIso untilIso : string) (errors : list string)
  : Eff (option (list CreatedMR) * list string) :=
  try_catch
    (data ← axios_get (gitlab_merge_requests E)
              (createdRequest cfg sinceIso untilIso);
     mret (Some (createdMR <$> data), errors))
    (λ err,
       let error := fetch_failed "Created MRs" err in
       console_error ["❌"; error];;
       mret (None, errors ++ [error])).

(** Step 6 *)
Definition fetchReviewed (sinceIso untilIso : string) (errors : list string)
  : Eff (option (list ReviewedMR) * list string) :=
  try_catch
    (data ← axios_get (gitlab_merge_requests E)
              (reviewedRequest cfg sinceIso untilIso);
     mret (Some (reviewedMR <$> data), errors))
    (λ err,
       let error := fetch_failed "Reviewed MRs" err in
       console_error ["❌"; error];;
       mret (None, errors ++ [error])).

(** Step 7 *)
Definition summarise (allBranches : list string)
    (commitsPerBranch : gmap string BranchCommits) (mrs : MRsSummary)
  : Summary :=
  let withCommits :=
    count <$> filter (λ kv, (0 < count kv.2)%nat) commitsPerBranch in
  {| totalBranches := length allBranches;
     branchesWithCommitsLen := size withCommits;
     totalCommitsByYou :=
       map_fold (λ _ entry sum, (sum + count entry)%nat) 0%nat commitsPerBranch;
     mrsCreatedByYou := from_option length 0%nat (createdByUser mrs);
     mrsReviewedByYou := from_option length 0%nat (reviewedByUser mrs);
     branchesWithCommits := withCommits |}.

Definition debugInfo (dateParam : option string) : Eff DebugInfo :=
  let '(sinceUtc, untilUtc) := window dateParam in
  sinceIso ← toISOString E sinceUtc;
  untilIso ← toISOString E untilUtc;
  let timeWindow :=
    {| since := sinceIso; until := untilIso;
       sinceIST := formatIstLabel E sinceUtc;
       untilIST := formatIstLabel E untilUtc |} in
  '(branches, branchStats, errors) ← fetchBranches untilUtc [];
  '(updated, mrBranches, errors) ← fetchMRs sinceIso untilIso errors;
  let activeBranches := activeBranches branches in
  let allBranches := allBranches activeBranches mrBranches in
  let branchSelection :=
    {| sel_activeBranches := length activeBranches;
       sel_mrBranches := length mrBranches;
       combinedUnique := length allBranches;
       sel_branches := allBranches |} in
  commitsPerBranch ← collectCommits sinceIso untilIso allBranches ∅;
  '(created, errors) ← fetchCreated sinceIso untilIso errors;
  '(reviewed, errors) ← fetchReviewed sinceIso untilIso errors;
  let mrs := {| updatedInWindow := updated; createdByUser := created;
                reviewedByUser := reviewed |} in
  mret {| timeWindow := timeWindow;
          branches := branches;
          branchStats := branchStats;
          mrsSummary := mrs;
          branchSelection := branchSelection;
          commitsPerBranch := commitsPerBranch;
          errors := errors;
          summary := summarise allBranches commitsPerBranch mrs |}.

(** [GET]; [date] is [url.searchParams.get("date")]. *)
Definition GET (date : option string) : Eff Response :=
  try_catch
    (info ← debugInfo date;
     mret {| http_status := 200; body := BodyInfo info |})
    (λ error,
       console_error ["❌ Debug route error:"; inspect E error];;
       mret {| http_status := 500; body := BodyError (err_message error) |}).

End Route.
End Debug.

(* ===================================================================== *)
(** * A sample run: a host on UTC, the first of January 2024 *)
(* ===================================================================== *)

Module Sample.

Definition cfg : Config :=
  {| GITLAB_API := "https://gitlab.example.com/api/v4";
     GITLAB_TOKEN := "glpat-sample";
     GITLAB_PROJECT_ID := "42";
     GITLAB_USER_ID := "7";
     GITLAB_EMAIL := Some "dev@example.com";
     GITLAB_USERNAME := Some "dev";
     SLACK_USER_ID := "U0001";
     AI_MODEL_NAME := "summarizer" |}.

(** The value of a query parameter of a request. *)
Definition param (key : string) (r : Request) : option ParamValue :=
  (λ found, found.2.2) <$> list_find (λ kv, kv.1 = key) (params r).

Definition branchOf (nm : option string) (last : option string) : BranchJson :=
  {| name := nm;
     commit := (λ at_, {| created_at := at_; message := Some "work";
                          author_name := Some "Dev" |}) <$> last |}.

Definition branch_listing : list BranchJson :=
  [ branchOf (Some "main") (Some "2024-01-01T10:00:00.000+05:30");
    branchOf (Some "feature-x") (Some "2023-12-30T09:00:00Z");
    branchOf (Some "stale") (Some "2023-06-01T00:00:00Z");
    branchOf (Some "empty") None;
    branchOf None (Some "2024-01-01T09:00:00Z") ].

Definition mrOf (t : string) (src : option string) : MRJson :=
  {| mr_title := t;
     mr_web_url := "https://gitlab.example.com/mr/" +:+ t;
     source_branch := src;
     description := None;
     mr_author_name := Some "Dev";
     mr_state := "opened";
     mr_created_at := "2023-12-31T20:00:00Z";
     mr_updated_at := "2024-01-01T08:00:00Z" |}.

Definition commitOf (sha t : string) : CommitJson :=
  {| c_id := sha; c_short_id := sha; c_title := t;
     c_author_name := "Dev"; c_author_email := "dev@example.com";
     c_created_at := "2024-01-01T05:00:00Z";
     c_web_url := "https://gitlab.example.com/c/" +:+ sha |}.

Definition http_error (code : Z) (text : string) : JSError :=
  {| err_name := "AxiosError";
     err_message := "Request failed with status code " +:+ pretty code;
     response := Some {| status := code; data_message := Some text;
                         data_text := Some text |} |}.

(** A failure without any HTTP answer: [err.response] is [undefined]. *)
Definition network_error : JSError :=
  {| err_name := "AxiosError"; err_message := "socket hang up";
     response := None |}.

(** The merge requests updated in the window, whoever wrote them. *)
Definition window_mrs : list MRJson :=
  [ mrOf "one" (Some "feature-x"); mrOf "two" (Some "gone");
    mrOf "three" None; mrOf "four" (Some "flaky");
    mrOf "five" (Some "forbidden") ].

Definition merge_requests (r : Request) : Reply (list MRJson) :=
  match param "author_id" r, param "reviewer_id" r with
  | Some _, _ => Answer [mrOf "authored" (Some "feature-x")]
  | _, Some _ => Answer [mrOf "reviewed" (Some "elsewhere")]
  | None, None => Answer window_mrs
  end.

Definition commits (r : Request) : Reply (list CommitJson) :=
  match param "ref_name" r with
  | Some (PString "main") =>
      Answer [commitOf "a1" "Add window"; commitOf "b2" "Fix dedupe"]
  | Some (PString "feature-x") => Answer [commitOf "b2" "Fix dedupe"]
  | Some (PString "gone") => Failure (http_error 404 "404 Branch Not Found")
  | Some (PString "forbidden") => Failure (http_error 403 "403 Forbidden")
  | Some (PString "flaky") => Failure network_error
  | _ => Answer []
  end.

(** The window of the first of January 2024 as the host receives it. *)
Definition sinceIso : string := "2023-12-31T18:30:00.000Z".
Definition untilIso : string := "2024-01-01T18:30:00.000Z".

(** The commits of the end-to-end example: [main] yields two commits and
    [feature-x] one that [main] has as well. *)
Definition collected : list Commit :=
  [ Eod.ofBranch "main" (commitOf "a1" "Add window");
    Eod.ofBranch "main" (commitOf "b2" "Fix dedupe");
    Eod.ofBranch "feature-x" (commitOf "b2" "Fix dedupe") ].

(** What a V8 host whose local time zone is UTC answers where the model
    asks the runtime. *)
Definition node_utc (clock : Z) : Env :=
  {| now := clock;
     tza := 0;
     legacy_parse := λ s,
       if String.eqb s "1/1/2024, 5:30:00 AM"
       then JS.Valid 1704087000000 else JS.Invalid;
     toLocaleString_en_US_Kolkata := λ d,
       match d with
       | JS.Valid t =>
           if (1704067200000 <=? t) && (t <? 1704067201000)
           then "1/1/2024, 5:30:00 AM" else "(not tabulated)"
       | JS.Invalid => "Invalid Date"
       end;
     toLocaleString_en_IN_Kolkata := λ d,
       match d with
       | JS.Valid t => "label " +:+ pretty t
       | JS.Invalid => "Invalid Date"
       end;
     iso_text := λ t, "iso " +:+ pretty t;
     inspect := λ e,
       err_name e +:+ ": " +:+ err_message e +:+ nl +:+ "    at <anonymous>";
     gitlab_branches := λ _, Answer branch_listing;
     gitlab_merge_requests := merge_requests;
     gitlab_commits := commits;
     openai_chat := λ _ _, Answer (Some "  *EOD UPDATE* shipped  ");
     slack_postMessage := λ _ _, Answer tt |}.

(** The clock at 2024-01-01T00:00:00.123Z. *)
Definition E : Env := node_utc 1704067200123.

End Sample.

(* ===================================================================== *)
(** * The words of the specification *)
(* ===================================================================== *)

(** The world after more console lines and more calls. *)
Definition logged (w : World) (lines : list (Level * list string))
    (made : list Call) : World :=
  {| console := console w ++ lines; calls := calls w ++ made |}.

Section Vocabulary.
Context (E : Env).

(** A branch of the listing [data] named [n] is active for the window end
    [until] and the recency margin [margin]: its latest commit instant is
    strictly after [until - margin]. *)
Definition active_branch (until margin : Z) (data : list BranchJson)
    (n : string) : Prop :=
  ∃ b c t, b ∈ data ∧ name b = Some n ∧ commit b = Some c
           ∧ Date_parse E (created_at c) = JS.Valid t
           ∧ until - margin < t.

(** [n] is the source branch of a merge request of the listing [data]. *)
Definition mr_source_branch (data : list MRJson) (n : string) : Prop :=
  ∃ mr, mr ∈ data ∧ source_branch mr = Some n.

(** What one branch contributes to the collected commits: the commits of
    an answer, tagged with the branch, and nothing for a failure. *)
Definition contribution (answer : Reply (list CommitJson)) (branch : string)
  : list Commit :=
  match answer with
  | Answer data => Eod.ofBranch branch <$> data
  | Failure _ => []
  end.

(** The lines that a merge-request collector returns: those of the answer,
    and none for a failure. *)
Definition mr_lines (render : MRJson → string) (answer : Reply (list MRJson))
  : list string :=
  match answer with
  | Answer data => render <$> data
  | Failure _ => []
  end.

(** The warning that a merge-request collector leaves for a failure. *)
Definition mr_warning (what : string) (answer : Reply (list MRJson))
  : list (Level * list string) :=
  match answer with
  | Answer _ => []
  | Failure err => [(LWarn, [what; message_or_error E err])]
  end.

(** The answer of the host to the commit query for one branch. *)
Definition commit_answer (cfg : Config) (sinceIso untilIso branch : string)
  : Reply (list CommitJson) :=
  gitlab_commits E (commitsRequest cfg branch sinceIso untilIso).

(** The status of a failure: [err.response?.status]. *)
Definition status_of (err : JSError) : option Z := status <$> response err.

(** The warning that the commit loop of the digest routes leaves for one
    branch: one line for a failure that carries an HTTP status other than
    404 (and other than 0), none otherwise. *)
Definition commit_warning (answer : Reply (list CommitJson)) (branch : string)
  : list (Level * list string) :=
  match answer with
  | Answer _ => []
  | Failure err =>
      match status_of err with
      | Some st =>
          if bool_decide (st = 404 ∨ st = 0) then []
          else [(LWarn, ["⚠️ commits fetch failed for branch " +:+ branch
                           +:+ ": " +:+ message_or_text err])]
      | None => []
      end
  end.

(** The entry of [commitsPerBranch] that the commit loop of the debug route
    writes for one branch. *)
Definition debug_entry (answer : Reply (list CommitJson)) : Debug.BranchCommits :=
  match answer with
  | Answer data =>
      {| Debug.error := None; Debug.count := length data;
         Debug.commits := Debug.commitDetail E <$> data |}
  | Failure err =>
      {| Debug.error :=
           Some (Debug.status_text err +:+ " - "
                 +:+ default (err_message err)
                       (or_else (response err ≫= data_message)
                                (Some (err_message err))));
         Debug.count := 0; Debug.commits := [] |}
  end.

(** The warning that the commit loop of the debug route leaves for one
    branch: one line for every failure but a 404. *)
Definition debug_warning (answer : Reply (list CommitJson)) (branch : string)
  : list (Level * list string) :=
  match answer with
  | Answer _ => []
  | Failure err =>
      if bool_decide (status_of err = Some 404) then []
      else [(LWarn, ["  ⚠️ " +:+ branch +:+ ": "
                       +:+ default EmptyString (Debug.error (debug_entry answer))])]
  end.

End Vocabulary.

(* ===================================================================== *)
(** * Partial results *)
(* ===================================================================== *)

Section Partial.
Context (E : Env) (cfg : Config).

(** The names that step 1 of the digest routes has after its first [try]:
    none when the branch listing fails. *)
Definition listed_active (untilIst : JS.Date) : list (option string) :=
  match gitlab_branches E (branchesRequest cfg) with
  | Answer data => Eod.activeBranches E untilIst data
  | Failure _ => []
  end.

(** The names that its second [try] adds: none when the listing of the merge
    requests fails. *)
Definition listed_sources (sinceIso untilIso : string) : list string :=
  match gitlab_merge_requests E (windowMRsRequest cfg sinceIso untilIso) with
  | Answer data => mrBranches data
  | Failure _ => []
  end.

(** The warnings of the two [catch] blocks of step 1. *)
Definition listing_warnings (sinceIso untilIso : string)
  : list (Level * list string) :=
  match gitlab_branches E (branchesRequest cfg) with
  | Answer _ => []
  | Failure err =>
      [(LWarn, ["⚠️ Could not fetch branches:"; message_or_error E err])]
  end
  ++ match gitlab_merge_requests E (windowMRsRequest cfg sinceIso untilIso) with
     | Answer _ => []
     | Failure err =>
         [(LWarn, ["⚠️ Could not fetch MRs for branches:";
                   message_or_error E err])]
     end.

(** The branch candidates of step 1. *)
Definition selected (untilIst : JS.Date) (sinceIso untilIso : string)
  : list string :=
  Array_from_Set
    (filter_Boolean (listed_active untilIst
                     ++ (Some <$> listed_sources sinceIso untilIso))).

(** The calls of steps 1 to 4, in the order in which they are made. *)
Definition activity_calls (untilIst : JS.Date) (sinceIso untilIso : string)
  : list Call :=
  [CallGet (branchesRequest cfg);
   CallGet (windowMRsRequest cfg sinceIso untilIso)]
  ++ ((λ b, CallGet (commitsRequest cfg b sinceIso untilIso))
        <$> selected untilIst sinceIso untilIso)
  ++ [CallGet (createdRequest cfg sinceIso untilIso);
      CallGet (reviewedRequest cfg sinceIso untilIso)].

(** The warnings of steps 1 to 4, in the order in which they are printed. *)
Definition activity_warnings (untilIst : JS.Date) (sinceIso untilIso : string)
  : list (Level * list string) :=
  listing_warnings sinceIso untilIso
  ++ (selected untilIst sinceIso untilIso
        ≫= (λ b, commit_warning (commit_answer E cfg sinceIso untilIso b) b))
  ++ mr_warning E "⚠️ Could not fetch created MRs:"
       (gitlab_merge_requests E (createdRequest cfg sinceIso untilIso))
  ++ mr_warning E "⚠️ Could not fetch reviewed MRs:"
       (gitlab_merge_requests E (reviewedRequest cfg sinceIso untilIso)).

(** The commits that step 2 collects and the dedupe filter keeps. *)
Definition digest_commits (untilIst : JS.Date) (sinceIso untilIso : string)
  : list Commit :=
  dedupe (selected untilIst sinceIso untilIso
            ≫= (λ b, contribution (commit_answer E cfg sinceIso untilIso b) b)).

(** Every commit date of the listing is a date. *)
Definition dates_parse (data : list BranchJson) : bool :=
  forallb (λ b, match commit b with
                | Some c => match Date_parse E (created_at c) with
                            | JS.Valid _ => true
                            | JS.Invalid => false
                            end
                | None => true
                end) data.

(** What makes step 1 of the debug route fail: the failure of the request,
    or the [RangeError] of [toISOString] on a commit date that is no date. *)
Definition listing_failure : option JSError :=
  match gitlab_branches E (branchesRequest cfg) with
  | Failure err => Some err
  | Answer data => if dates_parse data then None else Some RangeError_invalid_time
  end.

End Partial.

(** The failure of a reply, if it is one. *)
Definition failure_of {A} (r : Reply A) : option JSError :=
  match r with
  | Answer _ => None
  | Failure err => Some err
  end.

(** The entry that a [catch] block of the debug route pushes to
    [debugInfo.errors]. *)
Definition error_entry (what : string) (failure : option JSError)
  : list string :=
  match failure with
  | Some err => [Debug.fetch_failed what err]
  | None => []
  end.

(** The line that the same block prints with [console.error]. *)
Definition error_line (what : string) (failure : option JSError)
  : list (Level * list string) :=
  match failure with
  | Some err => [(LError, ["❌"; Debug.fetch_failed what err])]
  | None => []
  end.

(** The messages of the chat completion. *)
Definition chat_messages (prompt : string) : list (string * string) :=
  [Eod.system_message; ("user", prompt)].

(** The text that step 6 hands on: the trimmed content of the summarizer,
    or the raw activity when there is none. *)
Definition summary_of (activity : string) (reply : Reply (option string))
  : string :=
  match reply with
  | Answer (Some content) =>
      if String.eqb (trim content) EmptyString then activity else trim content
  | Answer None => activity
  | Failure _ => activity
  end.

(** The warning of the [catch] block of step 6. *)
Definition summary_warning (E : Env) (reply : Reply (option string))
  : list (Level * list string) :=
  match reply with
  | Answer _ => []
  | Failure err =>
      [(LWarn, ["⚠️ OpenAI summary failed, using raw activity:";
                message_or_error E err])]
  end.

(** The value of a query parameter of a request, if it has it. *)
Definition param_of (key : string) (r : Request) : option ParamValue :=
  (λ found, found.2.2) <$> list_find (λ kv, kv.1 = key) (params r).

(** The data of a reply, if it has any. *)
Definition answer_of {A} (r : Reply A) : option A :=
  match r with
  | Answer data => Some data
  | Failure _ => None
  end.

Section DebugPartial.
Context (E : Env) (cfg : Config).

(** The active names that step 3 of the debug route reads off
    [debugInfo.branches]: none when step 1 failed. *)
Definition debug_active (untilUtc : JS.Date) : list (option string) :=
  match listing_failure E cfg with
  | None => listed_active E cfg untilUtc
  | Some _ => []
  end.

(** [allBranches] of the debug route. *)
Definition debug_selected (untilUtc : JS.Date) (sinceIso untilIso : string)
  : list string :=
  Debug.allBranches (debug_active untilUtc)
    (listed_sources E cfg sinceIso untilIso).

(** [debugInfo.errors] at the end of the debug route. *)
Definition debug_errors (sinceIso untilIso : string) : list string :=
  error_entry "Branch" (listing_failure E cfg)
  ++ error_entry "MR"
       (failure_of (gitlab_merge_requests E
                      (windowMRsRequest cfg sinceIso untilIso)))
  ++ error_entry "Created MRs"
       (failure_of (gitlab_merge_requests E
                      (createdRequest cfg sinceIso untilIso)))
  ++ error_entry "Reviewed MRs"
       (failure_of (gitlab_merge_requests E
                      (reviewedRequest cfg sinceIso untilIso))).

(** The warnings and errors that the debug route prints, in order. *)
Definition debug_lines (untilUtc : JS.Date) (sinceIso untilIso : string)
  : list (Level * list string) :=
  error_line "Branch" (listing_failure E cfg)
  ++ error_line "MR"
       (failure_of (gitlab_merge_requests E
                      (windowMRsRequest cfg sinceIso untilIso)))
  ++ (debug_selected untilUtc sinceIso untilIso
        ≫= (λ b, debug_warning E (commit_answer E cfg sinceIso untilIso b) b))
  ++ error_line "Created MRs"
       (failure_of (gitlab_merge_requests E
                      (createdRequest cfg sinceIso untilIso)))
  ++ error_line "Reviewed MRs"
       (failure_of (gitlab_merge_requests E
                      (reviewedRequest cfg sinceIso untilIso))).

(** The calls of the debug route, in the order in which they are made. *)
Definition debug_calls (untilUtc : JS.Date) (sinceIso untilIso : string)
  : list Call :=
  [CallGet (branchesRequest cfg);
   CallGet (windowMRsRequest cfg sinceIso untilIso)]
  ++ ((λ b, CallGet (commitsRequest cfg b sinceIso untilIso))
        <$> debug_selected untilUtc sinceIso untilIso)
  ++ [CallGet (createdRequest cfg sinceIso untilIso);
      CallGet (reviewedRequest cfg sinceIso untilIso)].

(** [debugInfo.commitsPerBranch] after the loop of step 4 over the given
    branches. *)
Definition debug_per_branch (sinceIso untilIso : string)
    (branches : list string) : gmap string Debug.BranchCommits :=
  foldl (λ m b, Object_set b
                  (debug_entry E (commit_answer E cfg sinceIso untilIso b)) m)
    ∅ branches.

(** What the commit loop of the digest routes pushes for the given
    branches, before the dedupe filter. *)
Definition pushed (sinceIso untilIso : string) (branches : list string)
  : list Commit :=
  branches ≫= (λ b, contribution (commit_answer E cfg sinceIso untilIso b) b).

End DebugPartial.

(* ===================================================================== *)
(** * The deduplicator *)
(* ===================================================================== *)

Section Dedupe.
Implicit Types (seen : gset string) (commits : list Commit) (k : string).

Lemma dedupe_from_ids seen commits k :
  k ∈ (id <$> dedupe_from seen commits) ↔ k ∉ seen ∧ k ∈ (id <$> commits).
Proof.
  induction commits as [|c rest IH] in seen |- *; simpl.
  - set_solver.
  - destruct (decide (id c ∈ seen)) as [Hin|Hnin].
    + rewrite IH. set_solver.
    + rewrite fmap_cons, !elem_of_cons, IH.
      destruct (decide (k = id c)) as [->|Hne]; set_solver.
Qed.

Lemma dedupe_from_NoDup seen commits : NoDup (id <$> dedupe_from seen commits).
Proof.
  induction commits as [|c rest IH] in seen |- *; simpl.
  - constructor.
  - destruct (decide (id c ∈ seen)); [apply IH|].
    rewrite fmap_cons. constructor; [|apply IH].
    rewrite dedupe_from_ids. set_solver.
Qed.

Lemma dedupe_from_sublist seen commits : sublist (dedupe_from seen commits) commits.
Proof.
  induction commits as [|c rest IH] in seen |- *; simpl.
  - constructor.
  - destruct (decide (id c ∈ seen)).
    + by apply sublist_cons.
    + by apply sublist_skip.
Qed.

(** Of the records of one identity the filter keeps the first, unless the
    identity was seen before. *)
Lemma dedupe_from_filter_id seen commits k :
  filter (λ c, id c = k) (dedupe_from seen commits) =
  if decide (k ∈ seen) then [] else take 1 (filter (λ c, id c = k) commits).
Proof.
  induction commits as [|c rest IH] in seen |- *; simpl.
  - by destruct (decide (k ∈ seen)).
  - destruct (decide (id c ∈ seen)) as [Hin|Hnin].
    + rewrite IH, filter_cons.
      destruct (decide (id c = k)) as [<-|Hne]; [|done].
      rewrite !decide_True by done. done.
    + rewrite !filter_cons.
      destruct (decide (id c = k)) as [<-|Hne].
      * rewrite (decide_False (P := id c ∈ seen)) by done. simpl.
        rewrite IH, decide_True by set_solver. done.
      * rewrite IH.
        destruct (decide (k ∈ seen)), (decide (k ∈ {[id c]} ∪ seen));
          first [done | exfalso; set_solver].
Qed.

(** On records of pairwise distinct, unseen identities the filter keeps
    everything. *)
Lemma dedupe_from_distinct seen commits :
  NoDup (id <$> commits) →
  (∀ k, k ∈ (id <$> commits) → k ∉ seen) →
  dedupe_from seen commits = commits.
Proof.
  induction commits as [|c rest IH] in seen |- *; simpl; [done|].
  rewrite NoDup_cons. intros [Hc Hrest] Hseen.
  rewrite decide_False by (apply Hseen; set_solver).
  f_equal. apply IH; [done|].
  intros k Hk. specialize (Hseen k). set_solver.
Qed.

(** The records before a record of the result are the result for the
    records before its first occurrence in the input. *)
Lemma dedupe_from_prefix seen commits (before after : list Commit) (c : Commit) :
  dedupe_from seen commits = before ++ c :: after →
  ∃ pre post, commits = pre ++ c :: post
              ∧ id c ∉ seen ∧ id c ∉ (id <$> pre)
              ∧ before = dedupe_from seen pre.
Proof.
  induction commits as [|x rest IH] in seen, before |- *; simpl.
  - by destruct before.
  - destruct (decide (id x ∈ seen)) as [Hin|Hnin].
    + intros (pre & post & -> & Hc & Hpre & ->)%IH.
      exists (x :: pre), post. split_and!; [done..| |].
      * rewrite fmap_cons, not_elem_of_cons. split; [|done].
        intros Heq. apply Hc. by rewrite Heq.
      * simpl. by rewrite decide_True.
    + destruct before as [|b before]; simpl.
      * intros [= -> _]. exists [], rest. split_and!; [done..| |done].
        apply not_elem_of_nil.
      * intros [= -> (pre & post & -> & Hc & Hpre & ->)%IH].
        exists (b :: pre), post. split_and!; [done|set_solver| |].
        -- rewrite fmap_cons, not_elem_of_cons. split; [set_solver|done].
        -- simpl. by rewrite decide_False.
Qed.

End Dedupe.

(** C1.  Dedupe keyed on the commit id: in the result every commit identity
    of the input occurs exactly once, the records stand in the order in which
    they first occur in the input, and the record kept for an identity, with
    its branch, is the first record of that identity in the input.  The
    order: a record of the result stands at its first occurrence in the
    input, and the identities before it in the result are exactly the
    identities before that occurrence in the input. *)
Theorem dedupe_keeps_first_occurrences (commits : list Commit) :
  NoDup (id <$> dedupe commits)
  ∧ sublist (dedupe commits) commits
  ∧ (∀ c, c ∈ commits →
       length (filter (λ c', id c' = id c) (dedupe commits)) = 1%nat)
  ∧ (∀ k, filter (λ c, id c = k) (dedupe commits)
          = take 1 (filter (λ c, id c = k) commits))
  ∧ (∀ k, branch <$> head (filter (λ c, id c = k) (dedupe commits))
          = branch <$> head (filter (λ c, id c = k) commits))
  ∧ (∀ before c after, dedupe commits = before ++ c :: after →
       ∃ pre post, commits = pre ++ c :: post
                   ∧ id c ∉ (id <$> pre)
                   ∧ (∀ k, k ∈ (id <$> before) ↔ k ∈ (id <$> pre))
                   ∧ before = dedupe pre).
Proof.
  assert (Hfilter : ∀ k, filter (λ c, id c = k) (dedupe commits)
                         = take 1 (filter (λ c, id c = k) commits)).
  { intros k. unfold dedupe. rewrite dedupe_from_filter_id.
    by rewrite decide_False by set_solver. }
  split_and!.
  - apply dedupe_from_NoDup.
  - apply dedupe_from_sublist.
  - intros c Hc. rewrite Hfilter.
    assert (Hin : c ∈ filter (λ c', id c' = id c) commits)
      by (by apply list_elem_of_filter).
    destruct (filter (λ c', id c' = id c) commits); [by inversion Hin|done].
  - done.
  - intros k. rewrite Hfilter.
    by destruct (filter (λ c, id c = k) commits).
  - intros before c after Hresult.
    apply dedupe_from_prefix in Hresult as (pre & post & -> & _ & Hpre & ->).
    exists pre, post. split_and!; [done..| |done].
    intros k. rewrite dedupe_from_ids. set_solver.
Qed.

(** C10.  Deduplication is idempotent, and it is the identity on a sequence
    whose commit ids are pairwise distinct. *)
Theorem dedupe_idempotent (commits : list Commit) :
  dedupe (dedupe commits) = dedupe commits
  ∧ (NoDup (id <$> commits) → dedupe commits = commits).
Proof.
  split.
  - apply dedupe_from_distinct; [apply dedupe_from_NoDup|set_solver].
  - intros Hdistinct. apply dedupe_from_distinct; [done|set_solver].
Qed.

Lemma dedupe_idempotent_witness :
  NoDup (id <$> take 2 Sample.collected)
  ∧ dedupe (take 2 Sample.collected) = take 2 Sample.collected.
Proof.
  assert (Hdistinct : NoDup (id <$> take 2 Sample.collected)).
  { apply (bool_decide_unpack _). vm_compute. exact I. }
  split; [exact Hdistinct|].
  exact (proj2 (dedupe_idempotent (take 2 Sample.collected)) Hdistinct).
Defined.

(** The end-to-end example: three collected records, two identities. *)
Example dedupe_example :
  dedupe Sample.collected = take 2 Sample.collected
  ∧ branch <$> dedupe Sample.collected = ["main"; "main"].
Proof. split; reflexivity. Qed.

(* ===================================================================== *)
(** * The digest text *)
(* ===================================================================== *)

(** C7.  With no commit after the dedupe and no merge request in either
    list, the digest text has the header [Commits (0):] and the literal
    [None] under [MRs Created:] and under [MRs Reviewed:] (and under the
    commits header as well). *)
Theorem empty_digest_text (commits : list Commit)
    (createdMRs reviewedMRs : list string) :
  dedupe commits = [] → createdMRs = [] → reviewedMRs = [] →
  activity (Eod.commitLine <$> dedupe commits) createdMRs reviewedMRs =
  nl +:+ "Commits (0):" +:+ nl
     +:+ "None" +:+ nl
     +:+ nl
     +:+ "MRs Created:" +:+ nl
     +:+ "None" +:+ nl
     +:+ nl
     +:+ "MRs Reviewed:" +:+ nl
     +:+ "None" +:+ nl.
Proof. intros -> -> ->. reflexivity. Qed.

Lemma empty_digest_text_witness :
  dedupe [] = []
  ∧ activity (Eod.commitLine <$> dedupe []) [] [] =
    nl +:+ "Commits (0):" +:+ nl +:+ "None" +:+ nl +:+ nl
       +:+ "MRs Created:" +:+ nl +:+ "None" +:+ nl +:+ nl
       +:+ "MRs Reviewed:" +:+ nl +:+ "None" +:+ nl.
Proof.
  split; [reflexivity|].
  apply (empty_digest_text [] [] []); reflexivity.
Defined.

(* ===================================================================== *)
(** * The window *)
(* ===================================================================== *)

Section Calendar.
Import JS.

Lemma leap_year_spec y :
  InLeapYear y = true ↔ (y mod 4 = 0 ∧ y mod 100 ≠ 0) ∨ y mod 400 = 0.
Proof.
  unfold InLeapYear.
  destruct (Z.eqb_spec (y mod 4) 0), (Z.eqb_spec (y mod 100) 0),
    (Z.eqb_spec (y mod 400) 0); simpl; intuition congruence.
Qed.

(** A year has 365 days, and one more when it is a leap year. *)
Lemma DayFromYear_succ y :
  DayFromYear (y + 1) = DayFromYear y + (if InLeapYear y then 366 else 365).
Proof.
  pose proof (leap_year_spec y) as Hleap.
  unfold DayFromYear. destruct (InLeapYear y).
  - assert (Hy : (y mod 4 = 0 ∧ y mod 100 ≠ 0) ∨ y mod 400 = 0)
      by (by apply Hleap).
    clear Hleap. Z.div_mod_to_equations. lia.
  - assert (Hy : ¬ ((y mod 4 = 0 ∧ y mod 100 ≠ 0) ∨ y mod 400 = 0))
      by (intros H; apply Hleap in H; discriminate).
    clear Hleap. Z.div_mod_to_equations. lia.
Qed.

(** Day 0 is the first of January 1970. *)
Lemma MakeDay_epoch : MakeDay 1970 1 1 = 0.
Proof. reflexivity. Qed.

(** From a date to the next the day number grows by one. *)
Lemma MakeDay_next_day y m d :
  1 ≤ m ≤ 12 → 1 ≤ d ≤ DaysInMonth y m →
  let '(y', m', d') := next_day y m d in
  MakeDay y' m' d' = MakeDay y m d + 1.
Proof.
  intros Hm Hd. unfold next_day.
  destruct (Z.ltb_spec d (DaysInMonth y m)) as [Hlt|Hge].
  - unfold MakeDay. lia.
  - assert (Hlast : d = DaysInMonth y m) by lia. subst d.
    destruct (Z.ltb_spec m 12) as [Hm12|Hm12].
    + unfold MakeDay, DaysBeforeMonth, DaysInMonth.
      assert (Hcases : m = 1 ∨ m = 2 ∨ m = 3 ∨ m = 4 ∨ m = 5 ∨ m = 6 ∨ m = 7
                       ∨ m = 8 ∨ m = 9 ∨ m = 10 ∨ m = 11) by lia.
      destruct_or!; subst m; simpl; destruct (InLeapYear y); lia.
    + assert (m = 12) by lia. subst m.
      unfold MakeDay. rewrite DayFromYear_succ. simpl.
      destruct (InLeapYear y); lia.
Qed.

Lemma DaysInMonth_ge y m : 1 ≤ m ≤ 12 → 28 ≤ DaysInMonth y m.
Proof.
  intros Hm.
  assert (Hcases : m = 1 ∨ m = 2 ∨ m = 3 ∨ m = 4 ∨ m = 5 ∨ m = 6 ∨ m = 7
                   ∨ m = 8 ∨ m = 9 ∨ m = 10 ∨ m = 11 ∨ m = 12) by lia.
  destruct_or!; subst m; simpl; try lia. destruct (InLeapYear y); lia.
Qed.

Lemma prev_day_is_date y m d : is_date (y, m, d) → is_date (prev_day y m d).
Proof.
  unfold is_date, prev_day. intros [Hm Hd].
  destruct (Z.ltb_spec 1 d); [lia|].
  destruct (Z.ltb_spec 1 m).
  - pose proof (DaysInMonth_ge y (m - 1)). lia.
  - simpl. lia.
Qed.

Lemma next_day_prev_day y m d :
  is_date (y, m, d) →
  let '(y', m', d') := prev_day y m d in next_day y' m' d' = (y, m, d).
Proof.
  unfold is_date, prev_day, next_day. intros [Hm Hd].
  destruct (Z.ltb_spec 1 d) as [H1|H1].
  - destruct (Z.ltb_spec (d - 1) (DaysInMonth y m)); [|lia].
    f_equal. lia.
  - assert (d = 1) as -> by lia.
    destruct (Z.ltb_spec 1 m) as [Hm1|Hm1].
    + rewrite Z.ltb_irrefl.
      destruct (Z.ltb_spec (m - 1) 12); [|lia]. do 2 f_equal. lia.
    + assert (m = 1) as -> by lia. simpl. do 2 f_equal. lia.
Qed.

Lemma day_number_prev_day y m d :
  is_date (y, m, d) →
  day_number (prev_day y m d) = MakeDay y m d - 1.
Proof.
  intros Hdate. pose proof (next_day_prev_day y m d Hdate) as Hnext.
  pose proof (prev_day_is_date y m d Hdate) as Hdate'.
  destruct (prev_day y m d) as [[y' m'] d'].
  destruct Hdate' as [Hm' Hd'].
  pose proof (MakeDay_next_day y' m' d' Hm' Hd') as Hsucc.
  rewrite Hnext in Hsucc. simpl. lia.
Qed.

Lemma DayFromYear_mono y1 y2 : y1 ≤ y2 → DayFromYear y1 ≤ DayFromYear y2.
Proof. intros Hle. unfold DayFromYear. Z.div_mod_to_equations. lia. Qed.

Lemma day_number_in_year y m d :
  is_date (y, m, d) → DayFromYear y ≤ MakeDay y m d < DayFromYear (y + 1).
Proof.
  intros [Hm Hd]. rewrite DayFromYear_succ. unfold MakeDay.
  assert (Hcases : m = 1 ∨ m = 2 ∨ m = 3 ∨ m = 4 ∨ m = 5 ∨ m = 6 ∨ m = 7
                   ∨ m = 8 ∨ m = 9 ∨ m = 10 ∨ m = 11 ∨ m = 12) by lia.
  destruct_or!; subst m; simpl in *; destruct (InLeapYear y); lia.
Qed.

(** Only the first of January 1970 has day number 0. *)
Lemma day_number_zero y m d :
  is_date (y, m, d) → MakeDay y m d = 0 → (y, m, d) = (1970, 1, 1).
Proof.
  intros Hdate Hzero. pose proof (day_number_in_year y m d Hdate) as Hyear.
  assert (y = 1970) as ->.
  { destruct (Z.lt_trichotomy y 1970) as [Hlt|[->|Hgt]]; [|done|].
    - pose proof (DayFromYear_mono (y + 1) 1970 ltac:(lia)) as Hmono.
      change (DayFromYear 1970) with 0 in Hmono. lia.
    - pose proof (DayFromYear_mono 1971 y ltac:(lia)) as Hmono.
      change (DayFromYear 1971) with 365 in Hmono. lia. }
  destruct Hdate as [Hm Hd]. unfold MakeDay in Hzero.
  change (DayFromYear 1970) with 0 in Hzero.
  assert (Hcases : m = 1 ∨ m = 2 ∨ m = 3 ∨ m = 4 ∨ m = 5 ∨ m = 6 ∨ m = 7
                   ∨ m = 8 ∨ m = 9 ∨ m = 10 ∨ m = 11 ∨ m = 12) by lia.
  destruct_or!; subst m; simpl in *; do 2 f_equal; lia.
Qed.

(** The day number of a date from 1970 on is the count of days since the
    first of January 1970: that many steps of [next_day] lead from there to
    the date. *)
Lemma day_number_counts_days (n : nat) y m d :
  is_date (y, m, d) → MakeDay y m d = Z.of_nat n →
  date_after_epoch n = (y, m, d).
Proof.
  induction n as [|n IH] in y, m, d |- *; intros Hdate Hnumber.
  - symmetry. by apply day_number_zero.
  - pose proof (prev_day_is_date y m d Hdate) as Hprev.
    pose proof (day_number_prev_day y m d Hdate) as Hnumber'.
    pose proof (next_day_prev_day y m d Hdate) as Hnext.
    destruct (prev_day y m d) as [[y' m'] d'].
    change (date_after_epoch (S n))
      with (let '(y0, m0, d0) := date_after_epoch n in next_day y0 m0 d0).
    rewrite (IH y' m' d'); [done|done|].
    simpl in Hnumber'. lia.
Qed.

Lemma digit_of_ascii_digit k : 0 ≤ k ≤ 9 → digit_of_ascii (digit k) = Some k.
Proof.
  intros Hk.
  assert (Hcases : k = 0 ∨ k = 1 ∨ k = 2 ∨ k = 3 ∨ k = 4 ∨ k = 5 ∨ k = 6
                   ∨ k = 7 ∨ k = 8 ∨ k = 9) by lia.
  destruct_or!; subst k; reflexivity.
Qed.

Lemma take_digits2 acc n rest :
  0 ≤ n ≤ 99 → take_digits 2 acc (digits2 n rest) = Some (100 * acc + n, rest).
Proof.
  intros Hn. unfold digits2. simpl.
  rewrite !digit_of_ascii_digit by (Z.div_mod_to_equations; lia).
  do 2 f_equal. Z.div_mod_to_equations. lia.
Qed.

Lemma take_digits_add (n1 n2 : nat) acc s :
  take_digits (n1 + n2) acc s =
  match take_digits n1 acc s with
  | Some (a, r) => take_digits n2 a r
  | None => None
  end.
Proof.
  induction n1 as [|n1 IH] in acc, s |- *; simpl; [done|].
  destruct s as [|c r]; [done|].
  destruct (digit_of_ascii c); [apply IH|done].
Qed.

Lemma take_digits4 n rest :
  0 ≤ n ≤ 9999 → take_digits 4 0 (digits4 n rest) = Some (n, rest).
Proof.
  intros Hn. unfold digits4.
  rewrite (take_digits_add 2 2).
  rewrite take_digits2 by (Z.div_mod_to_equations; lia).
  rewrite take_digits2 by (Z.div_mod_to_equations; lia).
  do 2 f_equal. Z.div_mod_to_equations. lia.
Qed.

Lemma parse_year_digit k rest :
  0 ≤ k ≤ 9 →
  parse_year (String (digit k) rest) = take_digits 4 0 (String (digit k) rest).
Proof.
  intros Hk.
  assert (Hcases : k = 0 ∨ k = 1 ∨ k = 2 ∨ k = 3 ∨ k = 4 ∨ k = 5 ∨ k = 6
                   ∨ k = 7 ∨ k = 8 ∨ k = 9) by lia.
  destruct_or!; subst k; reflexivity.
Qed.

Lemma parse_year_digits4 y rest :
  0 ≤ y ≤ 9999 → parse_year (digits4 y rest) = Some (y, rest).
Proof.
  intros Hy. rewrite <- (take_digits4 y rest) by done.
  unfold digits4, digits2.
  apply parse_year_digit. Z.div_mod_to_equations. lia.
Qed.

Lemma parse_field_digits2 sep n rest :
  0 ≤ n ≤ 99 →
  parse_field sep (String sep (digits2 n rest)) = Some (Some n, rest).
Proof.
  intros Hn. unfold parse_field.
  by rewrite Ascii.eqb_refl, take_digits2.
Qed.

Lemma DaysInMonth_le y m : DaysInMonth y m ≤ 31.
Proof.
  unfold DaysInMonth.
  repeat match goal with
         | |- context [match ?x with _ => _ end] => destruct x
         end; lia.
Qed.

Lemma ymd_append y m d s :
  ymd y m d +:+ s =
  digits4 y (String "-" (digits2 m (String "-" (digits2 d s)))).
Proof. reflexivity. Qed.

(** The text [YYYY-MM-DDT00:00:00+05:30] of a calendar date denotes the
    instant at which the clocks at [+05:30] read midnight of that date. *)
Lemma parse_iso_ymd_midnight tza y m d :
  0 ≤ y ≤ 9999 → 1 ≤ m ≤ 12 → 1 ≤ d ≤ DaysInMonth y m →
  parse_iso tza (ymd y m d +:+ "T00:00:00+05:30") = Some (istMidnight y m d).
Proof.
  intros Hy Hm Hd. pose proof (DaysInMonth_le y m) as Hdim.
  rewrite ymd_append. unfold parse_iso.
  rewrite parse_year_digits4 by done.
  rewrite parse_field_digits2 by lia.
  rewrite parse_field_digits2 by lia.
  cbv [default from_option Datatypes.id].
  assert (Hrange : (1 <=? m) && (m <=? 12) && (1 <=? d)
                     && (d <=? DaysInMonth y m) = true).
  { rewrite !andb_true_iff, !Z.leb_le. lia. }
  rewrite Hrange. reflexivity.
Qed.

Lemma MakeDay_bounds y m d :
  0 ≤ y ≤ 9999 → 1 ≤ d ≤ 31 → -720000 ≤ MakeDay y m d ≤ 2940000.
Proof.
  intros Hy Hd. unfold MakeDay, DayFromYear.
  assert (0 ≤ DaysBeforeMonth y m ≤ 335).
  { unfold DaysBeforeMonth.
    repeat match goal with
           | |- context [match ?x with _ => _ end] => destruct x
           end; lia. }
  Z.div_mod_to_equations. lia.
Qed.

Lemma TimeClip_in_range t :
  - maxTime ≤ t ≤ maxTime → TimeClip (Some t) = Valid t.
Proof.
  intros Ht. unfold TimeClip.
  destruct (Z.leb_spec (Z.abs t) maxTime); [done|lia].
Qed.

Lemma istMidnight_bounds y m d :
  0 ≤ y ≤ 9999 → 1 ≤ m ≤ 12 → 1 ≤ d ≤ DaysInMonth y m →
  - maxTime ≤ istMidnight y m d
  ∧ istMidnight y m d + 24 * 60 * 60 * 1000 ≤ maxTime.
Proof.
  intros Hy Hm Hd. pose proof (DaysInMonth_le y m).
  pose proof (MakeDay_bounds y m d Hy ltac:(lia)).
  unfold istMidnight, MakeDate, msPerDay, istOffset, maxTime. lia.
Qed.

End Calendar.

Section Window.
Context (E : Env).

Lemma truthy_ymd y m d : truthy (Some (JS.ymd y m d)) = true.
Proof. reflexivity. Qed.

Lemma Date_parse_ymd_midnight y m d :
  0 ≤ y ≤ 9999 → 1 ≤ m ≤ 12 → 1 ≤ d ≤ JS.DaysInMonth y m →
  Date_parse E (JS.ymd y m d +:+ "T00:00:00+05:30")
  = JS.Valid (JS.istMidnight y m d).
Proof.
  intros Hy Hm Hd. unfold Date_parse.
  rewrite parse_iso_ymd_midnight by done.
  apply TimeClip_in_range.
  pose proof (istMidnight_bounds y m d Hy Hm Hd).
  unfold JS.maxTime in *. lia.
Qed.

(** The three routes resolve a date parameter alike. *)
Lemma window_of_date_agree (dateParam : option string) :
  truthy dateParam = true →
  EodUtc.window E dateParam = Eod.window E dateParam
  ∧ Debug.window E dateParam = Eod.window E dateParam.
Proof.
  intros Ht. unfold EodUtc.window, Debug.window, Eod.window.
  by rewrite Ht.
Qed.

(** Without a date parameter the debug route and the second digest route
    end the window at the reading of the clock. *)
Lemma rolling_window_reads_the_clock :
  - JS.maxTime + 24 * 60 * 60 * 1000 ≤ now E ≤ JS.maxTime →
  EodUtc.window E None
  = (JS.Valid (now E - 24 * 60 * 60 * 1000), JS.Valid (now E))
  ∧ Debug.window E None = EodUtc.window E None.
Proof.
  intros Hnow. split; [|done].
  unfold EodUtc.window, Date_now. cbn [truthy].
  rewrite (TimeClip_in_range (now E)) by lia.
  cbn [JS.getTime JS.minus fmap option_fmap option_map].
  by rewrite TimeClip_in_range by lia.
Qed.

(** In [src/app/slack-eod/route.ts] the rolling window ends at whatever
    the host reads back from the text of the clock in [en-US]. *)
Lemma rolling_window_through_istNow :
  Eod.window E None
  = (JS.TimeClip (JS.minus (JS.getTime (Eod.istNow E)) (24 * 60 * 60 * 1000)),
     Eod.istNow E).
Proof. reflexivity. Qed.

End Window.

(** Two readings of the clock that print alike in [en-US] give the same
    [istNow]: the end of the rolling window cannot be the reading itself. *)
Lemma istNow_forgets_the_milliseconds (E : Env) (t1 t2 : Z) :
  toLocaleString_en_US_Kolkata E (JS.TimeClip (Some t1))
  = toLocaleString_en_US_Kolkata E (JS.TimeClip (Some t2)) →
  Eod.istNow (with_clock E t1) = Eod.istNow (with_clock E t2).
Proof.
  intros Htext. unfold Eod.istNow, Date_now, Date_parse.
  cbn [with_clock now tza legacy_parse toLocaleString_en_US_Kolkata].
  by rewrite Htext.
Qed.

(** So the end of the rolling window of [src/app/slack-eod/route.ts] is not
    the reading of the clock, whatever the host: of two different readings
    that print alike in [en-US] at most one can be the end of its window. *)
Lemma rolling_window_cannot_follow_the_clock (E : Env) (t1 t2 : Z) :
  t1 ≠ t2 →
  toLocaleString_en_US_Kolkata E (JS.TimeClip (Some t1))
  = toLocaleString_en_US_Kolkata E (JS.TimeClip (Some t2)) →
  ¬ ((Eod.window (with_clock E t1) None).2 = JS.Valid t1
     ∧ (Eod.window (with_clock E t2) None).2 = JS.Valid t2).
Proof.
  intros Hne Htext [H1 H2].
  rewrite rolling_window_through_istNow in H1, H2. simpl in H1, H2.
  rewrite (istNow_forgets_the_milliseconds E t1 t2 Htext) in H1. congruence.
Qed.

(** C2.  For a valid date parameter [YYYY-MM-DD] the window starts at the
    instant at which the clocks at the fixed offset [+05:30] read midnight of
    that date, and it ends exactly 24 hours later; so in each of the three
    routes. *)
Theorem calendar_day_window (E : Env) (y m d : Z) :
  0 ≤ y ≤ 9999 → 1 ≤ m ≤ 12 → 1 ≤ d ≤ JS.DaysInMonth y m →
  let since := JS.MakeDate (JS.MakeDay y m d) 0 - (5 * 60 + 30) * 60 * 1000 in
  let until := since + 24 * 60 * 60 * 1000 in
  Eod.window E (Some (JS.ymd y m d)) = (JS.Valid since, JS.Valid until)
  ∧ EodUtc.window E (Some (JS.ymd y m d)) = (JS.Valid since, JS.Valid until)
  ∧ Debug.window E (Some (JS.ymd y m d)) = (JS.Valid since, JS.Valid until)
  ∧ until - since = 24 * 60 * 60 * 1000
  ∧ (since + JS.istOffset) / JS.msPerDay = JS.MakeDay y m d
  ∧ (since + JS.istOffset) mod JS.msPerDay = 0
  ∧ (1970 ≤ y →
     JS.date_after_epoch (Z.to_nat ((since + JS.istOffset) / JS.msPerDay))
     = (y, m, d)).
Proof.
  intros Hy Hm Hd since until.
  assert (Hsince : since = JS.istMidnight y m d) by reflexivity.
  assert (Hwindow : Eod.window E (Some (JS.ymd y m d))
                    = (JS.Valid since, JS.Valid until)).
  { unfold Eod.window, Eod.istMidnightFromDateString.
    rewrite truthy_ymd. cbn [default from_option].
    change (Datatypes.id (JS.ymd y m d)) with (JS.ymd y m d).
    rewrite Date_parse_ymd_midnight by done. simpl JS.getTime. simpl JS.plus.
    pose proof (istMidnight_bounds y m d Hy Hm Hd) as [Hlo Hhi].
    rewrite TimeClip_in_range by (unfold JS.maxTime in *; lia).
    by rewrite Hsince. }
  destruct (window_of_date_agree E (Some (JS.ymd y m d))) as [HUtc HDebug];
    [apply truthy_ymd|].
  rewrite HUtc, HDebug, Hwindow.
  assert (Hday : (since + JS.istOffset) / JS.msPerDay = JS.MakeDay y m d).
  { subst since. unfold JS.MakeDate, JS.istOffset, JS.msPerDay.
    Z.div_mod_to_equations. lia. }
  split_and!; try done.
  - lia.
  - subst since. unfold JS.MakeDate, JS.istOffset, JS.msPerDay.
    Z.div_mod_to_equations. lia.
  - intros H1970. rewrite Hday.
    assert (Hdate : JS.is_date (y, m, d)) by done.
    pose proof (day_number_in_year y m d Hdate) as Hyear.
    pose proof (DayFromYear_mono 1970 y H1970) as Hmono.
    change (JS.DayFromYear 1970) with 0 in Hmono.
    apply day_number_counts_days; [done|lia].
Qed.

Lemma calendar_day_window_witness :
  (0 ≤ 2024 ≤ 9999 ∧ 1 ≤ 1 ≤ 12 ∧ 1 ≤ 1 ≤ JS.DaysInMonth 2024 1)
  ∧ Eod.window Sample.E (Some "2024-01-01")
    = (JS.Valid 1704047400000, JS.Valid 1704133800000).
Proof.
  split.
  - simpl. lia.
  - apply (calendar_day_window Sample.E 2024 1 1); simpl; lia.
Defined.

(** C3.  Without a date parameter [src/app/slack-eod/route.ts] does not end
    the window at the reading of the clock: on a host on UTC whose clock
    reads 2024-01-01T00:00:00.123Z the window ends at 2024-01-01T05:30:00.000Z,
    five and a half hours less 123 milliseconds later, and starts exactly
    24 hours before that end. *)
Theorem rolling_window_is_shifted :
  Date_now Sample.E = JS.Valid 1704067200123
  ∧ Eod.window Sample.E None = (JS.Valid 1704000600000, JS.Valid 1704087000000)
  ∧ EodUtc.window Sample.E None
    = (JS.Valid 1703980800123, JS.Valid 1704067200123).
Proof. split_and!; reflexivity. Qed.

(* ===================================================================== *)
(** * Running the effects *)
(* ===================================================================== *)

Lemma run_bind {A B} (m : Eff A) (k : A → Eff B) (w : World) :
  (m ≫= k) w =
  match m w with
  | (Returned a, w') => k a w'
  | (Thrown e, w') => (Thrown e, w')
  end.
Proof. reflexivity. Qed.

Lemma run_ret {A} (a : A) (w : World) : (mret a : Eff A) w = (Returned a, w).
Proof. reflexivity. Qed.

Lemma run_axios_get {A} (service : Request → Reply A) (r : Request) (w : World) :
  axios_get service r w =
  match service r with
  | Answer data => (Returned data, logged w [] [CallGet r])
  | Failure e => (Thrown e, logged w [] [CallGet r])
  end.
Proof.
  unfold axios_get. rewrite run_bind.
  unfold record_call, logged, await. rewrite app_nil_r.
  by destruct (service r).
Qed.

Lemma run_try_catch {A} (body : Eff A) (handler : JSError → Eff A) (w : World) :
  try_catch body handler w =
  match body w with
  | (Returned a, w') => (Returned a, w')
  | (Thrown e, w') => handler e w'
  end.
Proof. reflexivity. Qed.

Lemma logged_nil (w : World) : logged w [] [] = w.
Proof. destruct w. unfold logged. simpl. by rewrite !app_nil_r. Qed.

Lemma logged_logged (w : World) lines1 made1 lines2 made2 :
  logged (logged w lines1 made1) lines2 made2
  = logged w (lines1 ++ lines2) (made1 ++ made2).
Proof. unfold logged. simpl. by rewrite !app_assoc. Qed.

Lemma run_console_warn (args : list string) (w : World) :
  console_warn args w = (Returned tt, logged w [(LWarn, args)] []).
Proof. unfold console_warn, console_log, logged. by rewrite app_nil_r. Qed.

Lemma run_console_error (args : list string) (w : World) :
  console_error args w = (Returned tt, logged w [(LError, args)] []).
Proof. unfold console_error, console_log, logged. by rewrite app_nil_r. Qed.

(* ===================================================================== *)
(** * The commit collector *)
(* ===================================================================== *)

Lemma warns_on_status (err : JSError) :
  Eod.warns_on err = true
  ↔ ∃ st, status_of err = Some st ∧ st ≠ 404 ∧ st ≠ 0.
Proof.
  unfold Eod.warns_on, status_of. destruct (response err) as [r|]; simpl.
  - rewrite andb_true_iff, !negb_true_iff, !Z.eqb_neq. naive_solver.
  - naive_solver.
Qed.

Section Collector.
Context (E : Env) (cfg : Config) (sinceIso untilIso : string).

Local Abbreviation answer := (commit_answer E cfg sinceIso untilIso).

(** One turn of the loop of step 2. *)
Lemma collect_one branch (commits : list Commit) (w : World) :
  try_catch
    (data ← axios_get (gitlab_commits E)
              (commitsRequest cfg branch sinceIso untilIso);
     mret (if bool_decide (length data = 0%nat) then commits
           else commits ++ (Eod.ofBranch branch <$> data)))
    (λ err,
       (if Eod.warns_on err
        then console_warn
               ["⚠️ commits fetch failed for branch " +:+ branch +:+ ": "
                  +:+ message_or_text err]
        else mret tt);;
       mret commits) w
  = (Returned (commits ++ contribution (answer branch) branch),
     logged w (commit_warning (answer branch) branch)
       [CallGet (commitsRequest cfg branch sinceIso untilIso)]).
Proof.
  rewrite run_try_catch, run_bind, run_axios_get. unfold commit_answer. simpl.
  destruct (gitlab_commits E _) as [data|err]; simpl.
  - case_bool_decide as Hlen; [|done].
    destruct data; [|done]. simpl. by rewrite app_nil_r.
  - rewrite run_bind, app_nil_r.
    pose proof (warns_on_status err) as Hwarn.
    destruct (Eod.warns_on err).
    + destruct (proj1 Hwarn eq_refl) as (st & -> & H404 & H0).
      rewrite run_console_warn, run_ret, logged_logged. simpl.
      rewrite bool_decide_false by naive_solver. done.
    + rewrite !run_ret.
      destruct (status_of err) as [st|]; [|done].
      case_bool_decide as Hst; [done|].
      assert (false = true); [|done].
      apply Hwarn. exists st. naive_solver.
Qed.

(** The whole loop: it never throws; every answer is appended, every
    failure contributes nothing. *)
Lemma collectCommits_run branches (commits : list Commit) (w : World) :
  Eod.collectCommits E cfg sinceIso untilIso branches commits w
  = (Returned (commits ++ (branches ≫= λ b, contribution (answer b) b)),
     logged w (branches ≫= λ b, commit_warning (answer b) b)
       ((λ b, CallGet (commitsRequest cfg b sinceIso untilIso)) <$> branches)).
Proof.
  induction branches as [|branch rest IH] in commits, w |- *.
  - simpl. by rewrite run_ret, app_nil_r, logged_nil.
  - cbn [Eod.collectCommits]. rewrite run_bind, collect_one, IH.
    rewrite logged_logged. simpl. by rewrite app_assoc.
Qed.

End Collector.

Lemma debug_warns_on_status (err : JSError) :
  Debug.warns_on err = true ↔ status_of err ≠ Some 404.
Proof.
  unfold Debug.warns_on, status_of. destruct (response err) as [r|]; simpl.
  - rewrite negb_true_iff, Z.eqb_neq.
    split; [congruence | intros H ?; apply H; congruence].
  - split; [discriminate | done].
Qed.

Lemma Object_set_lookup {V} (key : string) (value : V)
    (object : gmap string V) (k : string) :
  Object_set key value object !! k
  = if decide (k = key ∧ k ≠ "__proto__") then Some value else object !! k.
Proof.
  unfold Object_set. destruct (String.eqb_spec key "__proto__") as [->|Hkey].
  - by rewrite decide_False by (intros [? ?]; done).
  - destruct (decide (k = key)) as [->|Hne].
    + by rewrite lookup_insert_eq, decide_True.
    + rewrite lookup_insert_ne by done.
      by rewrite decide_False by (intros [? ?]; done).
Qed.

Lemma foldl_Object_set_lookup {V} (entry : string → V) (branches : list string)
    (m : gmap string V) (b : string) :
  foldl (λ m b, Object_set b (entry b) m) m branches !! b
  = if decide (b ∈ branches ∧ b ≠ "__proto__") then Some (entry b) else m !! b.
Proof.
  induction branches as [|a rest IH] in m |- *; cbn [foldl].
  - by rewrite decide_False by (intros [?%elem_of_nil ?]; done).
  - rewrite IH, Object_set_lookup.
    destruct (decide (b ∈ rest ∧ b ≠ "__proto__")) as [[Hin Hb]|Hnin].
    + by rewrite decide_True by (split; [by right|done]).
    + destruct (decide (b = a ∧ b ≠ "__proto__")) as [[-> Hb]|Hne].
      * by rewrite decide_True by (split; [by left|done]).
      * rewrite decide_False; [done|].
        intros [[->|Hin]%elem_of_cons Hb]; [by apply Hne|by apply Hnin].
Qed.

Section DebugCollector.
Context (E : Env) (cfg : Config) (sinceIso untilIso : string).

Local Abbreviation answer := (commit_answer E cfg sinceIso untilIso).

(** One turn of the loop of step 4 of the debug route. *)
Lemma debug_collect_one branch
    (perBranch : gmap string Debug.BranchCommits) (w : World) :
  try_catch
    (data ← axios_get (gitlab_commits E)
              (commitsRequest cfg branch sinceIso untilIso);
     mret (Object_set branch
             {| Debug.error := None; Debug.count := length data;
                Debug.commits := Debug.commitDetail E <$> data |}
             perBranch))
    (λ err,
       let message :=
         default (err_message err)
           (or_else (response err ≫= data_message)
                    (Some (err_message err))) in
       let text := Debug.status_text err +:+ " - " +:+ message in
       (if Debug.warns_on err
        then console_warn ["  ⚠️ " +:+ branch +:+ ": " +:+ text]
        else mret tt);;
       mret (Object_set branch
               {| Debug.error := Some text; Debug.count := 0;
                  Debug.commits := [] |} perBranch)) w
  = (Returned (Object_set branch (debug_entry E (answer branch)) perBranch),
     logged w (debug_warning E (answer branch) branch)
       [CallGet (commitsRequest cfg branch sinceIso untilIso)]).
Proof.
  rewrite run_try_catch, run_bind, run_axios_get. unfold commit_answer.
  destruct (gitlab_commits E _) as [data|err]; [done|].
  cbv zeta. rewrite run_bind. cbn [debug_warning debug_entry Debug.error default
                                    from_option Datatypes.id].
  pose proof (debug_warns_on_status err) as Hwarn.
  destruct (Debug.warns_on err).
  - rewrite run_console_warn, run_ret, logged_logged.
    by rewrite bool_decide_false by (by apply Hwarn).
  - rewrite !run_ret, bool_decide_true; [done|].
    destruct (decide (status_of err = Some 404)) as [|Hne]; [done|].
    apply Hwarn in Hne. discriminate.
Qed.

(** The loop of step 4 of the debug route: it never throws, and assigns
    one entry per branch. *)
Lemma debug_collectCommits_run branches
    (perBranch : gmap string Debug.BranchCommits) (w : World) :
  Debug.collectCommits E cfg sinceIso untilIso branches perBranch w
  = (Returned (foldl (λ m b, Object_set b (debug_entry E (answer b)) m)
                 perBranch branches),
     logged w (branches ≫= λ b, debug_warning E (answer b) b)
       ((λ b, CallGet (commitsRequest cfg b sinceIso untilIso)) <$> branches)).
Proof.
  induction branches as [|branch rest IH] in perBranch, w |- *.
  - simpl. by rewrite run_ret, logged_nil.
  - cbn [Debug.collectCommits]. rewrite run_bind, debug_collect_one, IH.
    by rewrite logged_logged.
Qed.

End DebugCollector.

(** The commits of a branch that answered stand in the result, whatever the
    other branches did. *)
Lemma contribution_kept (E : Env) (cfg : Config) (sinceIso untilIso : string)
    (branches : list string) (b : string) (data : list CommitJson) :
  b ∈ branches →
  commit_answer E cfg sinceIso untilIso b = Answer data →
  ∃ before after,
    (branches ≫= λ b, contribution (commit_answer E cfg sinceIso untilIso b) b)
    = before ++ (Eod.ofBranch b <$> data) ++ after.
Proof.
  intros Hb Hanswer.
  destruct (list_elem_of_split _ _ Hb) as (l1 & l2 & ->).
  eexists _, _. rewrite bind_app, bind_cons, Hanswer. reflexivity.
Qed.

(** What the commit loops do keep of the claim.  The loop never throws.  A
    branch whose query fails contributes no commit; a failure with status 404
    leaves no warning; a failure that carries another HTTP status (0 apart)
    leaves one warning; and the commits of every branch that answered are in
    the result, contiguous and in order, whatever happened to the other
    branches.  In the debug route the same holds of [commitsPerBranch], which
    has one entry for every branch but [__proto__], a name that a plain
    object cannot have as a key.  A failure without an HTTP status is left
    out here: the digest routes skip it silently, the debug route warns. *)
Lemma commit_collection_isolates_failures (E : Env) (cfg : Config)
    (sinceIso untilIso : string) (branches : list string) (w : World) :
  let answer := commit_answer E cfg sinceIso untilIso in
  let requests :=
    (λ b, CallGet (commitsRequest cfg b sinceIso untilIso)) <$> branches in
  (∃ commits,
     Eod.collectCommits E cfg sinceIso untilIso branches [] w
     = (Returned commits,
        logged w (branches ≫= λ b, commit_warning (answer b) b) requests)
     ∧ commits = (branches ≫= λ b, contribution (answer b) b)
     ∧ ∀ b data, b ∈ branches → answer b = Answer data →
         ∃ before after, commits = before ++ (Eod.ofBranch b <$> data) ++ after)
  ∧ (∃ perBranch,
       Debug.collectCommits E cfg sinceIso untilIso branches ∅ w
       = (Returned perBranch,
          logged w (branches ≫= λ b, debug_warning E (answer b) b) requests)
       ∧ (∀ b, b ∈ branches → b ≠ "__proto__" →
              perBranch !! b = Some (debug_entry E (answer b)))
       ∧ perBranch !! "__proto__" = None)
  ∧ (∀ b data, answer b = Answer data →
       debug_entry E (answer b)
       = {| Debug.error := None; Debug.count := length data;
            Debug.commits := Debug.commitDetail E <$> data |})
  ∧ (∀ b err, answer b = Failure err →
       contribution (answer b) b = []
       ∧ Debug.count (debug_entry E (answer b)) = 0%nat
       ∧ Debug.commits (debug_entry E (answer b)) = []
       ∧ (status_of err = Some 404 →
            commit_warning (answer b) b = []
            ∧ debug_warning E (answer b) b = [])
       ∧ (∀ st, status_of err = Some st → st ≠ 404 → st ≠ 0 →
            commit_warning (answer b) b
            = [(LWarn, ["⚠️ commits fetch failed for branch " +:+ b +:+ ": "
                          +:+ message_or_text err])]
            ∧ ∃ line, debug_warning E (answer b) b = [(LWarn, [line])])).
Proof.
  intros answer requests. split_and!.
  - eexists. rewrite collectCommits_run. split_and!; [done..|].
    intros b data Hb Hanswer. simpl. by apply contribution_kept.
  - eexists. rewrite debug_collectCommits_run. split; [done|]. split.
    + intros b Hb Hproto. rewrite foldl_Object_set_lookup.
      by rewrite decide_True.
    + rewrite foldl_Object_set_lookup.
      by rewrite decide_False by (intros [_ ?]; done).
  - intros b data Hanswer. by rewrite Hanswer.
  - intros b err Hanswer. rewrite Hanswer. split_and!; [done..| |].
    + intros H404. simpl. rewrite H404.
      by rewrite !bool_decide_true by naive_solver.
    + intros st Hst H404 H0. simpl. rewrite Hst.
      rewrite !bool_decide_false by naive_solver. eauto.
Qed.

Lemma commit_collection_isolates_failures_witness :
  ∃ commits w,
    Eod.collectCommits Sample.E Sample.cfg Sample.sinceIso Sample.untilIso
      ["gone"; "main"; "flaky"; "forbidden"] [] world0
    = (Returned commits, w)
    ∧ ∃ before after,
        commits
        = before
          ++ (Eod.ofBranch "main"
                <$> [Sample.commitOf "a1" "Add window";
                     Sample.commitOf "b2" "Fix dedupe"])
          ++ after.
Proof.
  destruct (commit_collection_isolates_failures Sample.E Sample.cfg
              Sample.sinceIso Sample.untilIso
              ["gone"; "main"; "flaky"; "forbidden"] world0)
    as [(commits & Hrun & _ & Hkept) _].
  exists commits. eexists. split; [exact Hrun|].
  apply Hkept; [|reflexivity].
  apply (bool_decide_unpack _). vm_compute. exact I.
Defined.

(** C4.  The claim at a query that fails without any HTTP answer (a
    network error: [err.response] is undefined), beside a branch that
    answers.  The commits of the branch that answered are collected, and the
    failure is no 404; yet the loop of [src/app/slack-eod/route.ts] records
    no warning for it, where its own comment says that it warns for every
    failure other than a 404 and where the loop of the debug route does warn
    on the same input. *)
Theorem network_failure_leaves_no_warning :
  commit_answer Sample.E Sample.cfg Sample.sinceIso Sample.untilIso "flaky"
  = Failure Sample.network_error
  ∧ status_of Sample.network_error = None
  ∧ Eod.collectCommits Sample.E Sample.cfg Sample.sinceIso Sample.untilIso
      ["flaky"; "main"] [] world0
    = (Returned [Eod.ofBranch "main" (Sample.commitOf "a1" "Add window");
                 Eod.ofBranch "main" (Sample.commitOf "b2" "Fix dedupe")],
       {| console := [];
          calls := [CallGet (commitsRequest Sample.cfg "flaky"
                               Sample.sinceIso Sample.untilIso);
                    CallGet (commitsRequest Sample.cfg "main"
                               Sample.sinceIso Sample.untilIso)] |})
  ∧ console
      (Debug.collectCommits Sample.E Sample.cfg Sample.sinceIso Sample.untilIso
         ["flaky"; "main"] ∅ world0).2
    = [(LWarn, ["  ⚠️ flaky: undefined - socket hang up"])].
Proof. split_and!; reflexivity. Qed.

(* ===================================================================== *)
(** * The branch selector *)
(* ===================================================================== *)

Section SetOfList.
Context {A : Type} `{EqDecision A}.
Implicit Types (set xs : list A) (x : A).

Lemma Set_add_all_elem set xs x : x ∈ Set_add_all set xs ↔ x ∈ set ∨ x ∈ xs.
Proof.
  induction xs as [|y rest IH] in set |- *; simpl.
  - set_solver.
  - rewrite IH. destruct (decide (y ∈ set)); set_solver.
Qed.

Lemma Set_add_all_NoDup set xs : NoDup set → NoDup (Set_add_all set xs).
Proof.
  induction xs as [|y rest IH] in set |- *; simpl; [done|].
  intros Hset. apply IH. destruct (decide (y ∈ set)); [done|].
  apply NoDup_app. split_and!; [done|set_solver|apply NoDup_singleton].
Qed.

Lemma Array_from_Set_elem xs x : x ∈ Array_from_Set xs ↔ x ∈ xs.
Proof. unfold Array_from_Set. rewrite Set_add_all_elem. set_solver. Qed.

Lemma Array_from_Set_NoDup xs : NoDup (Array_from_Set xs).
Proof. apply Set_add_all_NoDup, NoDup_nil_2. Qed.

End SetOfList.

Lemma truthy_Some (n : string) : truthy (Some n) = true ↔ n ≠ EmptyString.
Proof. simpl. by rewrite negb_true_iff, String.eqb_neq. Qed.

Lemma filter_Boolean_elem (xs : list (option string)) (n : string) :
  n ∈ filter_Boolean xs ↔ n ≠ EmptyString ∧ Some n ∈ xs.
Proof.
  unfold filter_Boolean. rewrite list_elem_of_omap. split.
  - intros (o & Ho & Hkept). destruct (truthy o) eqn:Ht; [|done].
    subst o. by apply truthy_Some in Ht.
  - intros [Hn Hin]. exists (Some n). split; [done|].
    by rewrite (proj2 (truthy_Some n) Hn).
Qed.

Lemma filter_Boolean_NoDup (xs : list (option string)) :
  NoDup xs → NoDup (filter_Boolean xs).
Proof.
  induction 1 as [|o rest Hnotin Hrest IH]; [constructor|].
  unfold filter_Boolean. cbn [omap list_omap].
  destruct (truthy o) eqn:Ht; [|apply IH].
  destruct o as [n|]; [|done]. constructor; [|apply IH].
  fold (filter_Boolean rest). rewrite filter_Boolean_elem. tauto.
Qed.

Lemma filter_sublist_impl {A} (P Q : A → Prop) `{!∀ x, Decision (P x)}
    `{!∀ x, Decision (Q x)} (l : list A) :
  (∀ x, x ∈ l → P x → Q x) → sublist (filter P l) (filter Q l).
Proof.
  induction l as [|x l IH]; intros Himpl; [constructor|].
  rewrite !filter_cons.
  assert (Hrest : sublist (filter P l) (filter Q l))
    by (apply IH; intros y Hy; apply Himpl; set_solver).
  destruct (decide (P x)) as [HP|HP].
  - rewrite decide_True by (apply Himpl; [set_solver|done]).
    by apply sublist_skip.
  - destruct (decide (Q x)); [by apply sublist_cons|done].
Qed.

Section Selector.
Context (E : Env).

Lemma cutoffAt_in_range margin u :
  - JS.maxTime ≤ u - margin ≤ JS.maxTime →
  cutoffAt margin (JS.Valid u) = JS.Valid (u - margin).
Proof. intros Hrange. unfold cutoffAt. simpl. by apply TimeClip_in_range. Qed.

Lemma isActiveAfter_spec (cut : Z) (b : BranchJson) :
  isActiveAfter E (JS.Valid cut) b = true
  ↔ ∃ c t, commit b = Some c ∧ Date_parse E (created_at c) = JS.Valid t
           ∧ cut < t.
Proof.
  unfold isActiveAfter. destruct (commit b) as [c|].
  - destruct (Date_parse E (created_at c)) as [|t] eqn:Hdate; simpl.
    + split; [discriminate|].
      intros (c' & t & [= <-] & Hparse & _). congruence.
    + rewrite Z.ltb_lt. split.
      * intros Hlt. by exists c, t.
      * intros (c' & t' & [= <-] & Hparse & Hlt). congruence.
  - split; [discriminate|]. by intros (c & t & Hcommit & _).
Qed.

Lemma isActiveAfter_Invalid (b : BranchJson) :
  isActiveAfter E JS.Invalid b = false.
Proof.
  unfold isActiveAfter. destruct (commit b) as [c|]; [|done].
  by destruct (Date_parse E (created_at c)).
Qed.

Lemma activeBranchesAt_elem margin u (data : list BranchJson) (n : string) :
  - JS.maxTime ≤ u - margin ≤ JS.maxTime →
  Some n ∈ Eod.activeBranchesAt E margin (JS.Valid u) data
  ↔ active_branch E u margin data n.
Proof.
  intros Hrange. unfold Eod.activeBranchesAt, active_branch.
  rewrite cutoffAt_in_range by done. rewrite list_elem_of_fmap. split.
  - intros (b & Hname & Hb). apply list_elem_of_filter in Hb as [Hactive Hb].
    apply Is_true_true, isActiveAfter_spec in Hactive as (c & t & ? & ? & ?).
    by exists b, c, t.
  - intros (b & c & t & Hb & Hname & Hc & Ht & Hlt). exists b. split; [done|].
    apply list_elem_of_filter. split; [|done].
    apply Is_true_true, isActiveAfter_spec. by exists c, t.
Qed.

Lemma mrBranches_elem (data : list MRJson) (n : string) :
  n ∈ mrBranches data ↔ n ≠ EmptyString ∧ mr_source_branch data n.
Proof.
  unfold mrBranches, mr_source_branch.
  rewrite filter_Boolean_elem, list_elem_of_fmap. naive_solver.
Qed.

End Selector.

Section SelectorRuns.
Context (E : Env) (cfg : Config).

(** Step 1 of the digest routes never throws. *)
Lemma gatherBranches_returns (untilIst : JS.Date) (sinceIso untilIso : string)
    (w : World) :
  ∃ selected w',
    Eod.gatherBranches E cfg untilIst sinceIso untilIso w
    = (Returned selected, w').
Proof.
  unfold Eod.gatherBranches.
  rewrite run_bind, run_try_catch, run_bind, run_axios_get.
  destruct (gitlab_branches E (branchesRequest cfg)) as [data|err].
  - rewrite run_ret, run_bind, run_try_catch, run_bind, run_axios_get.
    destruct (gitlab_merge_requests E _) as [mrs|err]; eauto.
  - rewrite run_bind, run_console_warn, run_ret.
    rewrite run_bind, run_try_catch, run_bind, run_axios_get.
    destruct (gitlab_merge_requests E _) as [mrs|err']; eauto.
Qed.

(** Step 1 of the digest routes when both listings arrive. *)
Lemma gatherBranches_run (untilIst : JS.Date) (sinceIso untilIso : string)
    (data : list BranchJson) (mrs : list MRJson) (w : World) :
  gitlab_branches E (branchesRequest cfg) = Answer data →
  gitlab_merge_requests E (windowMRsRequest cfg sinceIso untilIso) = Answer mrs →
  Eod.gatherBranches E cfg untilIst sinceIso untilIso w
  = (Returned (Array_from_Set
                 (filter_Boolean (Eod.activeBranches E untilIst data
                                  ++ (Some <$> mrBranches mrs)))),
     logged w [] [CallGet (branchesRequest cfg);
                  CallGet (windowMRsRequest cfg sinceIso untilIso)]).
Proof.
  intros Hdata Hmrs. unfold Eod.gatherBranches.
  rewrite run_bind, run_try_catch, run_bind, run_axios_get, Hdata, run_ret.
  rewrite run_bind, run_try_catch, run_bind, run_axios_get, Hmrs, !run_ret.
  by rewrite logged_logged.
Qed.

(** The callback of the debug route on one branch: it throws on a commit
    date that is no date, and otherwise reports the branch as the digest
    routes judge it. *)
Lemma debug_branchInfo_run (cut : JS.Date) (b : BranchJson) (w : World) :
  (∃ c, commit b = Some c ∧ Date_parse E (created_at c) = JS.Invalid
        ∧ Debug.branchInfo E cut b w = (Thrown RangeError_invalid_time, w))
  ∨ (∃ info, Debug.branchInfo E cut b w = (Returned info, w)
             ∧ Debug.bi_name info = name b
             ∧ Debug.isActive info = isActiveAfter E cut b).
Proof.
  unfold Debug.branchInfo, isActiveAfter.
  destruct (commit b) as [c|]; simpl.
  - destruct (Date_parse E (created_at c)) as [|t] eqn:Hdate; simpl.
    + left. by exists c.
    + right. eexists. by rewrite run_bind.
  - right. eexists. by rewrite run_bind.
Qed.

Lemma debug_branches_returned (cut : JS.Date) (data : list BranchJson)
    (infos : list Debug.BranchInfo) (w w' : World) :
  mapM (Debug.branchInfo E cut) data w = (Returned infos, w') →
  w' = w
  ∧ Debug.activeBranches infos = name <$> filter (λ b, isActiveAfter E cut b) data.
Proof.
  induction data as [|b rest IH] in infos, w, w' |- *.
  - intros [= <- <-]. done.
  - cbn [mapM]. rewrite run_bind.
    destruct (debug_branchInfo_run cut b w)
      as [(c & _ & _ & ->)|(info & -> & Hname & Hactive)]; [done|].
    rewrite run_bind.
    destruct (mapM (Debug.branchInfo E cut) rest w) as [[infos'|e] w''] eqn:Hrest;
      [|done].
    rewrite run_ret. intros [= <- <-].
    destruct (IH _ _ _ Hrest) as [-> Hactives]. split; [done|].
    unfold Debug.activeBranches in *. rewrite !filter_cons.
    rewrite Hactive.
    destruct (decide (isActiveAfter E cut b)); [|done].
    by rewrite !fmap_cons, Hname, Hactives.
Qed.

Lemma debug_branches_run (cut : JS.Date) (data : list BranchJson) (w : World) :
  (∀ b c, b ∈ data → commit b = Some c →
          Date_parse E (created_at c) ≠ JS.Invalid) →
  ∃ infos, mapM (Debug.branchInfo E cut) data w = (Returned infos, w).
Proof.
  induction data as [|b rest IH]; intros Hvalid.
  - by eexists.
  - cbn [mapM]. rewrite run_bind.
    destruct (debug_branchInfo_run cut b w)
      as [(c & Hc & Hdate & _)|(info & -> & _)].
    { destruct (Hvalid b c); [set_solver|done..]. }
    rewrite run_bind.
    destruct IH as [infos ->]; [intros b' c' ?; apply Hvalid; set_solver|].
    by eexists.
Qed.

(** Step 1 of the debug route when the listing arrives with dates that are
    dates. *)
Lemma debug_fetchBranches_run (untilUtc : JS.Date) (data : list BranchJson)
    (errors : list string) (w : World) :
  gitlab_branches E (branchesRequest cfg) = Answer data →
  (∀ b c, b ∈ data → commit b = Some c →
          Date_parse E (created_at c) ≠ JS.Invalid) →
  ∃ infos stats,
    Debug.fetchBranches E cfg untilUtc errors w
    = (Returned (infos, stats, errors), logged w [] [CallGet (branchesRequest cfg)])
    ∧ Debug.activeBranches infos = Eod.activeBranches E untilUtc data.
Proof.
  intros Hdata Hvalid. unfold Debug.fetchBranches.
  rewrite run_try_catch, run_bind, run_axios_get, Hdata. cbv zeta.
  rewrite run_bind.
  destruct (debug_branches_run (cutoff untilUtc) data
              (logged w [] [CallGet (branchesRequest cfg)]) Hvalid)
    as [infos Hinfos].
  rewrite Hinfos, run_ret. eexists _, _. split; [done|].
  by destruct (debug_branches_returned _ _ _ _ _ Hinfos) as [_ ->].
Qed.

(** Step 2 of the debug route when the listing arrives. *)
Lemma debug_fetchMRs_run (sinceIso untilIso : string) (mrs : list MRJson)
    (errors : list string) (w : World) :
  gitlab_merge_requests E (windowMRsRequest cfg sinceIso untilIso) = Answer mrs →
  Debug.fetchMRs E cfg sinceIso untilIso errors w
  = (Returned (Some (Debug.updatedMR <$> mrs), mrBranches mrs, errors),
     logged w [] [CallGet (windowMRsRequest cfg sinceIso untilIso)]).
Proof.
  intros Hmrs. unfold Debug.fetchMRs.
  by rewrite run_try_catch, run_bind, run_axios_get, Hmrs, run_ret.
Qed.

End SelectorRuns.

(** C5.  When the branch listing and the listing of the merge requests
    updated in the window both arrive, the selected branches are the union of
    the active branches (latest commit strictly after [until] less the seven
    days of the recency margin) and the source branches of the merge requests,
    without null or empty names and each name once.  In the debug route the
    same holds when every commit date of the listing is a date. *)
Theorem selected_branches_are_the_union (E : Env) (cfg : Config) (until : Z)
    (sinceIso untilIso : string) (listing : list BranchJson)
    (mrs : list MRJson) (w : World) :
  - JS.maxTime ≤ until - 7 * 24 * 60 * 60 * 1000 ≤ JS.maxTime →
  gitlab_branches E (branchesRequest cfg) = Answer listing →
  gitlab_merge_requests E (windowMRsRequest cfg sinceIso untilIso) = Answer mrs →
  let in_union (n : string) :=
    n ≠ EmptyString
    ∧ (active_branch E until (7 * 24 * 60 * 60 * 1000) listing n
       ∨ mr_source_branch mrs n) in
  (∃ selected w',
     Eod.gatherBranches E cfg (JS.Valid until) sinceIso untilIso w
     = (Returned selected, w')
     ∧ NoDup selected
     ∧ ∀ n, n ∈ selected ↔ in_union n)
  ∧ ((∀ b c, b ∈ listing → commit b = Some c →
             Date_parse E (created_at c) ≠ JS.Invalid) →
     ∃ infos stats updated w1 w2,
       Debug.fetchBranches E cfg (JS.Valid until) [] w
       = (Returned (infos, stats, []), w1)
       ∧ Debug.fetchMRs E cfg sinceIso untilIso [] w1
         = (Returned (updated, mrBranches mrs, []), w2)
       ∧ NoDup (Debug.allBranches (Debug.activeBranches infos) (mrBranches mrs))
       ∧ ∀ n, n ∈ Debug.allBranches (Debug.activeBranches infos) (mrBranches mrs)
              ↔ in_union n).
Proof.
  intros Hrange Hlisting Hmrs in_union.
  assert (Hunion : ∀ n,
    n ≠ EmptyString
    ∧ Some n ∈ Eod.activeBranches E (JS.Valid until) listing
               ++ (Some <$> mrBranches mrs)
    ↔ in_union n).
  { intros n. unfold in_union, Eod.activeBranches.
    rewrite elem_of_app, (activeBranchesAt_elem E recencyMargin) by done.
    rewrite (list_elem_of_fmap_inj Some), mrBranches_elem.
    unfold recencyMargin. tauto. }
  split.
  - eexists _, _. split; [by apply gatherBranches_run|]. split.
    + apply Array_from_Set_NoDup.
    + intros n. by rewrite Array_from_Set_elem, filter_Boolean_elem.
  - intros Hvalid.
    destruct (debug_fetchBranches_run E cfg (JS.Valid until) listing [] w
                Hlisting Hvalid) as (infos & stats & Hinfos & Hactive).
    eexists infos, stats, _, _, _. split; [exact Hinfos|].
    split; [by apply debug_fetchMRs_run|].
    unfold Debug.allBranches. rewrite Hactive. split.
    + apply filter_Boolean_NoDup, Array_from_Set_NoDup.
    + intros n. by rewrite filter_Boolean_elem, Array_from_Set_elem.
Qed.

Lemma selected_branches_are_the_union_witness :
  (- JS.maxTime ≤ 1704133800000 - 7 * 24 * 60 * 60 * 1000 ≤ JS.maxTime)
  ∧ ∃ selected w',
      Eod.gatherBranches Sample.E Sample.cfg (JS.Valid 1704133800000)
        Sample.sinceIso Sample.untilIso world0
      = (Returned selected, w')
      ∧ NoDup selected
      ∧ ∀ n, n ∈ selected
             ↔ n ≠ EmptyString
               ∧ (active_branch Sample.E 1704133800000
                    (7 * 24 * 60 * 60 * 1000) Sample.branch_listing n
                  ∨ mr_source_branch Sample.window_mrs n).
Proof.
  assert (Hrange : - JS.maxTime ≤ 1704133800000 - 7 * 24 * 60 * 60 * 1000
                   ≤ JS.maxTime) by (unfold JS.maxTime; lia).
  split; [exact Hrange|].
  exact (proj1 (selected_branches_are_the_union Sample.E Sample.cfg
                  1704133800000 Sample.sinceIso Sample.untilIso
                  Sample.branch_listing Sample.window_mrs world0
                  Hrange eq_refl eq_refl)).
Defined.

(** The sample listing: five candidates, in the order of their first
    appearance. *)
Example selected_branches_example :
  (Eod.gatherBranches Sample.E Sample.cfg (JS.Valid 1704133800000)
     Sample.sinceIso Sample.untilIso world0).1
  = Returned ["main"; "feature-x"; "gone"; "flaky"; "forbidden"].
Proof. reflexivity. Qed.

(** A commit date that is no date makes the listing of the debug route
    fail as a whole, where the digest routes only pass over the branch. *)
Example debug_listing_fails_on_a_bad_date :
  let listing := [Sample.branchOf (Some "main") (Some "yesterday")] in
  let E := with_branches Sample.E (λ _, Answer listing) in
  (Debug.fetchBranches E Sample.cfg (JS.Valid 1704133800000) [] world0).1
  = Returned ([], None, ["Branch fetch failed: undefined - Invalid time value"])
  ∧ Eod.activeBranches E (JS.Valid 1704133800000) listing = [].
Proof. split; reflexivity. Qed.

Lemma TimeClip_out_of_range (t : Z) :
  ¬ (- JS.maxTime ≤ t ≤ JS.maxTime) → JS.TimeClip (Some t) = JS.Invalid.
Proof.
  intros Ht. unfold JS.TimeClip.
  destruct (Z.leb_spec (Z.abs t) JS.maxTime); [lia|done].
Qed.

Lemma isActiveAfter_margin (E : Env) (until : JS.Date) (m1 m2 : Z)
    (b : BranchJson) :
  m1 ≤ m2 →
  (∀ u, until = JS.Valid u → - JS.maxTime ≤ u - m2) →
  isActiveAfter E (cutoffAt m1 until) b → isActiveAfter E (cutoffAt m2 until) b.
Proof.
  intros Hle Hfloor. destruct until as [|u].
  - by rewrite isActiveAfter_Invalid.
  - specialize (Hfloor u eq_refl). unfold cutoffAt.
    cbn [JS.getTime JS.minus fmap option_fmap option_map].
    destruct (decide (- JS.maxTime ≤ u - m1 ≤ JS.maxTime)) as [Hin|Hout].
    + rewrite !TimeClip_in_range by lia.
      rewrite !Is_true_true, !isActiveAfter_spec.
      intros (c & t & Hc & Ht & Hlt). exists c, t. split_and!; [done..|lia].
    + rewrite (TimeClip_out_of_range (u - m1)) by done.
      by rewrite isActiveAfter_Invalid.
Qed.

(** C9.  A larger recency margin never removes a branch from the active
    set: with [m1 ≤ m2] the active branches for [m1] are a subsequence of
    those for [m2], provided [until - m2] is not before the earliest instant
    a [Date] can hold.  The code has the margin fixed at seven days. *)
Theorem active_branches_grow_with_the_margin (E : Env) (until : JS.Date)
    (listing : list BranchJson) (m1 m2 : Z) :
  m1 ≤ m2 →
  (∀ u, until = JS.Valid u → - JS.maxTime ≤ u - m2) →
  sublist (Eod.activeBranchesAt E m1 until listing)
          (Eod.activeBranchesAt E m2 until listing)
  ∧ (∀ n, n ∈ Eod.activeBranchesAt E m1 until listing →
          n ∈ Eod.activeBranchesAt E m2 until listing)
  ∧ Eod.activeBranches E until listing
    = Eod.activeBranchesAt E (7 * 24 * 60 * 60 * 1000) until listing
  ∧ (∀ infos1 infos2 w w1 w2,
       mapM (Debug.branchInfo E (cutoffAt m1 until)) listing w
       = (Returned infos1, w1) →
       mapM (Debug.branchInfo E (cutoffAt m2 until)) listing w
       = (Returned infos2, w2) →
       sublist (Debug.activeBranches infos1) (Debug.activeBranches infos2)).
Proof.
  intros Hle Hfloor.
  assert (Hsub : sublist (Eod.activeBranchesAt E m1 until listing)
                         (Eod.activeBranchesAt E m2 until listing)).
  { unfold Eod.activeBranchesAt. apply fmap_sublist, filter_sublist_impl.
    intros b _. by apply isActiveAfter_margin. }
  split_and!; [done| |done|].
  - intros n. by apply sublist_subseteq.
  - intros infos1 infos2 w w1 w2 H1 H2.
    apply debug_branches_returned in H1 as [_ ->].
    apply debug_branches_returned in H2 as [_ ->].
    exact Hsub.
Qed.

Lemma active_branches_grow_with_the_margin_witness :
  (24 * 60 * 60 * 1000 ≤ 7 * 24 * 60 * 60 * 1000)
  ∧ sublist
      (Eod.activeBranchesAt Sample.E (24 * 60 * 60 * 1000)
         (JS.Valid 1704133800000) Sample.branch_listing)
      (Eod.activeBranchesAt Sample.E (7 * 24 * 60 * 60 * 1000)
         (JS.Valid 1704133800000) Sample.branch_listing).
Proof.
  assert (Hle : 24 * 60 * 60 * 1000 ≤ 7 * 24 * 60 * 60 * 1000) by lia.
  split; [exact Hle|].
  apply (active_branches_grow_with_the_margin Sample.E (JS.Valid 1704133800000)
           Sample.branch_listing _ _ Hle).
  intros u [= <-]. unfold JS.maxTime. lia.
Defined.

(** With a margin of one day only [main] (and the nameless branch) is
    active in the sample listing, with seven days [feature-x] is as well;
    a margin that takes the cutoff out of the range of [Date] leaves no
    branch active. *)
Example active_branches_example :
  Eod.activeBranchesAt Sample.E (24 * 60 * 60 * 1000)
    (JS.Valid 1704133800000) Sample.branch_listing
  = [Some "main"; None]
  ∧ Eod.activeBranches Sample.E (JS.Valid 1704133800000) Sample.branch_listing
    = [Some "main"; Some "feature-x"; None]
  ∧ Eod.activeBranchesAt Sample.E 10000000000000000
      (JS.Valid 1704133800000) Sample.branch_listing
    = [].
Proof. split_and!; reflexivity. Qed.

(* ===================================================================== *)
(** * A date parameter that is no date *)
(* ===================================================================== *)

Section InvalidDate.
Context (E : Env) (cfg : Config).

Lemma window_of_invalid_date (dateParam : string) :
  dateParam ≠ EmptyString →
  Date_parse E (dateParam +:+ "T00:00:00+05:30") = JS.Invalid →
  Eod.window E (Some dateParam) = (JS.Invalid, JS.Invalid).
Proof.
  intros Hpresent Hparse. unfold Eod.window, Eod.istMidnightFromDateString.
  rewrite (proj2 (truthy_Some dateParam) Hpresent).
  cbn [default from_option]. unfold Datatypes.id. by rewrite Hparse.
Qed.

(** The handler throws before it asks anything of anyone. *)
Lemma handleEODRequest_of_invalid_date (dateParam : string) (w : World) :
  dateParam ≠ EmptyString →
  Date_parse E (dateParam +:+ "T00:00:00+05:30") = JS.Invalid →
  Eod.handleEODRequest E cfg (Some dateParam) w
  = (Thrown RangeError_invalid_time, w)
  ∧ EodUtc.handleEODRequest E cfg (Some dateParam) w
    = (Thrown RangeError_invalid_time, w)
  ∧ Debug.debugInfo E cfg (Some dateParam) w
    = (Thrown RangeError_invalid_time, w).
Proof.
  intros Hpresent Hparse.
  pose proof (window_of_invalid_date dateParam Hpresent Hparse) as Hwindow.
  destruct (window_of_date_agree E (Some dateParam)) as [HUtc HDebug];
    [by apply truthy_Some|].
  unfold Eod.handleEODRequest, EodUtc.handleEODRequest, Debug.debugInfo.
  by rewrite HUtc, HDebug, Hwindow.
Qed.

End InvalidDate.

(** C6, as the code has it.  A date parameter that is present, not empty
    and not parseable as a date makes each route answer with status 500 and
    the message of the [RangeError] that [toISOString] throws; nothing is
    asked of the collaborators.  The digest routes print the message of the
    error, the debug route the error object.  An empty date parameter is
    treated as an absent one, by every route and whatever the host. *)
Theorem unparseable_date_fails (E : Env) (cfg : Config) (dateParam : string)
    (w : World) :
  dateParam ≠ EmptyString →
  Date_parse E (dateParam +:+ "T00:00:00+05:30") = JS.Invalid →
  Eod.GET E cfg (Some dateParam) w
  = (Returned {| http_status := 500; body := BodyError "Invalid time value" |},
     logged w [(LError, ["EOD GET error:"; "Invalid time value"])] [])
  ∧ EodUtc.GET E cfg (Some dateParam) w
    = (Returned {| http_status := 500; body := BodyError "Invalid time value" |},
       logged w [(LError, ["EOD GET error:"; "Invalid time value"])] [])
  ∧ Debug.GET E cfg (Some dateParam) w
    = (Returned {| Debug.http_status := 500;
                   Debug.body := Debug.BodyError "Invalid time value" |},
       logged w [(LError, ["❌ Debug route error:";
                           inspect E RangeError_invalid_time])] [])
  ∧ Eod.GET E cfg (Some EmptyString) w = Eod.GET E cfg None w
  ∧ EodUtc.GET E cfg (Some EmptyString) w = EodUtc.GET E cfg None w
  ∧ Debug.GET E cfg (Some EmptyString) w = Debug.GET E cfg None w.
Proof.
  intros Hpresent Hparse.
  destruct (handleEODRequest_of_invalid_date E cfg dateParam w Hpresent Hparse)
    as (HEod & HUtc & HDebug).
  split_and!; [..|reflexivity|reflexivity|reflexivity].
  - unfold Eod.GET. rewrite run_try_catch, run_bind, HEod.
    by rewrite run_bind, run_console_error, run_ret.
  - unfold EodUtc.GET. rewrite run_try_catch, run_bind, HUtc.
    by rewrite run_bind, run_console_error, run_ret.
  - unfold Debug.GET. rewrite run_try_catch, run_bind, HDebug.
    by rewrite run_bind, run_console_error, run_ret.
Qed.

Lemma unparseable_date_fails_witness :
  "tomorrow" ≠ EmptyString
  ∧ Date_parse Sample.E ("tomorrow" +:+ "T00:00:00+05:30") = JS.Invalid
  ∧ Eod.GET Sample.E Sample.cfg (Some "tomorrow") world0
    = (Returned {| http_status := 500; body := BodyError "Invalid time value" |},
       logged world0 [(LError, ["EOD GET error:"; "Invalid time value"])] []).
Proof.
  assert (Hpresent : "tomorrow" ≠ EmptyString) by discriminate.
  assert (Hparse : Date_parse Sample.E ("tomorrow" +:+ "T00:00:00+05:30")
                   = JS.Invalid) by reflexivity.
  split; [exact Hpresent|]. split; [exact Hparse|].
  exact (proj1 (unparseable_date_fails Sample.E Sample.cfg "tomorrow" world0
                  Hpresent Hparse)).
Defined.

(** C6 as the specification words it does not hold: a date parameter that
    is present and empty ([?date=]) is no date, and the request is served
    with the rolling window. *)
Lemma empty_date_is_served :
  Date_parse Sample.E (EmptyString +:+ "T00:00:00+05:30") = JS.Invalid
  ∧ Eod.window Sample.E (Some EmptyString) = Eod.window Sample.E None
  ∧ (Eod.GET Sample.E Sample.cfg (Some EmptyString) world0).1
    = Returned
        {| http_status := 200;
           body := BodyResult
                     {| ok := true;
                        result_message :=
                          "EOD sent for window label 1704000600000 → label 1704087000000" |} |}.
Proof. split_and!; reflexivity. Qed.

(* ===================================================================== *)
(** * The merge-request collectors *)
(* ===================================================================== *)

Lemma append_cons (c : ascii) (r s : string) :
  String c r +:+ s = String c (r +:+ s).
Proof. reflexivity. Qed.

Lemma append_assoc (a b c : string) : (a +:+ b) +:+ c = a +:+ (b +:+ c).
Proof.
  induction a as [|x a IH]; [reflexivity|]. by rewrite !append_cons, IH.
Qed.

Lemma append_inj_l (a b c : string) : a +:+ b = a +:+ c → b = c.
Proof.
  induction a as [|x a IH]; [done|]. rewrite !append_cons. intros [= H]. auto.
Qed.

Section MRCollectors.
Context (E : Env) (cfg : Config) (sinceIso untilIso : string).

Local Abbreviation created := (createdRequest cfg sinceIso untilIso).
Local Abbreviation reviewed := (reviewedRequest cfg sinceIso untilIso).
Local Abbreviation listed := (windowMRsRequest cfg sinceIso untilIso).

(** The reviewed merge requests are asked of the instance, the created
    ones of the project. *)
Lemma reviewed_url_is_not_of_the_project : url reviewed ≠ url created.
Proof.
  unfold reviewedRequest, createdRequest, project_url. cbn [url].
  rewrite !append_assoc. intros Heq. apply append_inj_l in Heq.
  discriminate Heq.
Qed.

Lemma listed_is_not_created : listed ≠ created.
Proof. intros Heq. apply (f_equal params) in Heq. discriminate Heq. Qed.

Lemma listed_is_not_reviewed : listed ≠ reviewed.
Proof. intros Heq. apply (f_equal params) in Heq. discriminate Heq. Qed.

Lemma created_is_not_reviewed : created ≠ reviewed.
Proof. intros Heq. apply (f_equal params) in Heq. discriminate Heq. Qed.

Lemma fetchCreatedMRs_run (w : World) :
  Eod.fetchCreatedMRs E cfg sinceIso untilIso w
  = (Returned (mr_lines Eod.mrLine (gitlab_merge_requests E created)),
     logged w (mr_warning E "⚠️ Could not fetch created MRs:"
                 (gitlab_merge_requests E created))
       [CallGet created]).
Proof.
  unfold Eod.fetchCreatedMRs.
  rewrite run_try_catch, run_bind, run_axios_get.
  destruct (gitlab_merge_requests E created) as [data|err]; [done|].
  by rewrite run_bind, run_console_warn, run_ret, logged_logged.
Qed.

Lemma fetchCreatedMRs_with_descriptions_run (w : World) :
  EodUtc.fetchCreatedMRs E cfg sinceIso untilIso w
  = (Returned (mr_lines EodUtc.createdLine (gitlab_merge_requests E created)),
     logged w (mr_warning E "⚠️ Could not fetch created MRs:"
                 (gitlab_merge_requests E created))
       [CallGet created]).
Proof.
  unfold EodUtc.fetchCreatedMRs.
  rewrite run_try_catch, run_bind, run_axios_get.
  destruct (gitlab_merge_requests E created) as [data|err]; [done|].
  by rewrite run_bind, run_console_warn, run_ret, logged_logged.
Qed.

Lemma fetchReviewedMRs_run (w : World) :
  Eod.fetchReviewedMRs E cfg sinceIso untilIso w
  = (Returned (mr_lines Eod.mrLine (gitlab_merge_requests E reviewed)),
     logged w (mr_warning E "⚠️ Could not fetch reviewed MRs:"
                 (gitlab_merge_requests E reviewed))
       [CallGet reviewed]).
Proof.
  unfold Eod.fetchReviewedMRs.
  rewrite run_try_catch, run_bind, run_axios_get.
  destruct (gitlab_merge_requests E reviewed) as [data|err]; [done|].
  by rewrite run_bind, run_console_warn, run_ret, logged_logged.
Qed.

(** Steps 1 to 4 never throw; the three results come from the answers to
    the commit queries, to the request of the created and to the request of
    the reviewed merge requests. *)
Lemma collectActivity_run (untilIst : JS.Date) (w : World) :
  ∃ branches w1 w',
    Eod.gatherBranches E cfg untilIst sinceIso untilIso w
    = (Returned branches, w1)
    ∧ Eod.collectActivity E cfg untilIst sinceIso untilIso w
      = (Returned
           (dedupe (branches ≫= λ b,
                      contribution (commit_answer E cfg sinceIso untilIso b) b),
            mr_lines Eod.mrLine (gitlab_merge_requests E created),
            mr_lines Eod.mrLine (gitlab_merge_requests E reviewed)), w')
    ∧ EodUtc.collectActivity E cfg untilIst sinceIso untilIso w
      = (Returned
           (dedupe (branches ≫= λ b,
                      contribution (commit_answer E cfg sinceIso untilIso b) b),
            mr_lines EodUtc.createdLine (gitlab_merge_requests E created),
            mr_lines Eod.mrLine (gitlab_merge_requests E reviewed)), w').
Proof.
  destruct (gatherBranches_returns E cfg untilIst sinceIso untilIso w)
    as (branches & w1 & Hbranches).
  exists branches, w1. eexists. split; [done|].
  unfold Eod.collectActivity, EodUtc.collectActivity.
  rewrite !run_bind, Hbranches, !run_bind, collectCommits_run.
  rewrite !run_bind, fetchCreatedMRs_run, fetchCreatedMRs_with_descriptions_run.
  rewrite !run_bind, fetchReviewedMRs_run, !run_ret. done.
Qed.

(** A failure of a request other than the listing of step 1 leaves the
    branch candidates as they are. *)
Lemma gatherBranches_failing (r : Request) (err : JSError)
    (untilIst : JS.Date) (w : World) :
  listed ≠ r →
  Eod.gatherBranches (failing E r err) cfg untilIst sinceIso untilIso w
  = Eod.gatherBranches E cfg untilIst sinceIso untilIso w.
Proof.
  intros Hother. unfold Eod.gatherBranches.
  rewrite !run_bind, !run_try_catch, !run_bind, !run_axios_get.
  change (gitlab_branches (failing E r err)) with (gitlab_branches E).
  destruct (gitlab_branches E (branchesRequest cfg)) as [data|err'].
  - rewrite !run_ret, !run_bind, !run_try_catch, !run_bind, !run_axios_get.
    change (gitlab_merge_requests (failing E r err) listed)
      with (if decide (listed = r) then Failure err
            else gitlab_merge_requests E listed).
    by rewrite decide_False by done.
  - rewrite !run_bind, !run_console_warn, !run_ret.
    rewrite !run_bind, !run_try_catch, !run_bind, !run_axios_get.
    change (gitlab_merge_requests (failing E r err) listed)
      with (if decide (listed = r) then Failure err
            else gitlab_merge_requests E listed).
    by rewrite decide_False by done.
Qed.

End MRCollectors.

(* ===================================================================== *)
(** * Further properties of the routes *)
(* ===================================================================== *)

(** ** The commit count of the digest *)

(** X1.  The number of commits the digest reports is the number of distinct
    commit ids among the collected records. *)
Theorem dedupe_counts_distinct_ids (commits : list Commit) :
  length (dedupe commits)
  = size (list_to_set (C := gset string) (id <$> commits))
  ∧ (length (dedupe commits) ≤ length commits)%nat.
Proof.
  split.
  - rewrite <- (length_fmap id (dedupe commits)).
    rewrite <- (size_list_to_set (C := gset string))
      by apply dedupe_from_NoDup.
    f_equal. apply set_eq. intros k. rewrite !elem_of_list_to_set.
    unfold dedupe. rewrite dedupe_from_ids. set_solver.
  - apply sublist_length, dedupe_from_sublist.
Qed.

(** ** The window *)

(** X2.  Whatever the date parameter and whatever the host makes of it, a
    window whose two ends are dates lasts exactly 24 hours, in each of the
    three routes. *)
Theorem window_lasts_24_hours (E : Env) (dateParam : option string)
    (since until : Z) :
  (Eod.window E dateParam = (JS.Valid since, JS.Valid until) →
   until - since = 24 * 60 * 60 * 1000)
  ∧ (EodUtc.window E dateParam = (JS.Valid since, JS.Valid until) →
     until - since = 24 * 60 * 60 * 1000)
  ∧ (Debug.window E dateParam = (JS.Valid since, JS.Valid until) →
     until - since = 24 * 60 * 60 * 1000).
Proof.
  assert (Hplus : ∀ d : JS.Date,
    (d, JS.TimeClip (JS.plus (JS.getTime d) (24 * 60 * 60 * 1000)))
    = (JS.Valid since, JS.Valid until) → until - since = 24 * 60 * 60 * 1000).
  { intros [|t] Heq; [discriminate Heq|].
    cbn [JS.getTime JS.plus fmap option_fmap option_map] in Heq.
    unfold JS.TimeClip in Heq.
    destruct (Z.abs (t + 24 * 60 * 60 * 1000) <=? JS.maxTime);
      [|discriminate Heq].
    injection Heq as <- <-. lia. }
  assert (Hminus : ∀ d : JS.Date,
    (JS.TimeClip (JS.minus (JS.getTime d) (24 * 60 * 60 * 1000)), d)
    = (JS.Valid since, JS.Valid until) → until - since = 24 * 60 * 60 * 1000).
  { intros [|t] Heq; [discriminate Heq|].
    cbn [JS.getTime JS.minus fmap option_fmap option_map] in Heq.
    unfold JS.TimeClip in Heq.
    destruct (Z.abs (t - 24 * 60 * 60 * 1000) <=? JS.maxTime);
      [|discriminate Heq].
    injection Heq as <- <-. lia. }
  unfold Eod.window, EodUtc.window, Debug.window.
  destruct (truthy dateParam); split_and!; first [apply Hplus | apply Hminus].
Qed.

Lemma window_lasts_24_hours_witness :
  Eod.window Sample.E None = (JS.Valid 1704000600000, JS.Valid 1704087000000)
  ∧ 1704087000000 - 1704000600000 = 24 * 60 * 60 * 1000.
Proof.
  assert (Hwindow : Eod.window Sample.E None
                    = (JS.Valid 1704000600000, JS.Valid 1704087000000))
    by reflexivity.
  split; [exact Hwindow|].
  exact (proj1 (window_lasts_24_hours Sample.E None _ _) Hwindow).
Defined.

(** ** Texts that may be missing or blank *)

Section Trim.
Implicit Types (p q r s : list ascii) (chars cs : list (list ascii)).

Lemma strip_prefix_app p r : strip_prefix p (p ++ r) = Some r.
Proof. induction p as [|a p IH]; simpl; [done|]. by rewrite Ascii.eqb_refl. Qed.

Lemma strip_prefix_Some p s r : strip_prefix p s = Some r → s = p ++ r.
Proof.
  induction p as [|a p IH] in s |- *; simpl; [by intros [= ->]|].
  destruct s as [|b s]; [done|].
  destruct (Ascii.eqb_spec a b) as [->|]; [|done].
  by intros ->%IH.
Qed.

(** Of two prefixes of one text, one is a prefix of the other. *)
Lemma strip_prefix_both p q r r' :
  p ++ r = q ++ r' → is_Some (strip_prefix p q) ∨ is_Some (strip_prefix q p).
Proof.
  induction p as [|a p IH] in q |- *; destruct q as [|b q]; simpl; eauto.
  intros [= -> Heq]. rewrite Ascii.eqb_refl. by apply IH.
Qed.

Lemma strip_one_Some chars s r :
  strip_one chars s = Some r → ∃ p, p ∈ chars ∧ s = p ++ r.
Proof.
  induction chars as [|p chars IH]; simpl; [done|].
  destruct (strip_prefix p s) as [r'|] eqn:Hp.
  - intros [= <-]. exists p. split; [by left|by apply strip_prefix_Some].
  - intros (q & Hq & ->)%IH. exists q. split; [by right|done].
Qed.

Section Chars.
Variable all : list (list ascii).
Hypothesis prefix_free :
  ∀ p q, p ∈ all → q ∈ all → is_Some (strip_prefix p q) → p = q.
Hypothesis not_empty : ∀ p, p ∈ all → p ≠ [].

Lemma strip_one_app chars q r :
  (∀ p, p ∈ chars → p ∈ all) → q ∈ chars →
  strip_one chars (q ++ r) = Some r.
Proof.
  induction chars as [|p chars IH]; intros Hall Hq; simpl;
    [by apply elem_of_nil in Hq|].
  assert (Hp : p ∈ all) by (apply Hall; by left).
  destruct (strip_prefix p (q ++ r)) as [r'|] eqn:Hstrip.
  - apply strip_prefix_Some in Hstrip.
    assert (p = q) as ->.
    { destruct (strip_prefix_both q p r r' Hstrip) as [Hsome|Hsome].
      - symmetry. apply prefix_free; [by apply Hall| |]; done.
      - apply prefix_free; [done|by apply Hall|done]. }
    by apply app_inv_head in Hstrip as ->.
  - apply elem_of_cons in Hq as [->|Hq];
      [by rewrite strip_prefix_app in Hstrip|].
    apply IH; [|done]. intros p' Hp'. apply Hall. by right.
Qed.

Lemma strip_leading_nil fuel : strip_leading all fuel [] = [].
Proof.
  destruct fuel as [|fuel]; simpl; [done|].
  destruct (strip_one all []) as [r|] eqn:Hone; [|done].
  apply strip_one_Some in Hone as (p & Hp & Heq).
  symmetry in Heq. apply app_eq_nil in Heq as [-> _].
  by destruct (not_empty [] Hp).
Qed.

(** A text made of the characters alone is removed whole. *)
Lemma strip_leading_concat cs fuel :
  Forall (λ c, c ∈ all) cs → (length cs ≤ fuel)%nat →
  strip_leading all fuel (concat cs) = [].
Proof.
  induction cs as [|c cs IH] in fuel |- *; intros Hcs Hfuel.
  - apply strip_leading_nil.
  - apply Forall_cons in Hcs as [Hc Hcs].
    destruct fuel as [|fuel]; simpl in Hfuel; [lia|].
    cbn [concat strip_leading]. rewrite strip_one_app by done.
    apply IH; [done|lia].
Qed.

Lemma length_concat_chars cs :
  Forall (λ c, c ∈ all) cs → (length cs ≤ length (concat cs))%nat.
Proof.
  induction cs as [|c cs IH]; intros Hcs; [done|].
  apply Forall_cons in Hcs as [Hc Hcs]. cbn [concat].
  rewrite length_app. specialize (IH Hcs).
  destruct c as [|a c]; [by destruct (not_empty [] Hc)|]. simpl. lia.
Qed.

(** With the length of the text as fuel nothing is left to remove. *)
Lemma strip_leading_done fuel s :
  (length s ≤ fuel)%nat → strip_one all (strip_leading all fuel s) = None.
Proof.
  induction fuel as [|fuel IH] in s |- *; intros Hfuel; simpl.
  - destruct s; [|simpl in Hfuel; lia].
    destruct (strip_one all []) as [r|] eqn:Hone; [|done].
    apply strip_one_Some in Hone as (p & Hp & Heq).
    symmetry in Heq. apply app_eq_nil in Heq as [-> _].
    by destruct (not_empty [] Hp).
  - destruct (strip_one all s) as [r|] eqn:Hone; [|done].
    apply IH. apply strip_one_Some in Hone as (p & Hp & ->).
    rewrite length_app in Hfuel.
    destruct p as [|a p]; [by destruct (not_empty [] Hp)|]. simpl in Hfuel. lia.
Qed.

End Chars.

(** What is removed from the front is made of the characters. *)
Lemma strip_leading_split chars fuel s :
  ∃ cs, Forall (λ c, c ∈ chars) cs
        ∧ s = concat cs ++ strip_leading chars fuel s.
Proof.
  induction fuel as [|fuel IH] in s |- *; simpl; [by exists []|].
  destruct (strip_one chars s) as [r|] eqn:Hone; [|by exists []].
  apply strip_one_Some in Hone as (p & Hp & ->).
  destruct (IH r) as (cs & Hcs & Hr). exists (p :: cs).
  split; [by constructor|]. cbn [concat]. by rewrite <- app_assoc, <- Hr.
Qed.

Lemma rev_concat cs : rev (concat cs) = concat (rev (@rev ascii <$> cs)).
Proof.
  induction cs as [|c cs IH]; [done|].
  cbn [concat]. rewrite rev_app_distr, IH, fmap_cons. cbn [rev].
  rewrite concat_app. cbn [concat]. by rewrite app_nil_r.
Qed.

Lemma white_space_prefix_free p q :
  p ∈ white_space → q ∈ white_space → is_Some (strip_prefix p q) → p = q.
Proof.
  assert (Hall : Forall (λ p, Forall (λ q, is_Some (strip_prefix p q) → p = q)
                                white_space) white_space).
  { apply (bool_decide_unpack _). vm_compute. exact I. }
  intros Hp Hq.
  exact (proj1 (Forall_forall _ _) (proj1 (Forall_forall _ _) Hall p Hp) q Hq).
Qed.

Lemma white_space_not_empty p : p ∈ white_space → p ≠ [].
Proof.
  assert (Hall : Forall (λ p : list ascii, p ≠ []) white_space).
  { apply (bool_decide_unpack _). vm_compute. exact I. }
  apply (proj1 (Forall_forall _ _) Hall).
Qed.

(** The text that [trim] returns starts with no white space. *)
Lemma trim_start_done s : strip_one white_space (trim_start s) = None.
Proof.
  apply (strip_leading_done white_space white_space_not_empty). done.
Qed.

End Trim.

(** [trim] leaves nothing exactly of the texts that are white space only. *)
Lemma trim_empty (s : string) : trim s = EmptyString ↔ only_white_space s.
Proof.
  unfold trim, only_white_space.
  set (l := list_ascii_of_string s). split.
  - intros Hempty.
    assert (Hend : trim_end (trim_start l) = []).
    { destruct (trim_end (trim_start l)); [done|discriminate Hempty]. }
    unfold trim_end in Hend.
    destruct (strip_leading_split (@rev ascii <$> white_space)
                (length (trim_start l)) (rev (trim_start l)))
      as (back & Hback & Hrev).
    destruct (strip_leading_split white_space (length l) l)
      as (front & Hfront & Hl).
    fold (trim_start l) in Hl.
    apply (f_equal (@rev ascii)) in Hend. rewrite rev_involutive in Hend.
    rewrite Hend in Hrev. cbn [rev] in Hrev. rewrite app_nil_r in Hrev.
    apply (f_equal (@rev ascii)) in Hrev.
    rewrite rev_involutive, rev_concat in Hrev.
    exists (front ++ rev (@rev ascii <$> back)). split.
    + apply Forall_app. split; [done|].
      apply Forall_forall. intros c Hc.
      apply list_elem_of_In, in_rev, list_elem_of_In in Hc.
      apply list_elem_of_fmap in Hc as (c' & -> & Hc').
      apply (proj1 (Forall_forall _ _) Hback) in Hc'.
      apply list_elem_of_fmap in Hc' as (p & -> & Hp).
      by rewrite rev_involutive.
    + by rewrite concat_app, <- Hrev.
  - intros (cs & Hcs & Hl). unfold trim_start. rewrite Hl.
    rewrite (strip_leading_concat white_space white_space_prefix_free
               white_space_not_empty); [done|done|].
    by apply (length_concat_chars white_space white_space_not_empty).
Qed.

Lemma reversed_white_space_not_empty (p : list ascii) :
  p ∈ @rev ascii <$> white_space → p ≠ [].
Proof.
  assert (Hall : Forall (λ p : list ascii, p ≠ []) (@rev ascii <$> white_space)).
  { apply (bool_decide_unpack _). vm_compute. exact I. }
  apply (proj1 (Forall_forall _ _) Hall).
Qed.

(** [trim] takes white space, and nothing else, from both ends, and leaves
    none at either end. *)
Lemma trim_spec (s : string) :
  ∃ front back,
    Forall (λ c, c ∈ white_space) front
    ∧ Forall (λ c, c ∈ white_space) back
    ∧ list_ascii_of_string s
      = concat front ++ list_ascii_of_string (trim s) ++ concat back
    ∧ strip_one white_space (list_ascii_of_string (trim s)) = None
    ∧ strip_one (@rev ascii <$> white_space)
        (rev (list_ascii_of_string (trim s))) = None.
Proof.
  unfold trim. rewrite list_ascii_of_string_of_list_ascii.
  set (l := list_ascii_of_string s).
  destruct (strip_leading_split white_space (length l) l)
    as (front & Hfront & Hl).
  fold (trim_start l) in Hl. set (t := trim_start l) in *.
  destruct (strip_leading_split (@rev ascii <$> white_space)
              (length t) (rev t)) as (back & Hback & Hrev).
  assert (Ht : t = trim_end t ++ concat (rev (@rev ascii <$> back))).
  { unfold trim_end. rewrite <- rev_concat, <- rev_app_distr, <- Hrev.
    by rewrite rev_involutive. }
  assert (Hws : Forall (λ c, c ∈ white_space) (rev (@rev ascii <$> back))).
  { apply Forall_forall. intros c Hc.
    apply list_elem_of_In, in_rev, list_elem_of_In in Hc.
    apply list_elem_of_fmap in Hc as (c' & -> & Hc').
    apply (proj1 (Forall_forall _ _) Hback) in Hc'.
    apply list_elem_of_fmap in Hc' as (p & -> & Hp).
    by rewrite rev_involutive. }
  exists front, (rev (@rev ascii <$> back)).
  split_and!; [done|done|by rewrite <- Ht| |].
  - destruct (strip_one white_space (trim_end t)) as [r|] eqn:Hone; [|done].
    apply strip_one_Some in Hone as (p & Hp & Hend).
    pose proof (trim_start_done l) as Hdone. fold t in Hdone.
    rewrite Ht, Hend, <- app_assoc in Hdone.
    rewrite (strip_one_app white_space white_space_prefix_free) in Hdone;
      done.
  - unfold trim_end. rewrite rev_involutive.
    apply (strip_leading_done _ reversed_white_space_not_empty).
    by rewrite length_rev.
Qed.

Lemma run_record_call (c : Call) (w : World) :
  record_call c w = (Returned tt, logged w [] [c]).
Proof. unfold record_call, logged. by rewrite app_nil_r. Qed.

Lemma or_else_text (fallback : string) (o : option string) :
  default fallback (or_else o (Some fallback))
  = match o with
    | Some s => if String.eqb s EmptyString then fallback else s
    | None => fallback
    end.
Proof.
  unfold or_else. destruct o as [s|]; simpl; [|done].
  by destruct (String.eqb s EmptyString).
Qed.

Lemma activity_not_empty (commitLines createdMRs reviewedMRs : list string) :
  activity commitLines createdMRs reviewedMRs ≠ EmptyString.
Proof. unfold activity, nl. rewrite append_cons. discriminate. Qed.

Lemma summarize_run (E : Env) (cfg : Config) (prompt activity : string)
    (w : World) :
  Eod.summarize E cfg prompt activity w
  = (Returned (summary_of activity
                 (openai_chat E (AI_MODEL_NAME cfg) (chat_messages prompt))),
     logged w (summary_warning E
                 (openai_chat E (AI_MODEL_NAME cfg) (chat_messages prompt)))
       [CallChat (AI_MODEL_NAME cfg) (chat_messages prompt)]).
Proof.
  unfold Eod.summarize. fold (chat_messages prompt).
  rewrite run_try_catch, run_bind, run_record_call. cbv beta iota.
  destruct (openai_chat E (AI_MODEL_NAME cfg) (chat_messages prompt))
    as [[content|]|err]; cbn [await summary_of summary_warning].
  - rewrite run_bind, !run_ret. cbv beta iota. rewrite or_else_text.
    cbn [fmap option_fmap option_map].
    done.
  - by rewrite run_bind, !run_ret.
  - unfold throw. rewrite run_bind. cbv beta iota.
    by rewrite run_bind, run_console_warn, run_ret, logged_logged.
Qed.

Lemma summary_of_not_empty (activity : string) (reply : Reply (option string)) :
  activity ≠ EmptyString → summary_of activity reply ≠ EmptyString.
Proof.
  intros Hactivity. destruct reply as [[content|]|err]; simpl; try done.
  by destruct (String.eqb_spec (trim content) EmptyString).
Qed.

(** X3.  The summary step never throws and never turns a text into the
    empty one: a failing summarizer (one warning), a missing content and a
    content that is white space only, in the sense of ECMA-262, each give
    the raw activity; any other content is handed on trimmed, that is
    without the white space at its two ends and with none left there. *)
Theorem summary_falls_back_to_the_activity (E : Env) (cfg : Config)
    (prompt activity : string) (w : World) :
  let reply := openai_chat E (AI_MODEL_NAME cfg) (chat_messages prompt) in
  ∃ summary lines,
    Eod.summarize E cfg prompt activity w
    = (Returned summary,
       logged w lines [CallChat (AI_MODEL_NAME cfg) (chat_messages prompt)])
    ∧ (∀ err, reply = Failure err →
         summary = activity
         ∧ lines = [(LWarn, ["⚠️ OpenAI summary failed, using raw activity:";
                             message_or_error E err])])
    ∧ (reply = Answer None → summary = activity ∧ lines = [])
    ∧ (∀ content, reply = Answer (Some content) →
         lines = []
         ∧ (only_white_space content → summary = activity)
         ∧ (¬ only_white_space content →
            summary ≠ EmptyString
            ∧ ∃ front back,
                Forall (λ c, c ∈ white_space) front
                ∧ Forall (λ c, c ∈ white_space) back
                ∧ list_ascii_of_string content
                  = concat front ++ list_ascii_of_string summary
                    ++ concat back
                ∧ strip_one white_space (list_ascii_of_string summary) = None
                ∧ strip_one (@rev ascii <$> white_space)
                    (rev (list_ascii_of_string summary)) = None))
    ∧ (activity ≠ EmptyString → summary ≠ EmptyString).
Proof.
  intros reply. eexists _, _. split; [apply summarize_run|].
  fold reply. split_and!.
  - by intros err ->.
  - by intros ->.
  - intros content ->. cbn [summary_of summary_warning].
    pose proof (trim_empty content) as Htrim.
    destruct (String.eqb_spec (trim content) EmptyString) as [Heq|Hne].
    + split_and!; [done|done|]. intros Hnot. destruct Hnot. by apply Htrim.
    + split_and!; [done| |].
      * intros Hspace. destruct Hne. by apply Htrim.
      * intros _. split; [done|]. apply trim_spec.
  - apply summary_of_not_empty.
Qed.

Lemma summary_falls_back_to_the_activity_witness :
  ∃ summary lines,
    Eod.summarize Sample.E Sample.cfg "prompt" "activity" world0
    = (Returned summary,
       logged world0 lines
         [CallChat (AI_MODEL_NAME Sample.cfg) (chat_messages "prompt")])
    ∧ lines = [] ∧ summary = "*EOD UPDATE* shipped".
Proof.
  destruct (summary_falls_back_to_the_activity Sample.E Sample.cfg
              "prompt" "activity" world0)
    as (summary & lines & Hrun & _ & _ & Hcontent & Hfilled).
  destruct (Hcontent "  *EOD UPDATE* shipped  " eq_refl)
    as (Hlines & _ & _).
  exists summary, lines. split; [exact Hrun|]. split; [exact Hlines|].
  assert (Hsame : Eod.summarize Sample.E Sample.cfg "prompt" "activity" world0
                  = (Returned "*EOD UPDATE* shipped",
                     logged world0 []
                       [CallChat (AI_MODEL_NAME Sample.cfg)
                          (chat_messages "prompt")]))
    by (vm_compute; reflexivity).
  rewrite Hsame in Hrun. by injection Hrun as <- _.
Defined.

(** X4.  In the route with descriptions a merge request whose description
    is missing, empty or white space only, in the sense of ECMA-262, is shown
    with the text [No description provided]; any other description is shown
    trimmed, which is never the empty text. *)
Theorem created_line_description (mr : MRJson) :
  ∃ shown,
    EodUtc.createdLine mr
    = "• " +:+ mr_title mr +:+ nl
      +:+ "  Description: " +:+ shown +:+ nl
      +:+ "  URL: " +:+ mr_web_url mr
    ∧ shown ≠ EmptyString
    ∧ (description mr = None → shown = "No description provided")
    ∧ (∀ text, description mr = Some text →
         (only_white_space text → shown = "No description provided")
         ∧ (¬ only_white_space text → shown = trim text)).
Proof.
  unfold EodUtc.createdLine. rewrite or_else_text.
  destruct (description mr) as [text|]; cbn [fmap option_fmap option_map].
  - pose proof (trim_empty text) as Htrim.
    destruct (String.eqb_spec (trim text) EmptyString) as [Heq|Hne].
    + eexists. split; [reflexivity|]. split_and!; [done|done|].
      intros ? [= <-]. split; [done|]. intros Hnot. destruct Hnot. by apply Htrim.
    + eexists. split; [reflexivity|]. split_and!; [done|done|].
      intros ? [= <-]. split; [|done]. intros Hspace. destruct Hne. by apply Htrim.
  - eexists. split; [reflexivity|]. split_and!; done.
Qed.

Lemma created_line_description_witness :
  let nbsp := string_of_list_ascii (bytes [194; 160]) in
  let mr := {| mr_title := "Window"; mr_web_url := "https://gitlab/mr/1";
               source_branch := Some "main";
               description := Some (nbsp +:+ " fix the window " +:+ nl);
               mr_author_name := None; mr_state := "opened";
               mr_created_at := "2024-01-01T00:00:00Z";
               mr_updated_at := "2024-01-01T00:00:00Z" |} in
  EodUtc.createdLine mr
  = "• Window" +:+ nl +:+ "  Description: fix the window" +:+ nl
    +:+ "  URL: https://gitlab/mr/1".
Proof.
  intros nbsp mr.
  destruct (created_line_description mr) as (shown & Hline & _ & _ & Hshown).
  destruct (Hshown _ eq_refl) as [_ Htrimmed].
  assert (Hfix : shown = "fix the window").
  { rewrite Htrimmed; [by vm_compute|].
    intros Hspace. apply trim_empty in Hspace. by vm_compute in Hspace. }
  rewrite Hline, Hfix. reflexivity.
Defined.

Lemma utf16_nil (s : string) : utf16 s = [] ↔ s = EmptyString.
Proof.
  split; [|by intros ->].
  destruct s as [|b0 r0]; [done|]. cbn [utf16].
  repeat case_match; discriminate.
Qed.

(** Code units and bytes: an accented letter is one unit in two bytes, a
    code point beyond U+FFFF two units in four bytes. *)
Example utf16_example :
  utf16 "née" = [110; 233; 101]
  ∧ String.length "née" = 4%nat
  ∧ utf16 "😀" = [55357; 56832]
  ∧ utf16 "No description" = Z.of_nat <$> [78; 111; 32; 100; 101; 115; 99; 114;
                                            105; 112; 116; 105; 111; 110]%nat.
Proof. split_and!; reflexivity. Qed.

(** X5.  The description that the debug route reports for a created merge
    request is the first 200 UTF-16 code units of the description, so it
    never has more than 200 of them, and it is never empty: a missing or
    empty description reads [No description]. *)
Theorem short_description_is_short (mr : MRJson) :
  let shown := Debug.cr_description (Debug.createdMR mr) in
  (length shown ≤ 200)%nat
  ∧ shown ≠ []
  ∧ (description mr = None ∨ description mr = Some EmptyString →
     shown = utf16 "No description")
  ∧ (∀ text, description mr = Some text → text ≠ EmptyString →
       shown = take 200 (utf16 text)).
Proof.
  cbn [Debug.createdMR Debug.cr_description]. unfold Debug.short_description.
  destruct (description mr) as [text|]; cbn [fmap option_fmap option_map].
  - destruct (take 200 (utf16 text)) as [|unit units] eqn:Htake.
    + assert (Hempty : text = EmptyString).
      { apply utf16_nil. by destruct (utf16 text). }
      split_and!; [vm_compute; lia|by vm_compute|done|].
      by intros ? [= <-] ?.
    + split_and!; [|done| |].
      * rewrite <- Htake, length_take. lia.
      * intros [?|[= ->]]; [done|]. by vm_compute in Htake.
      * by intros ? [= <-] _.
  - split_and!; [vm_compute; lia|by vm_compute|done|done].
Qed.

Lemma short_description_is_short_witness :
  let mr := {| mr_title := "Window"; mr_web_url := "https://gitlab/mr/1";
               source_branch := Some "main";
               description := Some "née 😀";
               mr_author_name := None; mr_state := "opened";
               mr_created_at := "2024-01-01T00:00:00Z";
               mr_updated_at := "2024-01-01T00:00:00Z" |} in
  Debug.cr_description (Debug.createdMR mr)
  = [110; 233; 101; 32; 55357; 56832]
  ∧ Debug.cr_description (Debug.createdMR (Sample.mrOf "one" None))
    = utf16 "No description".
Proof.
  intros mr. split.
  - destruct (short_description_is_short mr) as (_ & _ & _ & Hshown).
    rewrite (Hshown "née 😀" eq_refl); [reflexivity|discriminate].
  - apply (short_description_is_short (Sample.mrOf "one" None)).
    left. reflexivity.
Defined.

(** X6.  The author of the commit queries is the e-mail address when one is
    configured and not empty, whatever the user name; otherwise it is the
    user name, and the parameter is left undefined when there is none. *)
Theorem author_is_the_email_first (cfg : Config)
    (branch sinceIso untilIso : string) :
  let author :=
    param_of "author" (commitsRequest cfg branch sinceIso untilIso) in
  (∀ email, GITLAB_EMAIL cfg = Some email → email ≠ EmptyString →
            author = Some (PString email))
  ∧ (GITLAB_EMAIL cfg = None ∨ GITLAB_EMAIL cfg = Some EmptyString →
     author = Some (from_option PString PUndefined (GITLAB_USERNAME cfg)))
  ∧ param_of "ref_name" (commitsRequest cfg branch sinceIso untilIso)
    = Some (PString branch).
Proof.
  intros author. subst author. unfold param_of, commitsRequest, authorFilter.
  cbn [params]. split_and!.
  - intros email Hemail Hpresent. rewrite Hemail. unfold or_else.
    by rewrite (proj2 (truthy_Some email) Hpresent).
  - intros [Hemail|Hemail]; rewrite Hemail; reflexivity.
  - reflexivity.
Qed.

Lemma author_is_the_email_first_witness :
  param_of "author"
    (commitsRequest Sample.cfg "main" Sample.sinceIso Sample.untilIso)
  = Some (PString "dev@example.com").
Proof.
  apply (proj1 (author_is_the_email_first Sample.cfg "main"
                  Sample.sinceIso Sample.untilIso) "dev@example.com").
  - reflexivity.
  - discriminate.
Defined.

(** ** Step 1 when a listing fails *)

Lemma filter_Boolean_Some (xs : list (option string)) :
  filter_Boolean (Some <$> filter_Boolean xs) = filter_Boolean xs.
Proof.
  unfold filter_Boolean. induction xs as [|o rest IH]; [done|].
  cbn [omap list_omap]. destruct (truthy o) eqn:Ht; [|exact IH].
  destruct o as [n|]; [|done]. rewrite fmap_cons. cbn [omap list_omap].
  rewrite Ht. f_equal. exact IH.
Qed.

Lemma gatherBranches_full (E : Env) (cfg : Config) (untilIst : JS.Date)
    (sinceIso untilIso : string) (w : World) :
  Eod.gatherBranches E cfg untilIst sinceIso untilIso w
  = (Returned (Array_from_Set
                 (filter_Boolean
                    (listed_active E cfg untilIst
                     ++ (Some <$> listed_sources E cfg sinceIso untilIso)))),
     logged w (listing_warnings E cfg sinceIso untilIso)
       [CallGet (branchesRequest cfg);
        CallGet (windowMRsRequest cfg sinceIso untilIso)]).
Proof.
  unfold Eod.gatherBranches, listed_active, listed_sources, listing_warnings.
  rewrite run_bind, run_try_catch, run_bind, run_axios_get.
  destruct (gitlab_branches E (branchesRequest cfg)) as [data|err].
  - rewrite run_ret, run_bind, run_try_catch, run_bind, run_axios_get.
    destruct (gitlab_merge_requests E _) as [mrs|err].
    + by rewrite !run_ret, logged_logged.
    + rewrite run_bind, run_console_warn, !run_ret, !logged_logged.
      rewrite fmap_nil, !app_nil_r. done.
  - rewrite run_bind, run_console_warn, run_ret, logged_logged.
    rewrite run_bind, run_try_catch, run_bind, run_axios_get.
    destruct (gitlab_merge_requests E _) as [mrs|err'].
    + by rewrite !run_ret, logged_logged.
    + by rewrite run_bind, run_console_warn, !run_ret, !logged_logged.
Qed.

(** X7.  Step 1 of the digest routes never throws and always asks for both
    listings.  When the branch listing fails the candidates are the source
    branches of the merge requests alone; when the listing of the merge
    requests fails they are the active branches alone; when both fail there
    is no candidate; each failure leaves one warning. *)
Theorem branch_selection_survives_failures (E : Env) (cfg : Config)
    (untilIst : JS.Date) (sinceIso untilIso : string) (w : World) :
  let made := [CallGet (branchesRequest cfg);
               CallGet (windowMRsRequest cfg sinceIso untilIso)] in
  let run := Eod.gatherBranches E cfg untilIst sinceIso untilIso w in
  let no_branches err :=
    (LWarn, ["⚠️ Could not fetch branches:"; message_or_error E err]) in
  let no_mrs err :=
    (LWarn, ["⚠️ Could not fetch MRs for branches:"; message_or_error E err]) in
  match gitlab_branches E (branchesRequest cfg),
        gitlab_merge_requests E (windowMRsRequest cfg sinceIso untilIso) with
  | Answer data, Answer mrs =>
      run = (Returned (Array_from_Set
                         (filter_Boolean (Eod.activeBranches E untilIst data
                                          ++ (Some <$> mrBranches mrs)))),
             logged w [] made)
  | Failure err, Answer mrs =>
      run = (Returned (Array_from_Set (mrBranches mrs)),
             logged w [no_branches err] made)
  | Answer data, Failure err =>
      run = (Returned (Array_from_Set
                         (filter_Boolean (Eod.activeBranches E untilIst data))),
             logged w [no_mrs err] made)
  | Failure err, Failure err' =>
      run = (Returned [], logged w [no_branches err; no_mrs err'] made)
  end.
Proof.
  intros made run no_branches no_mrs. subst run.
  rewrite gatherBranches_full.
  unfold listed_active, listed_sources, listing_warnings.
  destruct (gitlab_branches E (branchesRequest cfg)) as [data|err],
    (gitlab_merge_requests E _) as [mrs|err']; try done.
  - by rewrite app_nil_r.
  - rewrite app_nil_l. unfold mrBranches. by rewrite filter_Boolean_Some.
Qed.

(** ** The whole request *)

Section Request.
Context (E : Env) (cfg : Config).

Lemma selected_NoDup (untilIst : JS.Date) (sinceIso untilIso : string) :
  NoDup (selected E cfg untilIst sinceIso untilIso).
Proof. apply Array_from_Set_NoDup. Qed.

(** Steps 1 to 4 with the world they leave. *)
Lemma collectActivity_full (untilIst : JS.Date) (sinceIso untilIso : string)
    (w : World) :
  Eod.collectActivity E cfg untilIst sinceIso untilIso w
  = (Returned
       (digest_commits E cfg untilIst sinceIso untilIso,
        mr_lines Eod.mrLine
          (gitlab_merge_requests E (createdRequest cfg sinceIso untilIso)),
        mr_lines Eod.mrLine
          (gitlab_merge_requests E (reviewedRequest cfg sinceIso untilIso))),
     logged w (activity_warnings E cfg untilIst sinceIso untilIso)
       (activity_calls E cfg untilIst sinceIso untilIso)).
Proof.
  unfold Eod.collectActivity.
  rewrite run_bind, gatherBranches_full. fold (selected E cfg untilIst sinceIso untilIso).
  rewrite run_bind, collectCommits_run.
  rewrite run_bind, fetchCreatedMRs_run, run_bind, fetchReviewedMRs_run, run_ret.
  rewrite !logged_logged. unfold activity_warnings, activity_calls, digest_commits.
  reflexivity.
Qed.

Lemma collectActivity_with_descriptions_full (untilUtc : JS.Date)
    (sinceIso untilIso : string) (w : World) :
  EodUtc.collectActivity E cfg untilUtc sinceIso untilIso w
  = (Returned
       (digest_commits E cfg untilUtc sinceIso untilIso,
        mr_lines EodUtc.createdLine
          (gitlab_merge_requests E (createdRequest cfg sinceIso untilIso)),
        mr_lines Eod.mrLine
          (gitlab_merge_requests E (reviewedRequest cfg sinceIso untilIso))),
     logged w (activity_warnings E cfg untilUtc sinceIso untilIso)
       (activity_calls E cfg untilUtc sinceIso untilIso)).
Proof.
  unfold EodUtc.collectActivity.
  rewrite run_bind, gatherBranches_full. fold (selected E cfg untilUtc sinceIso untilIso).
  rewrite run_bind, collectCommits_run.
  rewrite run_bind, fetchCreatedMRs_with_descriptions_run.
  rewrite run_bind, fetchReviewedMRs_run, run_ret.
  rewrite !logged_logged. unfold activity_warnings, activity_calls, digest_commits.
  reflexivity.
Qed.

Lemma postMessage_run (channel text : string) (w : World) :
  Eod.postMessage E channel text w
  = (match slack_postMessage E channel text with
     | Answer _ => Returned tt
     | Failure err => Thrown err
     end, logged w [] [CallPost channel text]).
Proof.
  unfold Eod.postMessage. rewrite run_bind, run_record_call. cbv beta iota.
  by destruct (slack_postMessage E channel text) as [[]|err].
Qed.

End Request.

(* ===================================================================== *)
(** * The independence of the merge-request collectors *)
(* ===================================================================== *)

Section Independence.
Context (E : Env) (cfg : Config) (sinceIso untilIso : string).

(** A failure of a request other than the listing of step 1 leaves the
    candidates, the commit queries and the commits as they are. *)
Lemma selected_failing (r : Request) (err : JSError) (untilIst : JS.Date) :
  windowMRsRequest cfg sinceIso untilIso ≠ r →
  selected (failing E r err) cfg untilIst sinceIso untilIso
  = selected E cfg untilIst sinceIso untilIso.
Proof.
  intros Hother. unfold selected, listed_sources.
  change (gitlab_merge_requests (failing E r err)
            (windowMRsRequest cfg sinceIso untilIso))
    with (if decide (windowMRsRequest cfg sinceIso untilIso = r)
          then Failure err
          else gitlab_merge_requests E (windowMRsRequest cfg sinceIso untilIso)).
  by rewrite decide_False by done.
Qed.

Lemma digest_commits_failing (r : Request) (err : JSError)
    (untilIst : JS.Date) :
  windowMRsRequest cfg sinceIso untilIso ≠ r →
  digest_commits (failing E r err) cfg untilIst sinceIso untilIso
  = digest_commits E cfg untilIst sinceIso untilIso
  ∧ activity_calls (failing E r err) cfg untilIst sinceIso untilIso
    = activity_calls E cfg untilIst sinceIso untilIso.
Proof.
  intros Hother. unfold digest_commits, activity_calls.
  by rewrite selected_failing.
Qed.

Lemma failing_this (r : Request) (err : JSError) :
  gitlab_merge_requests (failing E r err) r = Failure err.
Proof. unfold failing. simpl. by rewrite decide_True. Qed.

Lemma failing_other (r r' : Request) (err : JSError) :
  r' ≠ r →
  gitlab_merge_requests (failing E r err) r' = gitlab_merge_requests E r'.
Proof. intros Hne. unfold failing. simpl. by rewrite decide_False. Qed.

End Independence.

(** C8.  The collector of the reviewed merge requests asks the instance
    ([GITLAB_API/merge_requests], not the project) with [reviewer_id], the
    collector of the created ones asks the project with [author_id], both
    with the same window; a collector whose request fails returns the empty
    list and leaves a warning.  Steps 1 to 4 return the commits of the
    digest, the lines of the answer to the request of the created merge
    requests and the lines of the answer to the request of the reviewed
    ones, after making both requests; and when either request is made to
    fail, that list is empty and its warning is printed, while the commits,
    the other list and the calls are what they were. *)
Theorem merge_request_collectors_are_independent (E : Env) (cfg : Config)
    (untilIst : JS.Date) (sinceIso untilIso : string) (err : JSError)
    (w : World) :
  let created := createdRequest cfg sinceIso untilIso in
  let reviewed := reviewedRequest cfg sinceIso untilIso in
  let window :=
    [("updated_after", PString sinceIso); ("updated_before", PString untilIso);
     ("per_page", PNumber 100)] in
  let commits := digest_commits E cfg untilIst sinceIso untilIso in
  let made := activity_calls E cfg untilIst sinceIso untilIso in
  let warning_created :=
    (LWarn, ["⚠️ Could not fetch created MRs:"; message_or_error E err]) in
  let warning_reviewed :=
    (LWarn, ["⚠️ Could not fetch reviewed MRs:"; message_or_error E err]) in
  (url reviewed = GITLAB_API cfg +:+ "/merge_requests"
   ∧ params reviewed = ("reviewer_id", PString (GITLAB_USER_ID cfg)) :: window
   ∧ url created
     = (GITLAB_API cfg +:+ "/projects/" +:+ GITLAB_PROJECT_ID cfg)
       +:+ "/merge_requests"
   ∧ params created = ("author_id", PString (GITLAB_USER_ID cfg)) :: window
   ∧ url reviewed ≠ url created)
  ∧ (Eod.fetchReviewedMRs E cfg sinceIso untilIso w
     = (Returned (mr_lines Eod.mrLine (gitlab_merge_requests E reviewed)),
        logged w (mr_warning E "⚠️ Could not fetch reviewed MRs:"
                    (gitlab_merge_requests E reviewed)) [CallGet reviewed])
     ∧ Eod.fetchCreatedMRs E cfg sinceIso untilIso w
       = (Returned (mr_lines Eod.mrLine (gitlab_merge_requests E created)),
          logged w (mr_warning E "⚠️ Could not fetch created MRs:"
                      (gitlab_merge_requests E created)) [CallGet created])
     ∧ EodUtc.fetchCreatedMRs E cfg sinceIso untilIso w
       = (Returned (mr_lines EodUtc.createdLine
                      (gitlab_merge_requests E created)),
          logged w (mr_warning E "⚠️ Could not fetch created MRs:"
                      (gitlab_merge_requests E created)) [CallGet created]))
  ∧ (CallGet created ∈ made ∧ CallGet reviewed ∈ made)
  ∧ (let createdMRs := mr_lines Eod.mrLine (gitlab_merge_requests E created) in
     let reviewedMRs := mr_lines Eod.mrLine (gitlab_merge_requests E reviewed) in
     Eod.collectActivity E cfg untilIst sinceIso untilIso w
     = (Returned (commits, createdMRs, reviewedMRs),
        logged w (activity_warnings E cfg untilIst sinceIso untilIso) made)
     ∧ (∃ lines,
          Eod.collectActivity (failing E created err) cfg untilIst
            sinceIso untilIso w
          = (Returned (commits, [], reviewedMRs), logged w lines made)
          ∧ warning_created ∈ lines)
     ∧ (∃ lines,
          Eod.collectActivity (failing E reviewed err) cfg untilIst
            sinceIso untilIso w
          = (Returned (commits, createdMRs, []), logged w lines made)
          ∧ warning_reviewed ∈ lines))
  ∧ (let createdMRs :=
       mr_lines EodUtc.createdLine (gitlab_merge_requests E created) in
     let reviewedMRs := mr_lines Eod.mrLine (gitlab_merge_requests E reviewed) in
     EodUtc.collectActivity E cfg untilIst sinceIso untilIso w
     = (Returned (commits, createdMRs, reviewedMRs),
        logged w (activity_warnings E cfg untilIst sinceIso untilIso) made)
     ∧ (∃ lines,
          EodUtc.collectActivity (failing E created err) cfg untilIst
            sinceIso untilIso w
          = (Returned (commits, [], reviewedMRs), logged w lines made)
          ∧ warning_created ∈ lines)
     ∧ (∃ lines,
          EodUtc.collectActivity (failing E reviewed err) cfg untilIst
            sinceIso untilIso w
          = (Returned (commits, createdMRs, []), logged w lines made)
          ∧ warning_reviewed ∈ lines)).
Proof.
  intros created reviewed window commits made warning_created warning_reviewed.
  pose proof (listed_is_not_created cfg sinceIso untilIso) as Hlc.
  pose proof (listed_is_not_reviewed cfg sinceIso untilIso) as Hlr.
  pose proof (created_is_not_reviewed cfg sinceIso untilIso) as Hcr.
  destruct (digest_commits_failing E cfg sinceIso untilIso created err
              untilIst Hlc) as [Hcommits_c Hmade_c].
  destruct (digest_commits_failing E cfg sinceIso untilIso reviewed err
              untilIst Hlr) as [Hcommits_r Hmade_r].
  assert (Hwarn_c : warning_created
                    ∈ activity_warnings (failing E created err) cfg untilIst
                        sinceIso untilIso).
  { unfold activity_warnings. fold created.
    rewrite (failing_this E created err). cbn [mr_warning].
    rewrite !elem_of_app. right. right. left. by left. }
  assert (Hwarn_r : warning_reviewed
                    ∈ activity_warnings (failing E reviewed err) cfg untilIst
                        sinceIso untilIso).
  { unfold activity_warnings. fold reviewed.
    rewrite (failing_this E reviewed err). cbn [mr_warning].
    rewrite !elem_of_app. right. right. right. by left. }
  split_and!.
  - done.
  - done.
  - done.
  - done.
  - apply reviewed_url_is_not_of_the_project.
  - apply fetchReviewedMRs_run.
  - apply fetchCreatedMRs_run.
  - apply fetchCreatedMRs_with_descriptions_run.
  - unfold made, activity_calls. rewrite !elem_of_app. right. right. by left.
  - unfold made, activity_calls. rewrite !elem_of_app. right. right.
    right. by left.
  - cbv zeta. split_and!.
    + apply collectActivity_full.
    + eexists. rewrite collectActivity_full.
      fold created reviewed.
      rewrite (failing_this E created err), Hcommits_c, Hmade_c.
      rewrite (failing_other E created reviewed err) by done.
      split; [reflexivity|exact Hwarn_c].
    + eexists. rewrite collectActivity_full.
      fold created reviewed.
      rewrite (failing_this E reviewed err), Hcommits_r, Hmade_r.
      rewrite (failing_other E reviewed created err) by done.
      split; [reflexivity|exact Hwarn_r].
  - cbv zeta. split_and!.
    + apply collectActivity_with_descriptions_full.
    + eexists. rewrite collectActivity_with_descriptions_full.
      fold created reviewed.
      rewrite (failing_this E created err), Hcommits_c, Hmade_c.
      rewrite (failing_other E created reviewed err) by done.
      split; [reflexivity|exact Hwarn_c].
    + eexists. rewrite collectActivity_with_descriptions_full.
      fold created reviewed.
      rewrite (failing_this E reviewed err), Hcommits_r, Hmade_r.
      rewrite (failing_other E reviewed created err) by done.
      split; [reflexivity|exact Hwarn_r].
Qed.

(** The sample run with the request of the created merge requests made to
    fail: that list is empty, the reviewed list and the commits are not. *)
Example failing_collector_example :
  let failure := Sample.http_error 403 "403 Forbidden" in
  let created := createdRequest Sample.cfg Sample.sinceIso Sample.untilIso in
  (Eod.collectActivity Sample.E Sample.cfg (JS.Valid 1704133800000)
     Sample.sinceIso Sample.untilIso world0).1
  = Returned (take 2 Sample.collected,
              ["• authored (https://gitlab.example.com/mr/authored)"],
              ["• reviewed (https://gitlab.example.com/mr/reviewed)"])
  ∧ (Eod.collectActivity (failing Sample.E created failure) Sample.cfg
       (JS.Valid 1704133800000) Sample.sinceIso Sample.untilIso world0).1
    = Returned (take 2 Sample.collected, [],
                ["• reviewed (https://gitlab.example.com/mr/reviewed)"]).
Proof. split; vm_compute; reflexivity. Qed.

Section Served.
Context (E : Env) (cfg : Config).

(** The handler of [src/app/slack-eod/route.ts] once the window is valid. *)
Lemma handleEODRequest_run (dateParam : option string) (since until : Z)
    (w : World) :
  Eod.window E dateParam = (JS.Valid since, JS.Valid until) →
  - JS.maxTime ≤ since ≤ JS.maxTime → - JS.maxTime ≤ until ≤ JS.maxTime →
  let sinceIso := iso_text E since in
  let untilIso := iso_text E until in
  let labelSince := formatIstLabel E (JS.Valid since) in
  let labelUntil := formatIstLabel E (JS.Valid until) in
  let text :=
    activity
      (Eod.commitLine <$> digest_commits E cfg (JS.Valid until) sinceIso untilIso)
      (mr_lines Eod.mrLine
         (gitlab_merge_requests E (createdRequest cfg sinceIso untilIso)))
      (mr_lines Eod.mrLine
         (gitlab_merge_requests E (reviewedRequest cfg sinceIso untilIso))) in
  let prompt := Eod.aiPrompt labelSince labelUntil text in
  let reply := openai_chat E (AI_MODEL_NAME cfg) (chat_messages prompt) in
  Eod.handleEODRequest E cfg dateParam w
  = (match slack_postMessage E (SLACK_USER_ID cfg) (summary_of text reply) with
     | Answer _ =>
         Returned {| ok := true;
                     result_message := "EOD sent for window " +:+ labelSince
                                       +:+ " → " +:+ labelUntil |}
     | Failure err => Thrown err
     end,
     logged w
       (activity_warnings E cfg (JS.Valid until) sinceIso untilIso
        ++ summary_warning E reply)
       (activity_calls E cfg (JS.Valid until) sinceIso untilIso
        ++ [CallChat (AI_MODEL_NAME cfg) (chat_messages prompt);
            CallPost (SLACK_USER_ID cfg) (summary_of text reply)])).
Proof.
  intros Hwindow Hsince Huntil sinceIso untilIso labelSince labelUntil text
    prompt reply.
  unfold Eod.handleEODRequest. rewrite Hwindow. cbv beta iota.
  unfold Eod.toIsoUTC. cbn [JS.getTime].
  rewrite !TimeClip_in_range by done. cbn [toISOString].
  rewrite run_bind, run_ret. cbv beta iota.
  rewrite run_bind, run_ret. cbv beta iota.
  rewrite run_bind. fold sinceIso untilIso.
  rewrite collectActivity_full. cbv beta iota.
  fold labelSince labelUntil text prompt.
  rewrite run_bind, summarize_run. fold reply. cbv beta iota.
  rewrite run_bind, postMessage_run. cbv beta iota.
  rewrite !logged_logged, !app_nil_r.
  destruct (slack_postMessage E (SLACK_USER_ID cfg) (summary_of text reply));
    [by rewrite run_ret|done].
Qed.

End Served.

(** X8.  Once the window is valid, [GET] of [src/app/slack-eod/route.ts]
    answers 200 exactly when the post to the chat service succeeds, and 500
    with the message of that failure otherwise: no failure of the
    source-control host or of the summarizer fails the request.  It asks for
    the two listings, once for the commits of each candidate branch (no
    branch twice), for the created and the reviewed merge requests and for the
    summary, and posts one text, never empty, last. *)
Theorem request_fails_only_on_delivery (E : Env) (cfg : Config)
    (date : option string) (since until : Z) (w : World) :
  Eod.window E date = (JS.Valid since, JS.Valid until) →
  - JS.maxTime ≤ since ≤ JS.maxTime → - JS.maxTime ≤ until ≤ JS.maxTime →
  let sinceIso := iso_text E since in
  let untilIso := iso_text E until in
  let branches := selected E cfg (JS.Valid until) sinceIso untilIso in
  ∃ text messages lines,
    text ≠ EmptyString
    ∧ NoDup branches
    ∧ let made :=
        [CallGet (branchesRequest cfg);
         CallGet (windowMRsRequest cfg sinceIso untilIso)]
        ++ ((λ b, CallGet (commitsRequest cfg b sinceIso untilIso)) <$> branches)
        ++ [CallGet (createdRequest cfg sinceIso untilIso);
            CallGet (reviewedRequest cfg sinceIso untilIso);
            CallChat (AI_MODEL_NAME cfg) messages;
            CallPost (SLACK_USER_ID cfg) text] in
      match slack_postMessage E (SLACK_USER_ID cfg) text with
      | Answer _ =>
          Eod.GET E cfg date w
          = (Returned
               {| http_status := 200;
                  body := BodyResult
                    {| ok := true;
                       result_message :=
                         "EOD sent for window "
                         +:+ formatIstLabel E (JS.Valid since) +:+ " → "
                         +:+ formatIstLabel E (JS.Valid until) |} |},
             logged w lines made)
      | Failure err =>
          Eod.GET E cfg date w
          = (Returned {| http_status := 500;
                         body := BodyError (err_message err) |},
             logged w
               (lines ++ [(LError, ["EOD GET error:";
                                    Eod.data_or_message err])]) made)
      end.
Proof.
  intros Hwindow Hsince Huntil sinceIso untilIso branches.
  pose proof (handleEODRequest_run E cfg date since until w
                Hwindow Hsince Huntil) as Hrun.
  cbv zeta in Hrun. fold sinceIso untilIso in Hrun.
  set (text := activity _ _ _) in Hrun.
  set (prompt := Eod.aiPrompt _ _ text) in Hrun.
  set (reply := openai_chat E _ (chat_messages prompt)) in Hrun.
  exists (summary_of text reply), (chat_messages prompt),
    (activity_warnings E cfg (JS.Valid until) sinceIso untilIso
     ++ summary_warning E reply).
  split_and!.
  - apply summary_of_not_empty, activity_not_empty.
  - apply selected_NoDup.
  - cbv zeta. unfold Eod.GET. rewrite run_try_catch, run_bind, Hrun.
    unfold activity_calls. fold branches. rewrite <- !app_assoc. cbn [app].
    destruct (slack_postMessage E (SLACK_USER_ID cfg) (summary_of text reply))
      as [[]|err].
    + by rewrite run_ret.
    + by rewrite run_bind, run_console_error, run_ret, logged_logged, app_nil_r.
Qed.

Lemma request_fails_only_on_delivery_witness :
  Eod.window Sample.E (Some "2024-01-01")
  = (JS.Valid 1704047400000, JS.Valid 1704133800000)
  ∧ ∃ w', Eod.GET Sample.E Sample.cfg (Some "2024-01-01") world0
          = (Returned
               {| http_status := 200;
                  body := BodyResult
                    {| ok := true;
                       result_message :=
                         "EOD sent for window label 1704047400000 → label 1704133800000" |} |},
             w').
Proof.
  assert (Hwindow : Eod.window Sample.E (Some "2024-01-01")
                    = (JS.Valid 1704047400000, JS.Valid 1704133800000))
    by reflexivity.
  split; [exact Hwindow|].
  destruct (request_fails_only_on_delivery Sample.E Sample.cfg
              (Some "2024-01-01") 1704047400000 1704133800000 world0 Hwindow)
    as (text & messages & lines & _ & _ & Hserved).
  - unfold JS.maxTime. lia.
  - unfold JS.maxTime. lia.
  - cbv zeta in Hserved.
    change (slack_postMessage Sample.E (SLACK_USER_ID Sample.cfg) text)
      with (Answer (A := unit) tt) in Hserved.
    eexists. exact Hserved.
Defined.

(** The handler of the digest route with descriptions once the window is
    valid. *)
Lemma handleEODRequest_with_descriptions_run (E : Env) (cfg : Config)
    (dateParam : option string) (since until : Z) (w : World) :
  EodUtc.window E dateParam = (JS.Valid since, JS.Valid until) →
  let sinceIso := iso_text E since in
  let untilIso := iso_text E until in
  let labelSince := formatIstLabel E (JS.Valid since) in
  let labelUntil := formatIstLabel E (JS.Valid until) in
  let text :=
    activity
      (Eod.commitLine <$> digest_commits E cfg (JS.Valid until) sinceIso untilIso)
      (mr_lines EodUtc.createdLine
         (gitlab_merge_requests E (createdRequest cfg sinceIso untilIso)))
      (mr_lines Eod.mrLine
         (gitlab_merge_requests E (reviewedRequest cfg sinceIso untilIso))) in
  let prompt := EodUtc.aiPrompt labelSince labelUntil text in
  let reply := openai_chat E (AI_MODEL_NAME cfg) (chat_messages prompt) in
  EodUtc.handleEODRequest E cfg dateParam w
  = (match slack_postMessage E (SLACK_USER_ID cfg) (summary_of text reply) with
     | Answer _ =>
         Returned {| ok := true;
                     result_message := "EOD sent for window " +:+ labelSince
                                       +:+ " → " +:+ labelUntil |}
     | Failure err => Thrown err
     end,
     logged w
       (activity_warnings E cfg (JS.Valid until) sinceIso untilIso
        ++ summary_warning E reply)
       (activity_calls E cfg (JS.Valid until) sinceIso untilIso
        ++ [CallChat (AI_MODEL_NAME cfg) (chat_messages prompt);
            CallPost (SLACK_USER_ID cfg) (summary_of text reply)])).
Proof.
  intros Hwindow sinceIso untilIso labelSince labelUntil text prompt reply.
  unfold EodUtc.handleEODRequest. rewrite Hwindow. cbv beta iota.
  cbn [toISOString].
  rewrite run_bind, run_ret. cbv beta iota.
  rewrite run_bind, run_ret. cbv beta iota.
  rewrite run_bind. fold sinceIso untilIso.
  rewrite collectActivity_with_descriptions_full. cbv beta iota.
  fold labelSince labelUntil text prompt.
  rewrite run_bind, summarize_run. fold reply. cbv beta iota.
  rewrite run_bind, postMessage_run. cbv beta iota.
  rewrite !logged_logged, !app_nil_r.
  destruct (slack_postMessage E (SLACK_USER_ID cfg) (summary_of text reply));
    [by rewrite run_ret|done].
Qed.

(** X9.  The same holds of the digest route with descriptions, for every
    window whose two ends are dates: its [GET] answers 200 exactly when the
    post succeeds, asks each candidate branch once and posts one text, never
    empty, last. *)
Theorem request_with_descriptions_fails_only_on_delivery (E : Env)
    (cfg : Config) (date : option string) (since until : Z) (w : World) :
  EodUtc.window E date = (JS.Valid since, JS.Valid until) →
  let sinceIso := iso_text E since in
  let untilIso := iso_text E until in
  let branches := selected E cfg (JS.Valid until) sinceIso untilIso in
  ∃ text messages lines,
    text ≠ EmptyString
    ∧ NoDup branches
    ∧ let made :=
        [CallGet (branchesRequest cfg);
         CallGet (windowMRsRequest cfg sinceIso untilIso)]
        ++ ((λ b, CallGet (commitsRequest cfg b sinceIso untilIso)) <$> branches)
        ++ [CallGet (createdRequest cfg sinceIso untilIso);
            CallGet (reviewedRequest cfg sinceIso untilIso);
            CallChat (AI_MODEL_NAME cfg) messages;
            CallPost (SLACK_USER_ID cfg) text] in
      match slack_postMessage E (SLACK_USER_ID cfg) text with
      | Answer _ =>
          EodUtc.GET E cfg date w
          = (Returned
               {| http_status := 200;
                  body := BodyResult
                    {| ok := true;
                       result_message :=
                         "EOD sent for window "
                         +:+ formatIstLabel E (JS.Valid since) +:+ " → "
                         +:+ formatIstLabel E (JS.Valid until) |} |},
             logged w lines made)
      | Failure err =>
          EodUtc.GET E cfg date w
          = (Returned {| http_status := 500;
                         body := BodyError (err_message err) |},
             logged w
               (lines ++ [(LError, ["EOD GET error:";
                                    Eod.data_or_message err])]) made)
      end.
Proof.
  intros Hwindow sinceIso untilIso branches.
  pose proof (handleEODRequest_with_descriptions_run E cfg date since until w
                Hwindow) as Hrun.
  cbv zeta in Hrun. fold sinceIso untilIso in Hrun.
  set (text := activity _ _ _) in Hrun.
  set (prompt := EodUtc.aiPrompt _ _ text) in Hrun.
  set (reply := openai_chat E _ (chat_messages prompt)) in Hrun.
  exists (summary_of text reply), (chat_messages prompt),
    (activity_warnings E cfg (JS.Valid until) sinceIso untilIso
     ++ summary_warning E reply).
  split_and!.
  - apply summary_of_not_empty, activity_not_empty.
  - apply selected_NoDup.
  - cbv zeta. unfold EodUtc.GET. rewrite run_try_catch, run_bind, Hrun.
    unfold activity_calls. fold branches. rewrite <- !app_assoc. cbn [app].
    destruct (slack_postMessage E (SLACK_USER_ID cfg) (summary_of text reply))
      as [[]|err].
    + by rewrite run_ret.
    + by rewrite run_bind, run_console_error, run_ret, logged_logged, app_nil_r.
Qed.

Lemma request_with_descriptions_fails_only_on_delivery_witness :
  EodUtc.window Sample.E None
  = (JS.Valid 1703980800123, JS.Valid 1704067200123)
  ∧ ∃ w', EodUtc.GET Sample.E Sample.cfg None world0
          = (Returned
               {| http_status := 200;
                  body := BodyResult
                    {| ok := true;
                       result_message :=
                         "EOD sent for window label 1703980800123 → label 1704067200123" |} |},
             w').
Proof.
  assert (Hwindow : EodUtc.window Sample.E None
                    = (JS.Valid 1703980800123, JS.Valid 1704067200123))
    by reflexivity.
  split; [exact Hwindow|].
  destruct (request_with_descriptions_fails_only_on_delivery Sample.E
              Sample.cfg None 1703980800123 1704067200123 world0 Hwindow)
    as (text & messages & lines & _ & _ & Hserved).
  cbv zeta in Hserved.
  change (slack_postMessage Sample.E (SLACK_USER_ID Sample.cfg) text)
    with (Answer (A := unit) tt) in Hserved.
  eexists. exact Hserved.
Defined.

(** ** The order of the candidates *)

Section CandidateOrder.
Context {A : Type} `{EqDecision A}.
Implicit Types (set xs ys : list A).

Lemma Set_add_all_app set xs ys :
  Set_add_all set (xs ++ ys) = Set_add_all (Set_add_all set xs) ys.
Proof. induction xs as [|x rest IH] in set |- *; simpl; [done|apply IH]. Qed.

Lemma Set_add_all_split set1 set2 ys :
  Set_add_all (set1 ++ set2) ys
  = set1 ++ Set_add_all set2 (filter (λ y, y ∉ set1) ys).
Proof.
  induction ys as [|y rest IH] in set2 |- *; [done|].
  cbn [Set_add_all]. rewrite filter_cons.
  destruct (decide (y ∈ set1 ++ set2)) as [Hin|Hnin];
    destruct (decide (y ∉ set1)) as [Hnin1|Hin1]; cbn [Set_add_all].
  - rewrite decide_True by (apply elem_of_app in Hin as [|]; done). apply IH.
  - apply IH.
  - rewrite decide_False by (intros Hin2; apply Hnin, elem_of_app; by right).
    rewrite <- app_assoc. apply IH.
  - destruct Hin1. intros Hin1. apply Hnin, elem_of_app. by left.
Qed.

(** Adding to a set appends the new elements, each once, in the order of
    their first appearance. *)
Lemma Set_add_all_appends set ys :
  Set_add_all set ys = set ++ Array_from_Set (filter (λ y, y ∉ set) ys).
Proof.
  unfold Array_from_Set. rewrite <- Set_add_all_split. by rewrite app_nil_r.
Qed.

Lemma Array_from_Set_app xs ys :
  Array_from_Set (xs ++ ys)
  = Array_from_Set xs ++ Array_from_Set (filter (λ y, y ∉ xs) ys).
Proof.
  unfold Array_from_Set at 1. rewrite Set_add_all_app.
  fold (Array_from_Set xs). rewrite Set_add_all_appends. f_equal. f_equal.
  apply list_filter_iff. intros y. by rewrite Array_from_Set_elem.
Qed.

End CandidateOrder.

Lemma filter_Boolean_app (xs ys : list (option string)) :
  filter_Boolean (xs ++ ys) = filter_Boolean xs ++ filter_Boolean ys.
Proof. apply omap_app. Qed.

(** Removing the null and empty names before or after the [Set] gives the
    same list. *)
Lemma filter_Boolean_Set_add_all (set xs : list (option string)) :
  filter_Boolean (Set_add_all set xs)
  = Set_add_all (filter_Boolean set) (filter_Boolean xs).
Proof.
  induction xs as [|x rest IH] in set |- *; [done|].
  cbn [Set_add_all]. rewrite IH. clear IH.
  unfold filter_Boolean at 4. cbn [omap list_omap]. fold (filter_Boolean rest).
  destruct (truthy x) eqn:Ht.
  - destruct x as [n|]; [|done]. cbn [Set_add_all]. f_equal.
    pose proof (filter_Boolean_elem set n) as Helem.
    apply truthy_Some in Ht.
    destruct (decide (Some n ∈ set)) as [Hin|Hnin].
    + by rewrite decide_True by (apply Helem; done).
    + rewrite decide_False by (rewrite Helem; tauto).
      rewrite filter_Boolean_app. unfold filter_Boolean at 2.
      cbn [omap list_omap]. by rewrite (proj2 (truthy_Some n) Ht).
  - f_equal. destruct (decide (x ∈ set)); [done|].
    rewrite filter_Boolean_app. unfold filter_Boolean at 2.
    cbn [omap list_omap]. rewrite Ht. apply app_nil_r.
Qed.

Lemma allBranches_as_selected (active : list (option string))
    (mrBranches : list string) :
  Debug.allBranches active mrBranches
  = Array_from_Set (filter_Boolean (active ++ (Some <$> mrBranches))).
Proof. unfold Debug.allBranches, Array_from_Set. apply filter_Boolean_Set_add_all. Qed.

(** X10.  The debug route builds the [Set] first and removes the null and
    empty names afterwards, the digest routes the other way round: the
    candidates are the same list.  So for a branch listing whose dates are
    dates, the debug route reports as [branchSelection.branches] exactly the
    branches that the digest routes query. *)
Theorem both_routes_select_the_same (E : Env) (cfg : Config)
    (untilUtc : JS.Date) (sinceIso untilIso : string)
    (listing : list BranchJson) (mrs : list MRJson) (w : World) :
  (∀ (active : list (option string)) (sources : list string),
     Debug.allBranches active sources
     = Array_from_Set (filter_Boolean (active ++ (Some <$> sources))))
  ∧ (gitlab_branches E (branchesRequest cfg) = Answer listing →
     dates_parse E listing = true →
     gitlab_merge_requests E (windowMRsRequest cfg sinceIso untilIso)
     = Answer mrs →
     ∃ infos stats updated w1 w2 w',
       Debug.fetchBranches E cfg untilUtc [] w = (Returned (infos, stats, []), w1)
       ∧ Debug.fetchMRs E cfg sinceIso untilIso [] w1
         = (Returned (updated, mrBranches mrs, []), w2)
       ∧ Eod.gatherBranches E cfg untilUtc sinceIso untilIso w
         = (Returned (Debug.allBranches (Debug.activeBranches infos)
                        (mrBranches mrs)), w')).
Proof.
  split; [apply allBranches_as_selected|].
  intros Hlisting Hdates Hmrs.
  assert (Hvalid : ∀ b c, b ∈ listing → commit b = Some c →
                          Date_parse E (created_at c) ≠ JS.Invalid).
  { intros b c Hb Hc Hdate. unfold dates_parse in Hdates.
    rewrite forallb_forall in Hdates.
    specialize (Hdates b (proj1 (list_elem_of_In _ _) Hb)).
    by rewrite Hc, Hdate in Hdates. }
  destruct (debug_fetchBranches_run E cfg untilUtc listing [] w Hlisting Hvalid)
    as (infos & stats & Hinfos & Hactive).
  eexists infos, stats, _, _, _, _. split; [exact Hinfos|].
  split; [by apply debug_fetchMRs_run|].
  rewrite allBranches_as_selected, Hactive. by apply gatherBranches_run.
Qed.

Lemma both_routes_select_the_same_witness :
  dates_parse Sample.E Sample.branch_listing = true
  ∧ ∃ infos stats w1 w',
      Debug.fetchBranches Sample.E Sample.cfg (JS.Valid 1704133800000) []
        world0 = (Returned (infos, stats, []), w1)
      ∧ Eod.gatherBranches Sample.E Sample.cfg (JS.Valid 1704133800000)
          Sample.sinceIso Sample.untilIso world0
        = (Returned (Debug.allBranches (Debug.activeBranches infos)
                       (mrBranches Sample.window_mrs)), w').
Proof.
  assert (Hdates : dates_parse Sample.E Sample.branch_listing = true)
    by reflexivity.
  split; [exact Hdates|].
  destruct (proj2 (both_routes_select_the_same Sample.E Sample.cfg
                     (JS.Valid 1704133800000) Sample.sinceIso Sample.untilIso
                     Sample.branch_listing Sample.window_mrs world0)
              eq_refl Hdates eq_refl)
    as (infos & stats & updated & w1 & w2 & w' & Hinfos & _ & Hsame).
  exists infos, stats, w1, w'. split; [exact Hinfos|exact Hsame].
Defined.

Lemma listed_sources_filtered (E : Env) (cfg : Config)
    (sinceIso untilIso : string) :
  filter_Boolean (Some <$> listed_sources E cfg sinceIso untilIso)
  = listed_sources E cfg sinceIso untilIso.
Proof.
  unfold listed_sources.
  destruct (gitlab_merge_requests E _) as [data|err]; [|done].
  apply filter_Boolean_Some.
Qed.

(** X11.  The candidates of step 1 are the active branches, in the order of
    the listing and each once, followed by the source branches of the
    window's merge requests that are not among them, in the order of that
    listing and each once: this is the order in which the commit loop asks,
    and so the order in which the dedupe filter meets the commits. *)
Theorem active_branches_are_queried_first (E : Env) (cfg : Config)
    (untilIst : JS.Date) (sinceIso untilIso : string) :
  let actives := Array_from_Set (filter_Boolean (listed_active E cfg untilIst)) in
  selected E cfg untilIst sinceIso untilIso
  = actives
    ++ Array_from_Set (filter (λ n, n ∉ actives)
                         (listed_sources E cfg sinceIso untilIso)).
Proof.
  intros actives. unfold selected.
  rewrite filter_Boolean_app, Array_from_Set_app, listed_sources_filtered.
  fold actives. f_equal. f_equal. apply list_filter_iff. intros n.
  unfold actives. by rewrite Array_from_Set_elem.
Qed.

Lemma filter_none {A} (P : A → Prop) `{∀ x, Decision (P x)} (xs : list A) :
  (∀ x, x ∈ xs → ¬ P x) → filter P xs = [].
Proof.
  induction xs as [|x rest IH]; intros Hnone; [done|].
  rewrite filter_cons, decide_False by (apply Hnone; by left).
  apply IH. intros y Hy. apply Hnone. by right.
Qed.

Lemma contribution_elem (answer : Reply (list CommitJson)) (b : string)
    (shown : Commit) :
  shown ∈ contribution answer b
  ↔ ∃ data c, answer = Answer data ∧ c ∈ data ∧ shown = Eod.ofBranch b c.
Proof.
  unfold contribution. destruct answer as [data|err].
  - rewrite list_elem_of_fmap. split.
    + intros (c & -> & Hc). by exists data, c.
    + intros (data' & c & [= <-] & Hc & ->). by exists c.
  - split; [by intros ?%elem_of_nil|]. by intros (? & ? & ? & _).
Qed.

(** X12.  Every commit of the digest was returned for a branch among the
    candidates whose commit query answered, and carries the name of that
    branch: the digest shows no commit of a branch that was not selected or
    whose query failed. *)
Theorem digest_commits_come_from_the_candidates (E : Env) (cfg : Config)
    (untilIst : JS.Date) (sinceIso untilIso : string) :
  Forall (λ shown,
            branch shown ∈ selected E cfg untilIst sinceIso untilIso
            ∧ ∃ data c,
                commit_answer E cfg sinceIso untilIso (branch shown) = Answer data
                ∧ c ∈ data ∧ shown = Eod.ofBranch (branch shown) c)
    (digest_commits E cfg untilIst sinceIso untilIso).
Proof.
  apply Forall_forall. intros shown Hshown.
  unfold digest_commits, dedupe in Hshown.
  apply (λ H, elem_of_sublist _ _ _ H (dedupe_from_sublist _ _)) in Hshown.
  apply list_elem_of_bind in Hshown as (b & Hc & Hb).
  apply contribution_elem in Hc as (data & c & Hanswer & Hin & ->).
  cbn [branch Eod.ofBranch]. split; [exact Hb|]. by exists data, c.
Qed.

(** X13.  A commit that several candidate branches return is shown with the
    first of them in the order of the candidates: when the branch [b]
    returns a commit that no earlier candidate returns, the digest has
    exactly one record of that commit, and it names [b]. *)
Theorem commit_is_shown_with_its_first_branch (E : Env) (cfg : Config)
    (untilIst : JS.Date) (sinceIso untilIso : string)
    (pre post : list string) (b : string) (data : list CommitJson)
    (c : CommitJson) :
  selected E cfg untilIst sinceIso untilIso = pre ++ b :: post →
  commit_answer E cfg sinceIso untilIso b = Answer data →
  c ∈ data →
  (∀ b' data' c', b' ∈ pre →
     commit_answer E cfg sinceIso untilIso b' = Answer data' →
     c' ∈ data' → c_id c' ≠ c_id c) →
  ∃ c0, c0 ∈ data ∧ c_id c0 = c_id c
        ∧ filter (λ shown, id shown = c_id c)
            (digest_commits E cfg untilIst sinceIso untilIso)
          = [Eod.ofBranch b c0].
Proof.
  intros Hselected Hanswer Hc Hfirst.
  unfold digest_commits, dedupe. rewrite dedupe_from_filter_id.
  rewrite decide_False by apply not_elem_of_empty.
  rewrite Hselected, bind_app, bind_cons, !filter_app.
  rewrite (filter_none _ (pre ≫= _)); last first.
  { intros shown (b' & Hshown & Hb')%list_elem_of_bind.
    apply contribution_elem in Hshown as (data' & c' & Hanswer' & Hc' & ->).
    cbn [id Eod.ofBranch]. by apply (Hfirst b' data' c'). }
  rewrite app_nil_l, Hanswer. cbn [contribution].
  assert (Hsome : Eod.ofBranch b c
                  ∈ filter (λ shown, id shown = c_id c) (Eod.ofBranch b <$> data)).
  { apply list_elem_of_filter. split; [done|].
    apply list_elem_of_fmap. by exists c. }
  destruct (filter (λ shown, id shown = c_id c) (Eod.ofBranch b <$> data))
    as [|first rest] eqn:Hfilter; [by apply elem_of_nil in Hsome|].
  assert (Hin : first ∈ filter (λ shown, id shown = c_id c)
                          (Eod.ofBranch b <$> data))
    by (rewrite Hfilter; by left).
  apply list_elem_of_filter in Hin as [Hid Hin].
  apply list_elem_of_fmap in Hin as (c0 & -> & Hc0).
  exists c0. split; [exact Hc0|]. split; [exact Hid|]. reflexivity.
Qed.

Lemma commit_is_shown_with_its_first_branch_witness :
  ∃ c0, c0 ∈ [Sample.commitOf "a1" "Add window";
              Sample.commitOf "b2" "Fix dedupe"]
        ∧ c_id c0 = "b2"
        ∧ filter (λ shown, id shown = "b2")
            (digest_commits Sample.E Sample.cfg (JS.Valid 1704133800000)
               Sample.sinceIso Sample.untilIso)
          = [Eod.ofBranch "main" c0].
Proof.
  apply (commit_is_shown_with_its_first_branch Sample.E Sample.cfg
           (JS.Valid 1704133800000) Sample.sinceIso Sample.untilIso
           [] ["feature-x"; "gone"; "flaky"; "forbidden"] "main"
           [Sample.commitOf "a1" "Add window"; Sample.commitOf "b2" "Fix dedupe"]
           (Sample.commitOf "b2" "Fix dedupe")).
  - reflexivity.
  - reflexivity.
  - apply list_elem_of_In. simpl. tauto.
  - intros b' data' c' Hb'. by apply elem_of_nil in Hb'.
Defined.

(* ===================================================================== *)
(** * The debug route as a whole *)
(* ===================================================================== *)

Section DebugRuns.
Context (E : Env) (cfg : Config).

Lemma dates_parse_spec (data : list BranchJson) :
  dates_parse E data = true
  ↔ ∀ b c, b ∈ data → commit b = Some c →
           Date_parse E (created_at c) ≠ JS.Invalid.
Proof.
  unfold dates_parse. rewrite forallb_forall. split.
  - intros Hall b c Hb Hc Hdate.
    specialize (Hall b (proj1 (list_elem_of_In _ _) Hb)).
    by rewrite Hc, Hdate in Hall.
  - intros Hvalid b Hb. apply list_elem_of_In in Hb.
    destruct (commit b) as [c|] eqn:Hc; [|done].
    specialize (Hvalid b c Hb Hc).
    by destruct (Date_parse E (created_at c)).
Qed.

Lemma debug_branchInfo_throws (cut : JS.Date) (b : BranchJson)
    (c : BranchCommitJson) (w : World) :
  commit b = Some c → Date_parse E (created_at c) = JS.Invalid →
  Debug.branchInfo E cut b w = (Thrown RangeError_invalid_time, w).
Proof.
  intros Hc Hdate. unfold Debug.branchInfo. rewrite Hc. simpl.
  by rewrite Hdate.
Qed.

(** The [map] of step 1 throws as soon as one commit date is no date. *)
Lemma debug_branches_throw (cut : JS.Date) (data : list BranchJson)
    (w : World) :
  dates_parse E data = false →
  mapM (Debug.branchInfo E cut) data w = (Thrown RangeError_invalid_time, w).
Proof.
  induction data as [|b rest IH]; [done|].
  unfold dates_parse. cbn [forallb]. fold (dates_parse E rest).
  intros Hbad. cbn [mapM]. rewrite run_bind.
  destruct (debug_branchInfo_run E cut b w)
    as [(c & Hc & Hdate & Hrun)|(info & Hrun & _)]; rewrite Hrun; [done|].
  rewrite run_bind. rewrite IH; [done|].
  destruct (dates_parse E rest); [|done].
  rewrite andb_true_r in Hbad.
  destruct (commit b) as [c|] eqn:Hc; [|done].
  destruct (Date_parse E (created_at c)) eqn:Hdate; [|done].
  rewrite (debug_branchInfo_throws cut b c w Hc Hdate) in Hrun. discriminate.
Qed.

Lemma debug_branches_names (cut : JS.Date) (data : list BranchJson)
    (infos : list Debug.BranchInfo) (w w' : World) :
  mapM (Debug.branchInfo E cut) data w = (Returned infos, w') →
  Debug.bi_name <$> infos = name <$> data.
Proof.
  induction data as [|b rest IH] in infos, w, w' |- *.
  - by intros [= <- <-].
  - cbn [mapM]. rewrite run_bind.
    destruct (debug_branchInfo_run E cut b w)
      as [(c & _ & _ & ->)|(info & -> & Hname & _)]; [done|].
    rewrite run_bind.
    destruct (mapM (Debug.branchInfo E cut) rest w) as [[infos'|e] w''] eqn:Hrest;
      [|done].
    rewrite run_ret. intros [= <- <-].
    by rewrite !fmap_cons, Hname, (IH _ _ _ Hrest).
Qed.

(** Step 1 of the debug route, whatever the host answers. *)
Lemma debug_fetchBranches_full (untilUtc : JS.Date) (errors : list string)
    (w : World) :
  ∃ infos stats,
    Debug.fetchBranches E cfg untilUtc errors w
    = (Returned (infos, stats,
                 errors ++ error_entry "Branch" (listing_failure E cfg)),
       logged w (error_line "Branch" (listing_failure E cfg))
         [CallGet (branchesRequest cfg)])
    ∧ Debug.activeBranches infos = debug_active E cfg untilUtc
    ∧ match listing_failure E cfg with
      | Some _ => infos = [] ∧ stats = None
      | None =>
          ∃ data, gitlab_branches E (branchesRequest cfg) = Answer data
                  ∧ Debug.bi_name <$> infos = name <$> data
                  ∧ stats = Some {| Debug.total := length data;
                                    Debug.active :=
                                      length (Debug.activeBranches infos) |}
      end.
Proof.
  unfold Debug.fetchBranches, debug_active, listing_failure, listed_active.
  rewrite run_try_catch, run_bind, run_axios_get.
  destruct (gitlab_branches E (branchesRequest cfg)) as [data|err] eqn:Hdata.
  - cbv zeta. rewrite run_bind.
    destruct (dates_parse E data) eqn:Hdates.
    + destruct (debug_branches_run E (cutoff untilUtc) data
                  (logged w [] [CallGet (branchesRequest cfg)])
                  (proj1 (dates_parse_spec data) Hdates)) as [infos Hinfos].
      rewrite Hinfos, run_ret. eexists _, _. cbn [error_entry error_line].
      rewrite app_nil_r. split; [reflexivity|].
      destruct (debug_branches_returned _ _ _ _ _ _ Hinfos) as [_ Hactive].
      split; [exact Hactive|]. exists data. split; [done|].
      split; [by apply (debug_branches_names _ _ _ _ _ Hinfos)|].
      unfold Debug.activeBranches. by rewrite length_fmap.
    + rewrite debug_branches_throw by done.
      rewrite run_bind, run_console_error, run_ret, logged_logged.
      eexists _, _. split; [reflexivity|]. done.
  - rewrite run_bind, run_console_error, run_ret, logged_logged.
    eexists _, _. split; [reflexivity|]. done.
Qed.

(** Step 2 of the debug route, whatever the host answers. *)
Lemma debug_fetchMRs_full (sinceIso untilIso : string) (errors : list string)
    (w : World) :
  let reply :=
    gitlab_merge_requests E (windowMRsRequest cfg sinceIso untilIso) in
  Debug.fetchMRs E cfg sinceIso untilIso errors w
  = (Returned ((λ data : list MRJson, Debug.updatedMR <$> data) <$> answer_of reply,
               listed_sources E cfg sinceIso untilIso,
               errors ++ error_entry "MR" (failure_of reply)),
     logged w (error_line "MR" (failure_of reply))
       [CallGet (windowMRsRequest cfg sinceIso untilIso)]).
Proof.
  intros reply. unfold Debug.fetchMRs, listed_sources. fold reply.
  rewrite run_try_catch, run_bind, run_axios_get. fold reply.
  destruct reply as [data|err].
  - rewrite run_ret. cbn [error_entry error_line failure_of answer_of fmap
                           option_fmap option_map].
    by rewrite app_nil_r.
  - by rewrite run_bind, run_console_error, run_ret, logged_logged.
Qed.

(** Step 5 of the debug route, whatever the host answers. *)
Lemma debug_fetchCreated_full (sinceIso untilIso : string)
    (errors : list string) (w : World) :
  let reply := gitlab_merge_requests E (createdRequest cfg sinceIso untilIso) in
  Debug.fetchCreated E cfg sinceIso untilIso errors w
  = (Returned ((λ data : list MRJson, Debug.createdMR <$> data) <$> answer_of reply,
               errors ++ error_entry "Created MRs" (failure_of reply)),
     logged w (error_line "Created MRs" (failure_of reply))
       [CallGet (createdRequest cfg sinceIso untilIso)]).
Proof.
  intros reply. unfold Debug.fetchCreated. fold reply.
  rewrite run_try_catch, run_bind, run_axios_get. fold reply.
  destruct reply as [data|err].
  - rewrite run_ret. cbn [error_entry error_line failure_of answer_of fmap
                           option_fmap option_map].
    by rewrite app_nil_r.
  - by rewrite run_bind, run_console_error, run_ret, logged_logged.
Qed.

(** Step 6 of the debug route, whatever the host answers. *)
Lemma debug_fetchReviewed_full (sinceIso untilIso : string)
    (errors : list string) (w : World) :
  let reply := gitlab_merge_requests E (reviewedRequest cfg sinceIso untilIso) in
  Debug.fetchReviewed E cfg sinceIso untilIso errors w
  = (Returned ((λ data : list MRJson, Debug.reviewedMR <$> data) <$> answer_of reply,
               errors ++ error_entry "Reviewed MRs" (failure_of reply)),
     logged w (error_line "Reviewed MRs" (failure_of reply))
       [CallGet (reviewedRequest cfg sinceIso untilIso)]).
Proof.
  intros reply. unfold Debug.fetchReviewed. fold reply.
  rewrite run_try_catch, run_bind, run_axios_get. fold reply.
  destruct reply as [data|err].
  - rewrite run_ret. cbn [error_entry error_line failure_of answer_of fmap
                           option_fmap option_map].
    by rewrite app_nil_r.
  - by rewrite run_bind, run_console_error, run_ret, logged_logged.
Qed.

(** The body of the debug route once the window is valid. *)
Lemma debugInfo_run (dateParam : option string) (since until : Z) (w : World) :
  Debug.window E dateParam = (JS.Valid since, JS.Valid until) →
  let sinceIso := iso_text E since in
  let untilIso := iso_text E until in
  let branches := debug_selected E cfg (JS.Valid until) sinceIso untilIso in
  let perBranch := debug_per_branch E cfg sinceIso untilIso branches in
  let mrs :=
    {| Debug.updatedInWindow :=
         (λ data : list MRJson, Debug.updatedMR <$> data)
           <$> answer_of (gitlab_merge_requests E
                            (windowMRsRequest cfg sinceIso untilIso));
       Debug.createdByUser :=
         (λ data : list MRJson, Debug.createdMR <$> data)
           <$> answer_of (gitlab_merge_requests E
                            (createdRequest cfg sinceIso untilIso));
       Debug.reviewedByUser :=
         (λ data : list MRJson, Debug.reviewedMR <$> data)
           <$> answer_of (gitlab_merge_requests E
                            (reviewedRequest cfg sinceIso untilIso)) |} in
  ∃ infos stats,
    Debug.debugInfo E cfg dateParam w
    = (Returned
         {| Debug.timeWindow :=
              {| Debug.since := sinceIso; Debug.until := untilIso;
                 Debug.sinceIST := formatIstLabel E (JS.Valid since);
                 Debug.untilIST := formatIstLabel E (JS.Valid until) |};
            Debug.branches := infos;
            Debug.branchStats := stats;
            Debug.mrsSummary := mrs;
            Debug.branchSelection :=
              {| Debug.sel_activeBranches :=
                   length (debug_active E cfg (JS.Valid until));
                 Debug.sel_mrBranches :=
                   length (listed_sources E cfg sinceIso untilIso);
                 Debug.combinedUnique := length branches;
                 Debug.sel_branches := branches |};
            Debug.commitsPerBranch := perBranch;
            Debug.errors := debug_errors E cfg sinceIso untilIso;
            Debug.summary := Debug.summarise branches perBranch mrs |},
       logged w (debug_lines E cfg (JS.Valid until) sinceIso untilIso)
         (debug_calls E cfg (JS.Valid until) sinceIso untilIso))
    ∧ match listing_failure E cfg with
      | Some _ => infos = [] ∧ stats = None
      | None =>
          ∃ data, gitlab_branches E (branchesRequest cfg) = Answer data
                  ∧ Debug.bi_name <$> infos = name <$> data
                  ∧ stats = Some {| Debug.total := length data;
                                    Debug.active :=
                                      length (Debug.activeBranches infos) |}
      end.
Proof.
  intros Hwindow sinceIso untilIso branches perBranch mrs.
  destruct (debug_fetchBranches_full (JS.Valid until) [] w)
    as (infos & stats & Hrun & Hactive & Hfacts).
  exists infos, stats. split; [|exact Hfacts].
  unfold Debug.debugInfo. rewrite Hwindow. cbv beta iota.
  cbn [toISOString].
  rewrite run_bind, run_ret. cbv beta iota.
  rewrite run_bind, run_ret. cbv beta iota.
  fold sinceIso untilIso.
  rewrite run_bind, Hrun. cbv beta iota.
  rewrite run_bind, debug_fetchMRs_full. cbv beta iota zeta.
  rewrite Hactive. fold branches.
  rewrite run_bind, debug_collectCommits_run. cbv beta iota.
  fold (debug_per_branch E cfg sinceIso untilIso branches). fold perBranch.
  rewrite run_bind, debug_fetchCreated_full. cbv beta iota zeta.
  rewrite run_bind, debug_fetchReviewed_full. cbv beta iota zeta.
  rewrite run_ret, !logged_logged. fold mrs.
  rewrite app_nil_l, <- !app_assoc. reflexivity.
Qed.

End DebugRuns.

Lemma debug_selected_NoDup (E : Env) (cfg : Config) (untilUtc : JS.Date)
    (sinceIso untilIso : string) :
  NoDup (debug_selected E cfg untilUtc sinceIso untilIso).
Proof.
  unfold debug_selected. rewrite allBranches_as_selected.
  apply Array_from_Set_NoDup.
Qed.

(** X14.  Once the window is valid, [GET] of the debug route answers 200
    whatever the source-control host does: no failed listing, commit query
    or merge-request query fails the request.  Every failed step leaves one
    entry in [errors], in the order of the steps (branches, merge requests,
    created, reviewed), and its part of [mrsSummary] undefined; the commit
    loop asks once for each selected branch, no branch twice, and files
    under each branch its commits or the text of its failure, but for a
    branch named [__proto__], which gets no entry. *)
Theorem debug_route_reports_every_failure (E : Env) (cfg : Config)
    (date : option string) (since until : Z) (w : World) :
  Debug.window E date = (JS.Valid since, JS.Valid until) →
  let sinceIso := iso_text E since in
  let untilIso := iso_text E until in
  let branches := debug_selected E cfg (JS.Valid until) sinceIso untilIso in
  ∃ info,
    Debug.GET E cfg date w
    = (Returned {| Debug.http_status := 200; Debug.body := Debug.BodyInfo info |},
       logged w (debug_lines E cfg (JS.Valid until) sinceIso untilIso)
         ([CallGet (branchesRequest cfg);
           CallGet (windowMRsRequest cfg sinceIso untilIso)]
          ++ ((λ b, CallGet (commitsRequest cfg b sinceIso untilIso))
                <$> branches)
          ++ [CallGet (createdRequest cfg sinceIso untilIso);
              CallGet (reviewedRequest cfg sinceIso untilIso)]))
    ∧ Debug.errors info
      = error_entry "Branch" (listing_failure E cfg)
        ++ error_entry "MR"
             (failure_of (gitlab_merge_requests E
                            (windowMRsRequest cfg sinceIso untilIso)))
        ++ error_entry "Created MRs"
             (failure_of (gitlab_merge_requests E
                            (createdRequest cfg sinceIso untilIso)))
        ++ error_entry "Reviewed MRs"
             (failure_of (gitlab_merge_requests E
                            (reviewedRequest cfg sinceIso untilIso)))
    ∧ Debug.mrsSummary info
      = {| Debug.updatedInWindow :=
             (λ data : list MRJson, Debug.updatedMR <$> data)
               <$> answer_of (gitlab_merge_requests E
                                (windowMRsRequest cfg sinceIso untilIso));
           Debug.createdByUser :=
             (λ data : list MRJson, Debug.createdMR <$> data)
               <$> answer_of (gitlab_merge_requests E
                                (createdRequest cfg sinceIso untilIso));
           Debug.reviewedByUser :=
             (λ data : list MRJson, Debug.reviewedMR <$> data)
               <$> answer_of (gitlab_merge_requests E
                                (reviewedRequest cfg sinceIso untilIso)) |}
    ∧ Debug.sel_branches (Debug.branchSelection info) = branches
    ∧ NoDup branches
    ∧ (∀ b, Debug.commitsPerBranch info !! b
            = if decide (b ∈ branches ∧ b ≠ "__proto__")
              then Some (debug_entry E (commit_answer E cfg sinceIso untilIso b))
              else None)
    ∧ match listing_failure E cfg with
      | Some _ => Debug.branches info = [] ∧ Debug.branchStats info = None
      | None =>
          ∃ data, gitlab_branches E (branchesRequest cfg) = Answer data
                  ∧ Debug.bi_name <$> Debug.branches info = name <$> data
                  ∧ Debug.branchStats info
                    = Some {| Debug.total := length data;
                              Debug.active :=
                                length (Debug.activeBranches
                                          (Debug.branches info)) |}
      end.
Proof.
  intros Hwindow sinceIso untilIso branches.
  destruct (debugInfo_run E cfg date since until w Hwindow)
    as (infos & stats & Hrun & Hfacts).
  eexists. unfold Debug.GET.
  rewrite run_try_catch, run_bind, Hrun, run_ret.
  split; [reflexivity|]. cbn [Debug.errors Debug.mrsSummary Debug.branchSelection
                              Debug.sel_branches Debug.commitsPerBranch
                              Debug.branches Debug.branchStats].
  split; [reflexivity|]. split; [reflexivity|]. split; [reflexivity|].
  split; [apply debug_selected_NoDup|]. split; [|exact Hfacts].
  intros b. unfold debug_per_branch. rewrite foldl_Object_set_lookup.
  fold sinceIso untilIso branches.
  by destruct (decide (b ∈ branches ∧ b ≠ "__proto__")).
Qed.

Lemma debug_route_reports_every_failure_witness :
  let E := with_branches
             (with_merge_requests Sample.E (λ _, Failure Sample.network_error))
             (λ _, Failure (Sample.http_error 500 "down")) in
  ∃ info,
    Debug.GET E Sample.cfg (Some "2024-01-01") world0
    = (Returned {| Debug.http_status := 200; Debug.body := Debug.BodyInfo info |},
       logged world0
         (debug_lines E Sample.cfg (JS.Valid 1704133800000)
            (iso_text E 1704047400000) (iso_text E 1704133800000))
         [CallGet (branchesRequest Sample.cfg);
          CallGet (windowMRsRequest Sample.cfg (iso_text E 1704047400000)
                     (iso_text E 1704133800000));
          CallGet (createdRequest Sample.cfg (iso_text E 1704047400000)
                     (iso_text E 1704133800000));
          CallGet (reviewedRequest Sample.cfg (iso_text E 1704047400000)
                     (iso_text E 1704133800000))])
    ∧ Debug.errors info
      = ["Branch fetch failed: 500 - Request failed with status code 500";
         "MR fetch failed: undefined - socket hang up";
         "Created MRs fetch failed: undefined - socket hang up";
         "Reviewed MRs fetch failed: undefined - socket hang up"].
Proof.
  intros E.
  assert (Hwindow : Debug.window E (Some "2024-01-01")
                    = (JS.Valid 1704047400000, JS.Valid 1704133800000))
    by (vm_compute; reflexivity).
  destruct (debug_route_reports_every_failure E Sample.cfg
              (Some "2024-01-01") 1704047400000 1704133800000 world0 Hwindow)
    as (info & Hrun & Herrors & _).
  exists info. split; [exact Hrun|]. rewrite Herrors. vm_compute. reflexivity.
Defined.

(** X15.  The debug route renders every commit date of the branch listing
    with [toISOString] inside the [try] of step 1, so one commit date that
    is no date fails the listing as a whole: the report has no branch and no
    branch statistics, [errors] gains the entry of a failed request without
    a status, and only the source branches of the merge requests are left to
    query.  The digest routes compare the dates without rendering them and
    keep the active branches of the same listing. *)
Theorem debug_listing_fails_as_a_whole (E : Env) (cfg : Config)
    (untilUtc : JS.Date) (errors : list string) (w : World)
    (data : list BranchJson) :
  gitlab_branches E (branchesRequest cfg) = Answer data →
  dates_parse E data = false →
  Debug.fetchBranches E cfg untilUtc errors w
  = (Returned ([], None,
               errors ++ ["Branch fetch failed: undefined - Invalid time value"]),
     logged w
       [(LError, ["❌"; "Branch fetch failed: undefined - Invalid time value"])]
       [CallGet (branchesRequest cfg)])
  ∧ ∀ sinceIso untilIso,
      debug_selected E cfg untilUtc sinceIso untilIso
      = Array_from_Set (listed_sources E cfg sinceIso untilIso)
      ∧ selected E cfg untilUtc sinceIso untilIso
        = Array_from_Set
            (filter_Boolean (Eod.activeBranches E untilUtc data)
             ++ listed_sources E cfg sinceIso untilIso).
Proof.
  intros Hdata Hdates.
  assert (Hfailure : listing_failure E cfg = Some RangeError_invalid_time)
    by (unfold listing_failure; by rewrite Hdata, Hdates).
  split.
  - destruct (debug_fetchBranches_full E cfg untilUtc errors w)
      as (infos & stats & Hrun & _ & Hfacts).
    rewrite Hfailure in Hrun, Hfacts. destruct Hfacts as [-> ->].
    exact Hrun.
  - intros sinceIso untilIso. split.
    + unfold debug_selected, debug_active. rewrite Hfailure.
      by rewrite allBranches_as_selected, app_nil_l, listed_sources_filtered.
    + unfold selected, listed_active. rewrite Hdata.
      by rewrite filter_Boolean_app, listed_sources_filtered.
Qed.

Lemma debug_listing_fails_as_a_whole_witness :
  let listing := [Sample.branchOf (Some "main") (Some "2024-01-01T09:00:00Z");
                  Sample.branchOf (Some "old") (Some "yesterday")] in
  let E := with_branches Sample.E (λ _, Answer listing) in
  dates_parse E listing = false
  ∧ (Debug.fetchBranches E Sample.cfg (JS.Valid 1704133800000) [] world0).1
    = Returned ([], None,
                ["Branch fetch failed: undefined - Invalid time value"])
  ∧ debug_selected E Sample.cfg (JS.Valid 1704133800000)
      Sample.sinceIso Sample.untilIso
    = ["feature-x"; "gone"; "flaky"; "forbidden"]
  ∧ selected E Sample.cfg (JS.Valid 1704133800000)
      Sample.sinceIso Sample.untilIso
    = ["main"; "feature-x"; "gone"; "flaky"; "forbidden"].
Proof.
  intros listing E.
  assert (Hdates : dates_parse E listing = false) by reflexivity.
  split; [exact Hdates|].
  destruct (debug_listing_fails_as_a_whole E Sample.cfg
              (JS.Valid 1704133800000) [] world0 listing eq_refl Hdates)
    as [Hrun Hselected].
  destruct (Hselected Sample.sinceIso Sample.untilIso) as [Hdebug Hdigest].
  split; [by rewrite Hrun|]. split.
  - rewrite Hdebug. reflexivity.
  - rewrite Hdigest. reflexivity.
Defined.

(* ===================================================================== *)
(** * The totals of the debug route *)
(* ===================================================================== *)

Section DebugTotals.
Context (E : Env) (cfg : Config) (sinceIso untilIso : string).

Lemma debug_per_branch_snoc (branches : list string) (b : string) :
  debug_per_branch E cfg sinceIso untilIso (branches ++ [b])
  = Object_set b (debug_entry E (commit_answer E cfg sinceIso untilIso b))
      (debug_per_branch E cfg sinceIso untilIso branches).
Proof. unfold debug_per_branch. by rewrite foldl_app. Qed.

Lemma debug_per_branch_fresh (branches : list string) (b : string) :
  b ∉ branches → debug_per_branch E cfg sinceIso untilIso branches !! b = None.
Proof.
  intros Hb. unfold debug_per_branch.
  by rewrite foldl_Object_set_lookup, decide_False by (intros [? ?]; done).
Qed.

Lemma debug_entry_count (b : string) :
  Debug.count (debug_entry E (commit_answer E cfg sinceIso untilIso b))
  = length (contribution (commit_answer E cfg sinceIso untilIso b) b).
Proof.
  destruct (commit_answer E cfg sinceIso untilIso b) as [data|err]; simpl;
    [by rewrite length_fmap|done].
Qed.

(** The sum over [commitsPerBranch] is the number of commits that the
    commit loop of the digest routes pushes for the same branches, but for
    the branch that the object cannot hold. *)
Lemma debug_total_run (branches : list string) :
  NoDup branches →
  map_fold (λ (_ : string) entry sum, (sum + Debug.count entry)%nat) 0%nat
    (debug_per_branch E cfg sinceIso untilIso branches)
  = length (pushed E cfg sinceIso untilIso
              (filter (λ b, b ≠ "__proto__") branches)).
Proof.
  induction branches as [|b branches IH] using rev_ind; intros Hdistinct.
  - reflexivity.
  - apply NoDup_app in Hdistinct as (Hbranches & Hfresh & _).
    rewrite debug_per_branch_snoc, filter_app. unfold Object_set.
    destruct (String.eqb_spec b "__proto__") as [->|Hb].
    + rewrite IH by done. by rewrite app_nil_r.
    + rewrite map_fold_insert_L.
      * rewrite IH by done. unfold pushed.
        rewrite filter_cons, decide_True by done.
        rewrite bind_app, length_app, debug_entry_count.
        cbn [mbind list_bind filter list_filter]. by rewrite app_nil_r.
      * intros; lia.
      * apply debug_per_branch_fresh. intros Hin.
        apply (Hfresh b Hin). by left.
Qed.

Lemma debug_per_branch_size (branches : list string) :
  NoDup branches →
  size (debug_per_branch E cfg sinceIso untilIso branches)
  = length (filter (λ b, b ≠ "__proto__") branches).
Proof.
  induction branches as [|b branches IH] using rev_ind; intros Hdistinct.
  - reflexivity.
  - apply NoDup_app in Hdistinct as (Hbranches & Hfresh & _).
    rewrite debug_per_branch_snoc, filter_app, length_app. unfold Object_set.
    destruct (String.eqb_spec b "__proto__") as [->|Hb].
    + rewrite IH by done. simpl. lia.
    + rewrite map_size_insert_None, IH by
        (done || (apply debug_per_branch_fresh; intros Hin;
                  apply (Hfresh b Hin); by left)).
      rewrite filter_cons, decide_True by done. simpl. lia.
Qed.

(** The totals of step 7 over what step 4 has filed. *)
Lemma summarise_totals (branches : list string) (mrs : Debug.MRsSummary) :
  NoDup branches →
  let counted := filter (λ b, b ≠ "__proto__") branches in
  let s := Debug.summarise branches
             (debug_per_branch E cfg sinceIso untilIso branches) mrs in
  Debug.totalCommitsByYou s = length (pushed E cfg sinceIso untilIso counted)
  ∧ (Debug.branchesWithCommitsLen s ≤ length counted)%nat
  ∧ Debug.totalBranches s = length branches.
Proof.
  intros Hdistinct counted s. split_and!.
  - by apply debug_total_run.
  - cbn [s Debug.summarise Debug.branchesWithCommitsLen].
    rewrite map_size_fmap. unfold counted.
    rewrite <- debug_per_branch_size by done.
    apply map_subseteq_size, map_filter_subseteq.
  - reflexivity.
Qed.

End DebugTotals.

Lemma filter_all {A} (P : A → Prop) `{∀ x, Decision (P x)} (xs : list A) :
  (∀ x, x ∈ xs → P x) → filter P xs = xs.
Proof.
  induction xs as [|x rest IH]; intros Hall; [done|].
  rewrite filter_cons, decide_True by (apply Hall; by left).
  f_equal. apply IH. intros y Hy. apply Hall. by right.
Qed.

(** X16.  The totals that the debug route answers with.  Over the selected
    branches other than [__proto__], for which the object of step 4 has no
    entry, [summary.totalCommitsByYou] is the number of commits that the
    commit loop of the digest routes pushes before its dedupe filter: a
    commit that several branches return counts once for each of them, so
    the total is at least the number of commits left by the dedupe filter,
    and equal to it when the ids pushed are pairwise distinct.
    [branchesWithCommitsLen] never exceeds the number of those branches, nor
    [totalBranches], which counts every selected branch.  When step 1 did
    not fail and no branch is named [__proto__], the deduplicated list is
    the list of commits of the digest. *)
Theorem debug_total_counts_every_branch (E : Env) (cfg : Config)
    (date : option string) (since until : Z) (w : World) :
  Debug.window E date = (JS.Valid since, JS.Valid until) →
  let sinceIso := iso_text E since in
  let untilIso := iso_text E until in
  ∃ info,
    Debug.GET E cfg date w
    = (Returned {| Debug.http_status := 200; Debug.body := Debug.BodyInfo info |},
       logged w (debug_lines E cfg (JS.Valid until) sinceIso untilIso)
         (debug_calls E cfg (JS.Valid until) sinceIso untilIso))
    ∧ let branches := Debug.sel_branches (Debug.branchSelection info) in
      let counted := filter (λ b, b ≠ "__proto__") branches in
      let all := pushed E cfg sinceIso untilIso counted in
      let s := Debug.summary info in
      Debug.totalCommitsByYou s = length all
      ∧ (length (dedupe all) ≤ Debug.totalCommitsByYou s)%nat
      ∧ (NoDup (id <$> all) → length (dedupe all) = Debug.totalCommitsByYou s)
      ∧ (Debug.branchesWithCommitsLen s ≤ length counted)%nat
      ∧ (length counted ≤ Debug.totalBranches s)%nat
      ∧ Debug.totalBranches s = length branches
      ∧ (listing_failure E cfg = None → "__proto__" ∉ branches →
         dedupe all = digest_commits E cfg (JS.Valid until) sinceIso untilIso).
Proof.
  intros Hwindow sinceIso untilIso.
  destruct (debugInfo_run E cfg date since until w Hwindow)
    as (infos & stats & Hrun & _).
  eexists. unfold Debug.GET.
  rewrite run_try_catch, run_bind, Hrun, run_ret.
  split; [reflexivity|].
  cbn [Debug.summary Debug.branchSelection Debug.sel_branches].
  fold sinceIso untilIso.
  set (branches := debug_selected E cfg (JS.Valid until) sinceIso untilIso).
  set (counted := filter (λ b, b ≠ "__proto__") branches).
  set (all := pushed E cfg sinceIso untilIso counted).
  set (s := Debug.summarise branches _ _).
  assert (Htotals :
    Debug.totalCommitsByYou s = length all
    ∧ (Debug.branchesWithCommitsLen s ≤ length counted)%nat
    ∧ Debug.totalBranches s = length branches).
  { apply summarise_totals, debug_selected_NoDup. }
  destruct Htotals as (Htotal & Hwith & Hall).
  rewrite Htotal, Hall. split_and!; [done| | |done| |done|].
  - apply sublist_length, dedupe_from_sublist.
  - intros Hdistinct. unfold dedupe.
    rewrite dedupe_from_distinct; [done..|]. intros k _.
    apply not_elem_of_empty.
  - apply length_filter.
  - intros Hlisting Hproto. unfold all, counted.
    rewrite filter_all by (intros b Hb ->; done).
    unfold branches, digest_commits, pushed.
    unfold debug_selected, debug_active, selected. rewrite Hlisting.
    by rewrite allBranches_as_selected.
Qed.

Lemma debug_total_counts_every_branch_witness :
  let E := with_commits
             (with_branches (with_merge_requests Sample.E (λ _, Answer []))
                (λ _, Answer [Sample.branchOf (Some "main")
                                (Some "2024-01-01T09:00:00Z");
                              Sample.branchOf (Some "__proto__")
                                (Some "2024-01-01T10:00:00Z")]))
             (λ _, Answer [Sample.commitOf "a1" "Add window"]) in
  ∃ info,
    Debug.GET E Sample.cfg (Some "2024-01-01") world0
    = (Returned {| Debug.http_status := 200; Debug.body := Debug.BodyInfo info |},
       logged world0
         (debug_lines E Sample.cfg (JS.Valid 1704133800000)
            (iso_text E 1704047400000) (iso_text E 1704133800000))
         (debug_calls E Sample.cfg (JS.Valid 1704133800000)
            (iso_text E 1704047400000) (iso_text E 1704133800000)))
    ∧ Debug.sel_branches (Debug.branchSelection info) = ["main"; "__proto__"]
    ∧ Debug.totalBranches (Debug.summary info) = 2%nat
    ∧ Debug.totalCommitsByYou (Debug.summary info) = 1%nat.
Proof.
  intros E.
  assert (Hwindow : Debug.window E (Some "2024-01-01")
                    = (JS.Valid 1704047400000, JS.Valid 1704133800000))
    by (vm_compute; reflexivity).
  destruct (debug_total_counts_every_branch E Sample.cfg (Some "2024-01-01")
              1704047400000 1704133800000 world0 Hwindow)
    as (info & Hrun & Htotal & _ & _ & _ & _ & Hall & _).
  exists info. split; [exact Hrun|].
  assert (Hselected : Debug.sel_branches (Debug.branchSelection info)
                      = ["main"; "__proto__"]).
  { pose proof Hrun as Hinfo. vm_compute in Hinfo.
    injection Hinfo as Hinfo. by rewrite <- Hinfo. }
  split; [exact Hselected|].
  rewrite Hall, Htotal, Hselected. split; reflexivity.
Defined.

(** X17.  [POST] answers as [GET] does for the same date: the same
    response after the same calls; the two differ in the label of the line
    that they print when the request fails.  So in both digest routes. *)
Theorem post_answers_as_get (E : Env) (cfg : Config) (date : option string)
    (w : World) :
  ((Eod.POST E cfg date w).1 = (Eod.GET E cfg date w).1
   ∧ calls (Eod.POST E cfg date w).2 = calls (Eod.GET E cfg date w).2)
  ∧ ((EodUtc.POST E cfg date w).1 = (EodUtc.GET E cfg date w).1
     ∧ calls (EodUtc.POST E cfg date w).2 = calls (EodUtc.GET E cfg date w).2).
Proof.
  unfold Eod.POST, Eod.GET, EodUtc.POST, EodUtc.GET.
  rewrite !run_try_catch, !run_bind. split.
  - by destruct (Eod.handleEODRequest E cfg date w) as [[result|err] w'].
  - by destruct (EodUtc.handleEODRequest E cfg date w) as [[result|err] w'].
Qed.

(** X18.  The date in the heading that the second digest route asks the
    summarizer for is the label of the start of the window up to its first
    comma: it has no comma, and the label is this text alone or this text,
    a comma and a rest. *)
Theorem heading_date_stops_at_the_first_comma (label : string) :
  ","%char ∉ list_ascii_of_string (EodUtc.before_comma label)
  ∧ ∃ rest, label = EodUtc.before_comma label +:+ rest
            ∧ (rest = EmptyString ∨ ∃ r, rest = String "," r).
Proof.
  induction label as [|c r [IHno (rest & IHeq & IHrest)]].
  - split; [apply not_elem_of_nil|]. exists EmptyString. by split; [|left].
  - cbn [EodUtc.before_comma]. destruct (Ascii.eqb_spec c ",") as [->|Hc].
    + split; [apply not_elem_of_nil|]. exists (String "," r).
      split; [reflexivity|]. right. by exists r.
    + split.
      * cbn [list_ascii_of_string]. rewrite elem_of_cons.
        intros [Heq|Hin]; [by apply Hc|by apply IHno].
      * exists rest. rewrite append_cons, <- IHeq. by split.
Qed.

(** X19.  A row of [debugInfo.branches].  The callback of step 1 throws
    the [RangeError] of [toISOString] exactly for a branch whose commit date
    is no date, and prints nothing.  Otherwise the row has the name of the
    branch; its message and its author are never empty; a branch without a
    commit is inactive with the date [unknown]; a branch with a commit has
    the ISO text of the instant of its commit and is active exactly when
    that instant is after the cutoff. *)
Theorem branch_row (E : Env) (cut : JS.Date) (b : BranchJson) (w : World) :
  match Debug.branchInfo E cut b w with
  | (Thrown err, w') =>
      w' = w ∧ err = RangeError_invalid_time
      ∧ ∃ c, commit b = Some c ∧ Date_parse E (created_at c) = JS.Invalid
  | (Returned row, w') =>
      w' = w
      ∧ Debug.bi_name row = name b
      ∧ Debug.lastCommitMessage row ≠ EmptyString
      ∧ Debug.lastCommitAuthor row ≠ EmptyString
      ∧ match commit b with
        | None =>
            Debug.lastCommitDate row = "unknown"
            ∧ Debug.lastCommitDateIST row = "unknown"
            ∧ Debug.isActive row = false
            ∧ Debug.lastCommitMessage row = "N/A"
            ∧ Debug.lastCommitAuthor row = "N/A"
        | Some c =>
            ∃ t, Date_parse E (created_at c) = JS.Valid t
                 ∧ Debug.lastCommitDate row = iso_text E t
                 ∧ Debug.isActive row = JS.gt (JS.Valid t) cut
        end
  end.
Proof.
  assert (Hor : ∀ o : option string,
            default "N/A" (or_else o (Some "N/A")) ≠ EmptyString).
  { intros o. unfold or_else. destruct (truthy o) eqn:Ht; [|done].
    destruct o as [text|]; [|done]. by apply truthy_Some. }
  unfold Debug.branchInfo. destruct (commit b) as [c|]; simpl.
  - destruct (Date_parse E (created_at c)) as [|t] eqn:Hdate; simpl.
    + split_and!; [done..|]. by exists c.
    + split_and!; [done|done|apply Hor..|]. by exists t.
  - split_and!; done.
Qed.
